(** * Authentication and second-factor verification core

    A shallow embedding of the login orchestrator, the four factor
    verifiers, the attempt ledger, the device-session registry and the
    token checks of the repository, with the properties its specification
    states about them.

    The persistent store is an explicit value threaded through every call;
    an [await executeQuery(...)] is one atomic step on it and may reject,
    in which case the exception carries the store as it was at that point. *)

From Stdlib Require Import ZArith List String Ascii Bool Lia.
Import ListNotations.

Open Scope string_scope.
Open Scope Z_scope.

(* ================================================================== *)
(** * The persistent store *)

(** Tables touched by the authentication core. Rows keep the columns a
    decision reads; text columns are compared as exact strings (the case
    folding of the collation is left out) and timestamps are seconds. *)
Inductive Table : Type :=
| T_user
| T_business
| T_user_roles
| T_otp
| T_user_2fa_settings
| T_user_authenticator
| T_user_security_question
| T_user_2fa_backup_code
| T_user_2fa_attempt
| T_device_session.

Definition Table_eqb (a b : Table) : bool :=
  match a, b with
  | T_user, T_user | T_business, T_business | T_user_roles, T_user_roles
  | T_otp, T_otp | T_user_2fa_settings, T_user_2fa_settings
  | T_user_authenticator, T_user_authenticator
  | T_user_security_question, T_user_security_question
  | T_user_2fa_backup_code, T_user_2fa_backup_code
  | T_user_2fa_attempt, T_user_2fa_attempt
  | T_device_session, T_device_session => true
  | _, _ => false
  end.

(** [user] joined with [role] and [business] as [getByEmail]/[getById] select it. *)
Record UserRow : Type := {
  u_id : string;
  u_email : string;
  u_password : string;
  u_first_name : string;
  u_last_name : string;
  u_role : string;
  u_account_name : string;
  u_business_id : option string;
  u_business_name : option string;
  u_is_active : bool;
  u_is_deleted : bool;
  u_last_login : option Z
}.

Record BusinessRow : Type := {
  b_id : string;
  b_name : string;
  b_is_active : bool
}.

(** [user_roles] joined with [role]: one grant of a role to a user. *)
Record UserRoleRow : Type := {
  ur_user_id : string;
  ur_role_id : Z;
  ur_role_name : string;
  ur_is_active : bool
}.

Record OtpRow : Type := {
  otp_email : string;
  otp_code : string;
  otp_created_at : Z;
  otp_expires_at : Z;
  otp_is_used : bool
}.

Record SettingsRow : Type := {
  st_user_id : string;
  st_authenticator_enabled : bool;
  st_passkey_enabled : bool;
  st_one_time_code_enabled : bool;
  st_security_question_enabled : bool;
  st_is_2fa_enabled : bool
}.

Record AuthenticatorRow : Type := {
  au_user_id : string;
  au_secret : string;
  au_is_verified : bool;
  au_created_at : Z
}.

Record QuestionRow : Type := {
  q_id : Z;
  q_user_id : string;
  q_question : string;
  q_answer_hash : string
}.

Record BackupCodeRow : Type := {
  bc_id : Z;
  bc_user_id : string;
  bc_code_hash : string;
  bc_is_used : bool;
  bc_used_at : option Z
}.

Record AttemptRow : Type := {
  at_user_id : string;
  at_method : string;
  at_success : bool;
  at_ip_address : option string;
  at_created_at : Z
}.

(** [device_session]; the descriptive columns (device name, versions,
    geolocation) are never read by a decision and are left out. *)
Record SessionRow : Type := {
  s_id : string;
  s_user_id : string;
  s_browser : string;
  s_os : string;
  s_ip_address : string;
  s_is_blocked : bool;
  s_last_active : Z;
  s_created_at : Z
}.

Record Db : Type := {
  users : list UserRow;
  businesses : list BusinessRow;
  user_roles : list UserRoleRow;
  otps : list OtpRow;
  settings : list SettingsRow;
  authenticators : list AuthenticatorRow;
  questions : list QuestionRow;
  backup_codes : list BackupCodeRow;
  attempts : list AttemptRow;
  sessions : list SessionRow
}.

(** The world a request runs in: the store, the database clock
    ([CURRENT_TIMESTAMP], in seconds), the tables whose queries currently
    reject (the pool reports an [error] for them) and whether the mail
    transport fails. *)
Record World : Type := {
  db : Db;
  clock : Z;
  down : list Table;
  mail_down : bool
}.

Definition is_down (t : Table) (w : World) : bool :=
  existsb (Table_eqb t) (down w).

Definition with_db (d : Db) (w : World) : World :=
  {| db := d; clock := clock w; down := down w; mail_down := mail_down w |}.

Definition at_time (t : Z) (w : World) : World :=
  {| db := db w; clock := t; down := down w; mail_down := mail_down w |}.

(* ================================================================== *)
(** * Promises that may reject: a state-and-exception monad *)

Inductive Error : Type :=
| QueryError (t : Table)
| IllegalArguments
| JsonWebTokenError
| TokenExpiredError
| MailError.

Inductive Outcome (A : Type) : Type :=
| Ret (a : A) (w : World)
| Throw (e : Error) (w : World).
Arguments Ret {A} a w.
Arguments Throw {A} e w.

Definition M (A : Type) : Type := World -> Outcome A.

Definition ret {A} (a : A) : M A := fun w => Ret a w.

Definition throw {A} (e : Error) : M A := fun w => Throw e w.

Definition bind {A B} (m : M A) (k : A -> M B) : M B :=
  fun w => match m w with
           | Ret a w' => k a w'
           | Throw e w' => Throw e w'
           end.

(** [try { m } catch (error) { h error }] *)
Definition try_catch {A} (m : M A) (h : Error -> M A) : M A :=
  fun w => match m w with
           | Ret a w' => Ret a w'
           | Throw e w' => h e w'
           end.

Notation "x <- m ;; k" := (bind m (fun x => k))
  (at level 61, m at next level, right associativity).
Notation "m ;;; k" := (bind m (fun _ => k))
  (at level 61, right associativity).

(** The world an outcome leaves behind, and the store in it. *)
Definition world_of {A} (o : Outcome A) : World :=
  match o with Ret _ w => w | Throw _ w => w end.

Definition value_of {A} (o : Outcome A) : option A :=
  match o with Ret a _ => Some a | Throw _ _ => None end.

(** [executeQuery]: one statement on one table, atomic; rejects when the
    pool reports an error. The statement sees [CURRENT_TIMESTAMP]. *)
Definition executeQuery {A} (t : Table) (q : Z -> Db -> A * Db) : M A :=
  fun w =>
    if is_down t w then Throw (QueryError t) w
    else let '(a, d) := q (clock w) (db w) in Ret a (with_db d w).

(** A [SELECT]: an [executeQuery] that reads and writes nothing. *)
Definition select {A} (t : Table) (q : Z -> Db -> A) : M A :=
  fun w =>
    if is_down t w then Throw (QueryError t) w
    else Ret (q (clock w) (db w)) w.

(** An [INSERT]/[UPDATE]/[DELETE]: its result is not used. *)
Definition execute (t : Table) (q : Z -> Db -> Db) : M unit :=
  executeQuery t (fun now d => (tt, q now d)).

(* ================================================================== *)
(** * External capabilities *)

(** [bcrypt.compare] and [bcrypt.hash] on strings and
    [speakeasy.totp.verify] (secret, presented token, current time;
    window 2) are black boxes. *)
Class Crypto : Type := {
  bcrypt_compare : string -> string -> bool;
  bcrypt_hash : string -> string;
  totp_verify : string -> option string -> Z -> bool
}.

(** The request as the core reads it: the bearer token is handled by the
    caller; [requestIp.getClientIp] and the parsed user agent give the rest. *)
Record Req : Type := {
  req_client_ip : option string;
  req_browser : string;
  req_os : string
}.

(** [req ? requestIp.getClientIp(req) : null] *)
Definition client_ip_of (req : option Req) : option string :=
  match req with
  | Some r => req_client_ip r
  | None => None
  end.

(* ================================================================== *)
(** * Strings: [toLowerCase], [trim] and what MySQL calls equal *)

(** A [string] holds the UTF-8 bytes of a text. On text that is all ASCII
    the engine's [String.prototype.toLowerCase], [String.prototype.trim]
    and the regular expression class [\s] act as the functions below. *)

Definition lower_ascii (c : ascii) : ascii :=
  let n := nat_of_ascii c in
  if ((65 <=? n) && (n <=? 90))%nat then ascii_of_nat (n + 32) else c.

Fixpoint ascii_toLowerCase (s : string) : string :=
  match s with
  | EmptyString => EmptyString
  | String c r => String (lower_ascii c) (ascii_toLowerCase r)
  end.

Definition is_white_space (c : ascii) : bool :=
  let n := nat_of_ascii c in
  ((9 <=? n) && (n <=? 13) || (n =? 32))%nat.

Fixpoint trimStart (s : string) : string :=
  match s with
  | EmptyString => EmptyString
  | String c r => if is_white_space c then trimStart r else s
  end.

Fixpoint string_rev_onto (s acc : string) : string :=
  match s with
  | EmptyString => acc
  | String c r => string_rev_onto r (String c acc)
  end.

Definition string_rev (s : string) : string := string_rev_onto s EmptyString.

Definition ascii_trim (s : string) : string :=
  string_rev (trimStart (string_rev (trimStart s))).

Fixpoint ascii_remove_white_space (s : string) : string :=
  match s with
  | EmptyString => EmptyString
  | String c r => if is_white_space c then ascii_remove_white_space r
                  else String c (ascii_remove_white_space r)
  end.

(** Every byte is below 128: the text has ASCII characters only. *)
Fixpoint ascii_text (s : string) : bool :=
  match s with
  | EmptyString => true
  | String c r => (nat_of_ascii c <? 128)%nat && ascii_text r
  end.

(** The string functions of the JavaScript engine the code calls:
    [s.toLowerCase()] (the Unicode case mapping), [s.trim()] (Unicode white
    space and line terminators go from both ends) and
    [s.replace(/\s+/g, empty)] (they go everywhere). Outside ASCII they are
    black boxes; on ASCII text they are the functions above. *)
Class JsString : Type := {
  toLowerCase : string -> string;
  trim : string -> string;
  remove_white_space : string -> string;
  toLowerCase_ascii_text :
    forall s, ascii_text s = true -> toLowerCase s = ascii_toLowerCase s;
  trim_ascii_text :
    forall s, ascii_text s = true -> trim s = ascii_trim s;
  remove_white_space_ascii_text :
    forall s, ascii_text s = true -> remove_white_space s = ascii_remove_white_space s
}.

(** [col = ?] as MySQL evaluates it on text columns such as [otp.otp],
    [otp.email], [user.email] and [device_session.id]: every table of the
    schema is created with
    [COLLATE=utf8mb4_unicode_ci], under which two strings are equal when
    they differ in letter case or in trailing spaces only. The comparison is
    a black box with the laws of an equivalence that ignores a trailing
    space. It is used where the text compared comes from the caller: a
    code, an e-mail address, a session id of the route. Where a model is
    handed an identifier the server minted or read back from a row
    ([user_id], [business_id], the id of a row just selected), the
    comparison is written as equality of strings. *)
Class Collation : Type := {
  sql_eq : string -> string -> bool;
  sql_eq_refl : forall s, sql_eq s s = true;
  sql_eq_sym : forall s t, sql_eq s t = sql_eq t s;
  sql_eq_trans :
    forall s t u, sql_eq s t = true -> sql_eq t u = true -> sql_eq s u = true;
  sql_eq_pad : forall s, sql_eq (s ++ " ") s = true
}.

(* ================================================================== *)
(** * Result sets *)

(** [ORDER BY]: a stable insertion sort on the rows selected. *)
Fixpoint insert_by {A} (le : A -> A -> bool) (x : A) (l : list A) : list A :=
  match l with
  | [] => [x]
  | y :: r => if le x y then x :: l else y :: insert_by le x r
  end.

Definition order_by {A} (le : A -> A -> bool) (l : list A) : list A :=
  fold_right (insert_by le) [] l.

(** [UPDATE ... SET ... WHERE]: every row the condition selects is rewritten. *)
Definition update_where {A} (cond : A -> bool) (set : A -> A) (l : list A) : list A :=
  map (fun r => if cond r then set r else r) l.

(** [DELETE ... WHERE] *)
Definition delete_where {A} (cond : A -> bool) (l : list A) : list A :=
  filter (fun r => negb (cond r)) l.

(** [COUNT( * )] *)
Definition count_where {A} (cond : A -> bool) (l : list A) : Z :=
  Z.of_nat (List.length (filter cond l)).

(** The first row of a result set, [const [row] = await executeQuery(...)]. *)
Definition first_row {A} (l : list A) : option A := hd_error l.

(* Field updates on the store, one per table. *)
Definition set_users (v : list UserRow) (d : Db) : Db :=
  {| users := v; businesses := businesses d; user_roles := user_roles d;
     otps := otps d; settings := settings d; authenticators := authenticators d;
     questions := questions d; backup_codes := backup_codes d;
     attempts := attempts d; sessions := sessions d |}.

Definition set_otps (v : list OtpRow) (d : Db) : Db :=
  {| users := users d; businesses := businesses d; user_roles := user_roles d;
     otps := v; settings := settings d; authenticators := authenticators d;
     questions := questions d; backup_codes := backup_codes d;
     attempts := attempts d; sessions := sessions d |}.

Definition set_backup_codes (v : list BackupCodeRow) (d : Db) : Db :=
  {| users := users d; businesses := businesses d; user_roles := user_roles d;
     otps := otps d; settings := settings d; authenticators := authenticators d;
     questions := questions d; backup_codes := v;
     attempts := attempts d; sessions := sessions d |}.

Definition set_attempts (v : list AttemptRow) (d : Db) : Db :=
  {| users := users d; businesses := businesses d; user_roles := user_roles d;
     otps := otps d; settings := settings d; authenticators := authenticators d;
     questions := questions d; backup_codes := backup_codes d;
     attempts := v; sessions := sessions d |}.

Definition set_sessions (v : list SessionRow) (d : Db) : Db :=
  {| users := users d; businesses := businesses d; user_roles := user_roles d;
     otps := otps d; settings := settings d; authenticators := authenticators d;
     questions := questions d; backup_codes := backup_codes d;
     attempts := attempts d; sessions := v |}.

(* ================================================================== *)
(** * [utils/controller]: the [Response] class *)

(** Signed tokens. [jwt.sign] fixes the payload, the key and the expiry;
    anything else a client sends fails signature verification. *)
Record Claims : Type := {
  c_id : string;
  c_role : string;
  c_temp : bool;
  c_temp2FA : bool;
  c_actualRole : option string
}.

Inductive Token : Type :=
| Malformed
| Signed (key : string) (claims : Claims) (exp : Z).

(** The user object with [business_id] taken out of the spread;
    [v_password] is the hash when [user.password] was not deleted first. *)
Record UserView : Type := {
  v_id : string;
  v_email : string;
  v_first_name : string;
  v_last_name : string;
  v_role : string;
  v_account_name : string;
  v_business_name : option string;
  v_is_active : bool;
  v_is_deleted : bool;
  v_password : option string
}.

(** [const { business_id, ...userWithoutBusinessId } = user] after
    [delete user.password]. *)
Definition userWithoutBusinessId (u : UserRow) : UserView :=
  {| v_id := u_id u; v_email := u_email u; v_first_name := u_first_name u;
     v_last_name := u_last_name u; v_role := u_role u;
     v_account_name := u_account_name u; v_business_name := u_business_name u;
     v_is_active := u_is_active u; v_is_deleted := u_is_deleted u;
     v_password := None |}.

(** The same spread of a row that still has its [password]. *)
Definition userWithoutBusinessId_with_password (u : UserRow) : UserView :=
  {| v_id := u_id u; v_email := u_email u; v_first_name := u_first_name u;
     v_last_name := u_last_name u; v_role := u_role u;
     v_account_name := u_account_name u; v_business_name := u_business_name u;
     v_is_active := u_is_active u; v_is_deleted := u_is_deleted u;
     v_password := Some (u_password u) |}.

Record AvailableMethods : Type := {
  m_authenticator : bool;
  m_oneTimeCode : bool;
  m_securityQuestion : bool;
  m_backupCode : bool
}.

Inductive Body : Type :=
| ErrorBody (message : string)
| MessageBody (message : string)
| Require2FA (tempToken : Token) (availableMethods : AvailableMethods)
             (user : UserView) (message : string)
| RequireRoleSelection (tempToken : Token) (availableRoles : list string)
                       (user : UserView) (message : string)
| LoggedIn (token : Token) (user : UserView) (activeRole : option string).

Record Response : Type := {
  code : Z;
  body : Body
}.

Module Response.

(** [static error(message, code = 400)] *)
Definition error (message : string) (code : Z) : Response :=
  {| code := code; body := ErrorBody message |}.

Definition unauthorized : Response := error "Unauthorized" 401.

Definition ok (b : Body) : Response := {| code := 200; body := b |}.

Definition okMessage (message : string) : Response :=
  {| code := 200; body := MessageBody message |}.

(** [get error() { return this.code < 200 || this.code >= 300; }] *)
Definition is_error (r : Response) : bool :=
  (code r <? 200) || (300 <=? code r).

End Response.

(** Bodies of [Response.ok({...})] beyond those of the login flow. *)
Inductive Payload : Type :=
| Basic (b : Body)
| BackupCodesIssued (message : string) (backupCodes : list string)
| AuthenticatorSecret (secret : string)
| Revoked (revokedCount : nat)
| EmailUpdated (newEmail : string)
| Sessions (sessions : list (SessionRow * bool))
| Questions (questions : list (Z * string)).

(** A [Response] carrying one of them. *)
Record Reply : Type := {
  status : Z;
  payload : Payload
}.

Module Reply.

Definition error (message : string) (code : Z) : Reply :=
  {| status := code; payload := Basic (ErrorBody message) |}.

Definition ok (p : Payload) : Reply := {| status := 200; payload := p |}.

Definition okMessage (message : string) : Reply :=
  {| status := 200; payload := Basic (MessageBody message) |}.

Definition is_error (r : Reply) : bool :=
  (status r <? 200) || (300 <=? status r).

End Reply.

Definition set_settings (v : list SettingsRow) (d : Db) : Db :=
  {| users := users d; businesses := businesses d; user_roles := user_roles d;
     otps := otps d; settings := v; authenticators := authenticators d;
     questions := questions d; backup_codes := backup_codes d;
     attempts := attempts d; sessions := sessions d |}.

Definition set_authenticators (v : list AuthenticatorRow) (d : Db) : Db :=
  {| users := users d; businesses := businesses d; user_roles := user_roles d;
     otps := otps d; settings := settings d; authenticators := v;
     questions := questions d; backup_codes := backup_codes d;
     attempts := attempts d; sessions := sessions d |}.

Definition set_questions (v : list QuestionRow) (d : Db) : Db :=
  {| users := users d; businesses := businesses d; user_roles := user_roles d;
     otps := otps d; settings := settings d; authenticators := authenticators d;
     questions := v; backup_codes := backup_codes d;
     attempts := attempts d; sessions := sessions d |}.

(** [AUTO_INCREMENT]: one past the largest id the table holds. *)
Definition next_id (ids : list Z) : Z := 1 + fold_right Z.max 0 ids.

(* ================================================================== *)
(** * [models/auth]: the OTP table *)

Module authModel.

(** [INSERT INTO otp (email, otp)]; the schema defaults give
    [expires_at = CURRENT_TIMESTAMP + INTERVAL 10 MINUTE], [is_used = FALSE]. *)
Definition insertOtp (email otp : string) : M unit :=
  execute T_otp (fun now d =>
    set_otps (otps d ++ [{| otp_email := email; otp_code := otp;
                            otp_created_at := now;
                            otp_expires_at := now + 600;
                            otp_is_used := false |}]) d).

Section Queries.
Context `{Collation}.

(** The [WHERE] clause of [verifyToken]; an [undefined] parameter is bound
    as [NULL] and selects nothing. Both text comparisons are MySQL's. *)
Definition otp_matches (email : string) (otp : option string) (now : Z)
           (r : OtpRow) : bool :=
  match otp with
  | Some o => sql_eq (otp_code r) o
  | None => false
  end && sql_eq (otp_email r) email
      && (now <? otp_expires_at r) && negb (otp_is_used r).

Definition verifyToken (email : string) (otp : option string) : M bool :=
  res <- select T_otp (fun now d => filter (otp_matches email otp now) (otps d)) ;;
  ret (0 <? Z.of_nat (List.length res)).

(** [UPDATE otp SET is_used = true WHERE email = ?] *)
Definition mark_used (r : OtpRow) : OtpRow :=
  {| otp_email := otp_email r; otp_code := otp_code r;
     otp_created_at := otp_created_at r; otp_expires_at := otp_expires_at r;
     otp_is_used := true |}.

Definition updateOtpStatus (email : string) : M unit :=
  execute T_otp (fun _ d =>
    set_otps (update_where (fun r => sql_eq (otp_email r) email) mark_used (otps d)) d).

End Queries.

End authModel.

(* ================================================================== *)
(** * [models/twoFactor] *)

Module twoFactorModel.

Definition get2FASettings (userId : string) : M (option SettingsRow) :=
  rows <- select T_user_2fa_settings (fun _ d =>
            filter (fun r => (st_user_id r =? userId)%string) (settings d)) ;;
  ret (first_row rows).

(** [ORDER BY created_at DESC LIMIT 1] *)
Definition getAuthenticatorSecret (userId : string) : M (option AuthenticatorRow) :=
  rows <- select T_user_authenticator (fun _ d =>
            order_by (fun a b => au_created_at b <=? au_created_at a)
              (filter (fun r => (au_user_id r =? userId)%string) (authenticators d))) ;;
  ret (first_row rows).

(** [ORDER BY id] *)
Definition getSecurityQuestions (userId : string) : M (list QuestionRow) :=
  select T_user_security_question (fun _ d =>
    order_by (fun a b => q_id a <=? q_id b)
      (filter (fun r => (q_user_id r =? userId)%string) (questions d))).

Definition mark_code_used (now : Z) (r : BackupCodeRow) : BackupCodeRow :=
  {| bc_id := bc_id r; bc_user_id := bc_user_id r; bc_code_hash := bc_code_hash r;
     bc_is_used := true; bc_used_at := Some now |}.

(** The [SELECT] of [useBackupCode]. *)
Definition select_unused_code (userId codeHash : string) (d : Db) : list BackupCodeRow :=
  filter (fun r => (bc_user_id r =? userId)%string
                   && (bc_code_hash r =? codeHash)%string
                   && negb (bc_is_used r)) (backup_codes d).

(** The [UPDATE ... WHERE id = ?] of [useBackupCode]. *)
Definition update_code_used (id : Z) (now : Z) (d : Db) : Db :=
  set_backup_codes (update_where (fun r => bc_id r =? id) (mark_code_used now)
                                 (backup_codes d)) d.

Definition useBackupCode (userId codeHash : string) : M bool :=
  rows <- select T_user_2fa_backup_code (fun _ d => select_unused_code userId codeHash d) ;;
  match first_row rows with
  | None => ret false
  | Some code =>
      execute T_user_2fa_backup_code (fun now d => update_code_used (bc_id code) now d) ;;;
      ret true
  end.

(** The [attemptData] argument of [log2FAAttempt]. *)
Record AttemptData : Type := {
  userId : string;
  method : string;
  success : bool;
  ipAddress : option string
}.

Definition attempt_row (a : AttemptData) (now : Z) : AttemptRow :=
  {| at_user_id := userId a; at_method := method a; at_success := success a;
     at_ip_address := ipAddress a; at_created_at := now |}.

Definition log2FAAttempt (attemptData : AttemptData) : M unit :=
  execute T_user_2fa_attempt (fun now d =>
    set_attempts (attempts d ++ [attempt_row attemptData now]) d).

(** [WHERE user_id = ? AND success = FALSE
     AND created_at > DATE_SUB(CURRENT_TIMESTAMP, INTERVAL ? MINUTE)] *)
Definition recent_failure (userId : string) (minutes : Z) (now : Z)
           (r : AttemptRow) : bool :=
  (at_user_id r =? userId)%string && negb (at_success r)
  && (now - minutes * 60 <? at_created_at r).

Definition getRecentFailedAttempts (userId : string) (minutes : Z) : M Z :=
  select T_user_2fa_attempt (fun now d =>
    count_where (recent_failure userId minutes now) (attempts d)).

(** The flags [upsert2FASettings] takes out of its [settings] argument; a
    flag that is missing or [NULL] is [false] to every reader. *)
Record Flags : Type := {
  authenticator_enabled : bool;
  passkey_enabled : bool;
  one_time_code_enabled : bool;
  security_question_enabled : bool
}.

Definition settings_row (userId : string) (f : Flags) : SettingsRow :=
  {| st_user_id := userId;
     st_authenticator_enabled := authenticator_enabled f;
     st_passkey_enabled := passkey_enabled f;
     st_one_time_code_enabled := one_time_code_enabled f;
     st_security_question_enabled := security_question_enabled f;
     st_is_2fa_enabled := authenticator_enabled f || passkey_enabled f
                          || one_time_code_enabled f || security_question_enabled f |}.

(** [INSERT ... ON DUPLICATE KEY UPDATE] on the primary key [user_id]. *)
Definition upsert2FASettings (userId : string) (flags : Flags) : M unit :=
  execute T_user_2fa_settings (fun _ d =>
    set_settings
      (if existsb (fun r => (st_user_id r =? userId)%string) (settings d)
       then update_where (fun r => (st_user_id r =? userId)%string)
                         (fun _ => settings_row userId flags) (settings d)
       else settings d ++ [settings_row userId flags]) d).

Definition saveAuthenticatorSecret (userId secret : string) : M unit :=
  execute T_user_authenticator (fun _ d =>
    set_authenticators
      (delete_where (fun r => (au_user_id r =? userId)%string) (authenticators d)) d) ;;;
  execute T_user_authenticator (fun now d =>
    set_authenticators
      (authenticators d ++ [{| au_user_id := userId; au_secret := secret;
                               au_is_verified := false; au_created_at := now |}]) d).



Definition deleteAuthenticator (userId : string) : M unit :=
  execute T_user_authenticator (fun _ d =>
    set_authenticators
      (delete_where (fun r => (au_user_id r =? userId)%string) (authenticators d)) d).

(** One element of the [questions] argument of [saveSecurityQuestions]. *)
Record NewQuestion : Type := {
  question : string;
  answerHash : string
}.

(** The [for (const q of questions)] loop, one [INSERT] each. *)
Fixpoint insert_questions (userId : string) (qs : list NewQuestion) : M unit :=
  match qs with
  | [] => ret tt
  | q :: rest =>
      execute T_user_security_question (fun _ d =>
        set_questions
          (questions d ++ [{| q_id := next_id (map q_id (questions d));
                              q_user_id := userId; q_question := question q;
                              q_answer_hash := answerHash q |}]) d) ;;;
      insert_questions userId rest
  end.

Definition saveSecurityQuestions (userId : string) (qs : list NewQuestion) : M unit :=
  execute T_user_security_question (fun _ d =>
    set_questions (delete_where (fun r => (q_user_id r =? userId)%string) (questions d)) d) ;;;
  insert_questions userId qs.

Definition deleteSecurityQuestions (userId : string) : M unit :=
  execute T_user_security_question (fun _ d =>
    set_questions (delete_where (fun r => (q_user_id r =? userId)%string) (questions d)) d).

(** The [for (const hash of codeHashes)] loop, one [INSERT] each. *)
Fixpoint insert_codes (userId : string) (codeHashes : list string) : M unit :=
  match codeHashes with
  | [] => ret tt
  | hash :: rest =>
      execute T_user_2fa_backup_code (fun _ d =>
        set_backup_codes
          (backup_codes d ++ [{| bc_id := next_id (map bc_id (backup_codes d));
                                 bc_user_id := userId; bc_code_hash := hash;
                                 bc_is_used := false; bc_used_at := None |}]) d) ;;;
      insert_codes userId rest
  end.

(** [DELETE ... WHERE user_id = ? AND is_used = FALSE], then the inserts. *)
Definition saveBackupCodes (userId : string) (codeHashes : list string) : M unit :=
  execute T_user_2fa_backup_code (fun _ d =>
    set_backup_codes
      (delete_where (fun r => (bc_user_id r =? userId)%string && negb (bc_is_used r))
                    (backup_codes d)) d) ;;;
  insert_codes userId codeHashes.

Definition getRemainingBackupCodesCount (userId : string) : M Z :=
  select T_user_2fa_backup_code (fun _ d =>
    count_where (fun r => (bc_user_id r =? userId)%string && negb (bc_is_used r))
                (backup_codes d)).

End twoFactorModel.

(** [Date.now()] as the running request sees it. *)
Definition current_time : M Z := fun w => Ret (clock w) w.

(** [await bcrypt.compare(s, hash)]: rejects with "Illegal arguments" when
    [s] is not a string. *)
Definition bcrypt_compare_js `{Crypto} (s : option string) (hash : string) : M bool :=
  match s with
  | None => throw IllegalArguments
  | Some plain => ret (bcrypt_compare plain hash)
  end.

(* ================================================================== *)
(** * [services/twoFactorVerification] *)

Module verificationService.

(** One element of the [answers] array. *)
Record Answer : Type := {
  a_id : Z;
  a_answer : string
}.

(** The [verificationData] argument of [verify2FA]. *)
Record VerificationData : Type := {
  vd_method : string;
  vd_code : option string;
  vd_answers : option (list Answer)
}.

Section Verifiers.
Context `{Crypto} `{JsString} `{Collation}.

Definition verifyAuthenticatorCode (userId : string) (token : option string)
           (req : option Req) : M bool :=
  try_catch
    (authData <- twoFactorModel.getAuthenticatorSecret userId ;;
     match authData with
     | None => ret false
     | Some a =>
         if negb (au_is_verified a) then ret false
         else
           now <- current_time ;;
           let isValid := totp_verify (au_secret a) token now in
           let ipAddress := client_ip_of req in
           twoFactorModel.log2FAAttempt
             {| twoFactorModel.userId := userId;
                twoFactorModel.method := "authenticator";
                twoFactorModel.success := isValid;
                twoFactorModel.ipAddress := ipAddress |} ;;;
           ret isValid
     end)
    (fun _ => ret false).

Definition verifyOneTimeCode (userId email : string) (otp : option string)
           (req : option Req) : M bool :=
  try_catch
    (isValid <- authModel.verifyToken email otp ;;
     let ipAddress := client_ip_of req in
     twoFactorModel.log2FAAttempt
       {| twoFactorModel.userId := userId;
          twoFactorModel.method := "one_time_code";
          twoFactorModel.success := isValid;
          twoFactorModel.ipAddress := ipAddress |} ;;;
     (if isValid then authModel.updateOtpStatus email else ret tt) ;;;
     ret isValid)
    (fun _ => ret false).

(** The question an answer refers to, [questions.find((q) => q.id === answer.id)]. *)
Definition find_question (questions : list QuestionRow) (answer : Answer)
  : option QuestionRow :=
  find (fun q => q_id q =? a_id answer) questions.

(** The [for (const answer of answers)] loop; its value is
    [atLeastOneCorrect] when the loop ends. *)
Fixpoint check_answers (questions : list QuestionRow) (answers : list Answer) : bool :=
  match answers with
  | [] => false
  | answer :: rest =>
      match find_question questions answer with
      | None => check_answers questions rest
      | Some question =>
          let normalizedAnswer := trim (toLowerCase (a_answer answer)) in
          if bcrypt_compare normalizedAnswer (q_answer_hash question)
          then true
          else check_answers questions rest
      end
  end.

Definition verifySecurityQuestionsCode (userId : string)
           (answers : option (list Answer)) (req : option Req) : M bool :=
  try_catch
    (questions <- twoFactorModel.getSecurityQuestions userId ;;
     match questions with
     | [] => ret false
     | _ :: _ =>
         match answers with
         | None | Some [] =>
             let ipAddress := client_ip_of req in
             twoFactorModel.log2FAAttempt
               {| twoFactorModel.userId := userId;
                  twoFactorModel.method := "security_question";
                  twoFactorModel.success := false;
                  twoFactorModel.ipAddress := ipAddress |} ;;;
             ret false
         | Some answers =>
             let atLeastOneCorrect := check_answers questions answers in
             let ipAddress := client_ip_of req in
             twoFactorModel.log2FAAttempt
               {| twoFactorModel.userId := userId;
                  twoFactorModel.method := "security_question";
                  twoFactorModel.success := atLeastOneCorrect;
                  twoFactorModel.ipAddress := ipAddress |} ;;;
             ret atLeastOneCorrect
         end
     end)
    (fun _ => ret false).

(** [SELECT * FROM user_2fa_backup_code WHERE user_id = ? AND is_used = FALSE] *)
Definition unused_codes (userId : string) (d : Db) : list BackupCodeRow :=
  filter (fun r => (bc_user_id r =? userId)%string && negb (bc_is_used r))
         (backup_codes d).

(** The [for (const storedCode of codes)] loop and the failure log after it. *)
Fixpoint scan_codes (userId : string) (code : option string) (req : option Req)
         (codes : list BackupCodeRow) : M bool :=
  match codes with
  | [] =>
      let ipAddress := client_ip_of req in
      twoFactorModel.log2FAAttempt
        {| twoFactorModel.userId := userId;
           twoFactorModel.method := "backup_code";
           twoFactorModel.success := false;
           twoFactorModel.ipAddress := ipAddress |} ;;;
      ret false
  | storedCode :: rest =>
      isValid <- bcrypt_compare_js code (bc_code_hash storedCode) ;;
      if isValid then
        twoFactorModel.useBackupCode userId (bc_code_hash storedCode) ;;;
        let ipAddress := client_ip_of req in
        twoFactorModel.log2FAAttempt
          {| twoFactorModel.userId := userId;
             twoFactorModel.method := "backup_code";
             twoFactorModel.success := true;
             twoFactorModel.ipAddress := ipAddress |} ;;;
        ret true
      else scan_codes userId code req rest
  end.

Definition verifyBackupCode (userId : string) (code : option string)
           (req : option Req) : M bool :=
  try_catch
    (codes <- select T_user_2fa_backup_code (fun _ d => unused_codes userId d) ;;
     scan_codes userId code req codes)
    (fun _ => ret false).

Definition TooManyAttempts : Response :=
  Response.error "Too many failed attempts. Please try again in 30 minutes." 429.

Definition InvalidMethod : Response := Response.error "Invalid 2FA method" 400.

Definition InvalidVerification : Response := Response.error "Invalid verification" 400.

Definition VerificationSuccessful : Response :=
  Response.okMessage "2FA verification successful".

Definition verify2FA (userId email : string) (verificationData : VerificationData)
           (req : option Req) : M Response :=
  try_catch
    (let method := vd_method verificationData in
     let code := vd_code verificationData in
     let answers := vd_answers verificationData in
     failedAttempts <- twoFactorModel.getRecentFailedAttempts userId 30 ;;
     if 5 <=? failedAttempts then ret TooManyAttempts
     else
       let finish (isValid : bool) : M Response :=
         if negb isValid then ret InvalidVerification
         else ret VerificationSuccessful in
       if (method =? "authenticator")%string then
         isValid <- verifyAuthenticatorCode userId code req ;; finish isValid
       else if (method =? "one_time_code")%string then
         isValid <- verifyOneTimeCode userId email code req ;; finish isValid
       else if (method =? "security_question")%string then
         isValid <- verifySecurityQuestionsCode userId answers req ;; finish isValid
       else if (method =? "backup_code")%string then
         isValid <- verifyBackupCode userId code req ;; finish isValid
       else ret InvalidMethod)
    (fun error => throw error).

End Verifiers.

End verificationService.

(* ================================================================== *)
(** * [utils/deviceInfo] *)

(** [s.replace(pat, rep)] with a string pattern: the first occurrence only. *)
Fixpoint replace_first (pat rep s : string) : string :=
  if String.prefix pat s
  then rep ++ substring (String.length pat) (String.length s - String.length pat) s
  else match s with
       | EmptyString => EmptyString
       | String c r => String c (replace_first pat rep r)
       end.

Record DeviceInfo : Type := {
  browser : string;
  os : string;
  ipAddress : string
}.

(** The fields of [extractDeviceInfo] that identify a device. The browser
    and OS names come from the user-agent parser; the address is cleaned here. *)
Definition extractDeviceInfo (req : Req) : DeviceInfo :=
  let ipAddress := match req_client_ip req with Some ip => ip | None => "" end in
  let cleanIp := replace_first "::1" "127.0.0.1" (replace_first "::ffff:" "" ipAddress) in
  {| browser := req_browser req; os := req_os req; ipAddress := cleanIp |}.

Definition isCurrentDevice (req : Req) (sessionData : SessionRow) : bool :=
  let currentDevice := extractDeviceInfo req in
  (ipAddress currentDevice =? s_ip_address sessionData)%string
  && (browser currentDevice =? s_browser sessionData)%string
  && (os currentDevice =? s_os sessionData)%string.

(* ================================================================== *)
(** * [models/user], [models/userRoles], [models/business] *)

Module userModel.

(** [WHERE u.email = ?], MySQL's comparison. *)
Definition getByEmail `{Collation} (email : string) : M (option UserRow) :=
  rows <- select T_user (fun _ d =>
            filter (fun u => sql_eq (u_email u) email) (users d)) ;;
  ret (first_row rows).

Definition getById (id : string) : M (option UserRow) :=
  rows <- select T_user (fun _ d =>
            filter (fun u => (u_id u =? id)%string) (users d)) ;;
  ret (first_row rows).

Definition touch (now : Z) (u : UserRow) : UserRow :=
  {| u_id := u_id u; u_email := u_email u; u_password := u_password u;
     u_first_name := u_first_name u; u_last_name := u_last_name u;
     u_role := u_role u; u_account_name := u_account_name u;
     u_business_id := u_business_id u; u_business_name := u_business_name u;
     u_is_active := u_is_active u; u_is_deleted := u_is_deleted u;
     u_last_login := Some now |}.

Definition updateLastLoggedIn (id : string) : M unit :=
  execute T_user (fun now d =>
    set_users (update_where (fun u => (u_id u =? id)%string) (touch now) (users d)) d).

Definition set_password (password : string) (u : UserRow) : UserRow :=
  {| u_id := u_id u; u_email := u_email u; u_password := password;
     u_first_name := u_first_name u; u_last_name := u_last_name u;
     u_role := u_role u; u_account_name := u_account_name u;
     u_business_id := u_business_id u; u_business_name := u_business_name u;
     u_is_active := u_is_active u; u_is_deleted := u_is_deleted u;
     u_last_login := u_last_login u |}.

Definition updatePassword (id password : string) : M unit :=
  execute T_user (fun _ d =>
    set_users (update_where (fun u => (u_id u =? id)%string) (set_password password)
                            (users d)) d).

Definition set_email (email : string) (u : UserRow) : UserRow :=
  {| u_id := u_id u; u_email := email; u_password := u_password u;
     u_first_name := u_first_name u; u_last_name := u_last_name u;
     u_role := u_role u; u_account_name := u_account_name u;
     u_business_id := u_business_id u; u_business_name := u_business_name u;
     u_is_active := u_is_active u; u_is_deleted := u_is_deleted u;
     u_last_login := u_last_login u |}.

Definition updateEmail (userId newEmail : string) : M unit :=
  execute T_user (fun _ d =>
    set_users (update_where (fun u => (u_id u =? userId)%string) (set_email newEmail)
                            (users d)) d).

End userModel.

Module userRolesModel.

(** [WHERE ur.user_id = ? AND ur.is_active = TRUE ORDER BY r.id DESC],
    then the role names. *)
Definition getUserRoleNames (userId : string) : M (list string) :=
  roles <- select T_user_roles (fun _ d =>
             order_by (fun a b => ur_role_id b <=? ur_role_id a)
               (filter (fun r => (ur_user_id r =? userId)%string && ur_is_active r)
                       (user_roles d))) ;;
  ret (map ur_role_name roles).

End userRolesModel.

Module businessModel.

Definition getById (id : string) : M (option BusinessRow) :=
  rows <- select T_business (fun _ d =>
            filter (fun b => (b_id b =? id)%string) (businesses d)) ;;
  ret (first_row rows).

End businessModel.

(* ================================================================== *)
(** * [models/deviceSession] *)

Module deviceSessionModel.

Section Queries.
Context `{Collation}.

(** [createSession]; [sessionId] is what [uuidv4()] returns in this call. *)
Definition createSession (sessionId userId : string) (info : DeviceInfo) : M string :=
  execute T_device_session (fun now d =>
    set_sessions (sessions d ++
      [{| s_id := sessionId; s_user_id := userId; s_browser := browser info;
          s_os := os info; s_ip_address := ipAddress info; s_is_blocked := false;
          s_last_active := now; s_created_at := now |}]) d) ;;;
  ret sessionId.

(** [WHERE user_id = ? ORDER BY last_active DESC] *)
Definition getUserSessions (userId : string) : M (list SessionRow) :=
  select T_device_session (fun _ d =>
    order_by (fun a b => s_last_active b <=? s_last_active a)
      (filter (fun s => (s_user_id s =? userId)%string) (sessions d))).

(** [WHERE id = ?]: [sessionId] reaches the model from the route, a text
    the caller chooses, so the comparison is MySQL's; so in [blockSession],
    [unblockSession], [deleteSession] and [isSessionBlocked]. *)
Definition getSessionById (sessionId : string) : M (option SessionRow) :=
  rows <- select T_device_session (fun _ d =>
            filter (fun s => sql_eq (s_id s) sessionId) (sessions d)) ;;
  ret (first_row rows).

Definition set_last_active (now : Z) (s : SessionRow) : SessionRow :=
  {| s_id := s_id s; s_user_id := s_user_id s; s_browser := s_browser s;
     s_os := s_os s; s_ip_address := s_ip_address s; s_is_blocked := s_is_blocked s;
     s_last_active := now; s_created_at := s_created_at s |}.

(** [last_active] carries [ON UPDATE CURRENT_TIMESTAMP]: a row whose
    [is_blocked] really changes is stamped as well. *)
Definition set_blocked (v : bool) (now : Z) (s : SessionRow) : SessionRow :=
  {| s_id := s_id s; s_user_id := s_user_id s; s_browser := s_browser s;
     s_os := s_os s; s_ip_address := s_ip_address s; s_is_blocked := v;
     s_last_active := if Bool.eqb (s_is_blocked s) v then s_last_active s else now;
     s_created_at := s_created_at s |}.

Definition updateLastActive (sessionId : string) : M unit :=
  execute T_device_session (fun now d =>
    set_sessions (update_where (fun s => (s_id s =? sessionId)%string)
                               (set_last_active now) (sessions d)) d).

Definition blockSession (sessionId : string) : M unit :=
  execute T_device_session (fun now d =>
    set_sessions (update_where (fun s => sql_eq (s_id s) sessionId)
                               (set_blocked true now) (sessions d)) d).

Definition unblockSession (sessionId : string) : M unit :=
  execute T_device_session (fun now d =>
    set_sessions (update_where (fun s => sql_eq (s_id s) sessionId)
                               (set_blocked false now) (sessions d)) d).

Definition deleteSession (sessionId : string) : M unit :=
  execute T_device_session (fun _ d =>
    set_sessions (delete_where (fun s => sql_eq (s_id s) sessionId) (sessions d)) d).

Definition isSessionBlocked (sessionId : string) : M bool :=
  rows <- select T_device_session (fun _ d =>
            filter (fun s => sql_eq (s_id s) sessionId) (sessions d)) ;;
  ret (match first_row rows with
       | Some session => s_is_blocked session
       | None => false
       end).

Definition deleteAllUserSessions (userId : string) : M unit :=
  execute T_device_session (fun _ d =>
    set_sessions (delete_where (fun s => (s_user_id s =? userId)%string) (sessions d)) d).

End Queries.

End deviceSessionModel.

(* ================================================================== *)
(** * [services/deviceSession]: the self-service endpoints *)

Module deviceSessionService.

Definition SessionNotFound : Response := Response.error "Device session not found" 404.

Definition CannotBlockCurrentDevice : Response :=
  Response.error "Cannot block your current device" 400.

Definition CannotRevokeCurrentDevice : Response :=
  Response.error "Cannot revoke your current device session" 400.

Section Service.
Context `{Collation}.

Definition is_current (req : option Req) (session : SessionRow) : bool :=
  match req with
  | Some r => isCurrentDevice r session
  | None => false
  end.

Definition blockDevice (userId sessionId : string) (req : option Req) : M Response :=
  try_catch
    (session <- deviceSessionModel.getSessionById sessionId ;;
     match session with
     | None => ret SessionNotFound
     | Some session =>
         if negb (s_user_id session =? userId)%string
         then ret (Response.error "Unauthorized to block this device" 403)
         else if is_current req session
         then ret CannotBlockCurrentDevice
         else
           deviceSessionModel.blockSession sessionId ;;;
           ret (Response.okMessage
                  "Device blocked successfully. This device can no longer access your account.")
     end)
    (fun error => throw error).

Definition unblockDevice (userId sessionId : string) : M Response :=
  try_catch
    (session <- deviceSessionModel.getSessionById sessionId ;;
     match session with
     | None => ret SessionNotFound
     | Some session =>
         if negb (s_user_id session =? userId)%string
         then ret (Response.error "Unauthorized to unblock this device" 403)
         else
           deviceSessionModel.unblockSession sessionId ;;;
           ret (Response.okMessage
                  "Device unblocked successfully. This device can now access your account again.")
     end)
    (fun error => throw error).

Definition revokeDevice (userId sessionId : string) (req : option Req) : M Response :=
  try_catch
    (session <- deviceSessionModel.getSessionById sessionId ;;
     match session with
     | None => ret SessionNotFound
     | Some session =>
         if negb (s_user_id session =? userId)%string
         then ret (Response.error "Unauthorized to revoke this device" 403)
         else if is_current req session
         then ret CannotRevokeCurrentDevice
         else
           deviceSessionModel.deleteSession sessionId ;;;
           ret (Response.okMessage
                  "Device session revoked successfully. This device has been logged out.")
     end)
    (fun error => throw error).


(** The [for (const session of sessions)] loop of [revokeAllOtherDevices]. *)
Fixpoint revoke_others (req : option Req) (sessions : list SessionRow)
         (revokedCount : nat) : M nat :=
  match sessions with
  | [] => ret revokedCount
  | session :: rest =>
      if match req with
         | Some r => negb (isCurrentDevice r session)
         | None => false
         end
      then
        deviceSessionModel.deleteSession (s_id session) ;;;
        revoke_others req rest (S revokedCount)
      else revoke_others req rest revokedCount
  end.

Definition revokeAllOtherDevices (userId : string) (req : option Req) : M Reply :=
  try_catch
    (sessions <- deviceSessionModel.getUserSessions userId ;;
     revokedCount <- revoke_others req sessions 0 ;;
     ret (Reply.ok (Revoked revokedCount)))
    (fun error => throw error).

End Service.

End deviceSessionService.

(* ================================================================== *)
(** * Configuration, [jsonwebtoken], the mail service *)

Class Config : Type := {
  jwtSecret : string
}.

Module jwt.

(** [jwt.sign(payload, secret, { expiresIn })], [expiresIn] in seconds. *)
Definition sign (claims : Claims) (secret : string) (expiresIn : Z) : M Token :=
  now <- current_time ;;
  ret (Signed secret claims (now + expiresIn)).

(** [jwt.verify(token, secret)]: the signature first, then the expiry. *)
Definition verify (token : Token) (secret : string) : M Claims :=
  match token with
  | Malformed => throw JsonWebTokenError
  | Signed key claims exp =>
      if negb (key =? secret)%string then throw JsonWebTokenError
      else
        now <- current_time ;;
        if exp <=? now then throw TokenExpiredError else ret claims
  end.

End jwt.

Definition ten_minutes : Z := 600.
Definition seven_days : Z := 604800.

Module emailService.

Definition sendPasswordResetOTPEmail (email name otp : string) : M unit :=
  fun w => if mail_down w then Throw MailError w else Ret tt w.

End emailService.

Module ROLES.
Definition STANDARD_USER : string := "standard_user".
Definition MANAGER : string := "manager".
Definition ADMIN : string := "admin".
Definition SUPER_ADMIN : string := "super_admin".
End ROLES.

Definition ADMIN_ROLES : list string := [ROLES.ADMIN; ROLES.SUPER_ADMIN; ROLES.MANAGER].

(** [array.includes(x)] on strings. *)
Definition includes (l : list string) (x : string) : bool :=
  existsb (fun y => (y =? x)%string) l.

(* ================================================================== *)
(** * [services/twoFactor]: sending the e-mail one-time code *)

Module twoFactorService.

(** [otp] is the six digits [randomInt(100000, 999999).toString()] draws. *)
Definition sendOneTimeCode `{JsString} (user : UserRow) (otp : string) : M Response :=
  try_catch
    (authModel.insertOtp (u_email user) otp ;;;
     emailService.sendPasswordResetOTPEmail (u_email user)
       (trim (u_first_name user ++ " " ++ u_last_name user)) otp ;;;
     ret (Response.okMessage "Verification code sent to your email"))
    (fun error => throw error).

(** [speakeasy.totp.verify] as the enrolment check calls it (cleaned
    secret, six-digit code, current time; window 3, step 30). *)
Class EnrolmentTotp : Type := {
  totp_verify_window3 : string -> string -> Z -> bool
}.

(** [(await get2FASettings(userId)) || {}], read through the four flags. *)
Definition flags_of (settings : option SettingsRow) : twoFactorModel.Flags :=
  match settings with
  | Some r =>
      {| twoFactorModel.authenticator_enabled := st_authenticator_enabled r;
         twoFactorModel.passkey_enabled := st_passkey_enabled r;
         twoFactorModel.one_time_code_enabled := st_one_time_code_enabled r;
         twoFactorModel.security_question_enabled := st_security_question_enabled r |}
  | None =>
      {| twoFactorModel.authenticator_enabled := false;
         twoFactorModel.passkey_enabled := false;
         twoFactorModel.one_time_code_enabled := false;
         twoFactorModel.security_question_enabled := false |}
  end.

(** [{ ...settings, authenticator_enabled: v }] and its siblings. *)
Definition with_authenticator (v : bool) (f : twoFactorModel.Flags) : twoFactorModel.Flags :=
  {| twoFactorModel.authenticator_enabled := v;
     twoFactorModel.passkey_enabled := twoFactorModel.passkey_enabled f;
     twoFactorModel.one_time_code_enabled := twoFactorModel.one_time_code_enabled f;
     twoFactorModel.security_question_enabled := twoFactorModel.security_question_enabled f |}.

Definition with_one_time_code (v : bool) (f : twoFactorModel.Flags) : twoFactorModel.Flags :=
  {| twoFactorModel.authenticator_enabled := twoFactorModel.authenticator_enabled f;
     twoFactorModel.passkey_enabled := twoFactorModel.passkey_enabled f;
     twoFactorModel.one_time_code_enabled := v;
     twoFactorModel.security_question_enabled := twoFactorModel.security_question_enabled f |}.

Definition with_security_question (v : bool) (f : twoFactorModel.Flags)
  : twoFactorModel.Flags :=
  {| twoFactorModel.authenticator_enabled := twoFactorModel.authenticator_enabled f;
     twoFactorModel.passkey_enabled := twoFactorModel.passkey_enabled f;
     twoFactorModel.one_time_code_enabled := twoFactorModel.one_time_code_enabled f;
     twoFactorModel.security_question_enabled := v |}.

(** One element of the [questionsAndAnswers] argument. *)
Record QuestionAndAnswer : Type := {
  qa_question : string;
  qa_answer : string
}.



Section Service.
Context `{Crypto} `{EnrolmentTotp} `{JsString}.

(** [draw i] is the [i]-th value of
    [crypto.randomBytes(4).toString("hex").toUpperCase()] in this call. *)
Definition generateBackupCodes (userId : string) (draw : nat -> string)
  : M (list string) :=
  let codes := map draw (seq 0 10) in
  let codeHashes := map bcrypt_hash codes in
  twoFactorModel.saveBackupCodes userId codeHashes ;;;
  ret codes.

Definition regenerateBackupCodes (userId : string) (draw : nat -> string) : M Reply :=
  try_catch
    (backupCodes <- generateBackupCodes userId draw ;;
     ret (Reply.ok (BackupCodesIssued
                      "New backup codes generated. Save them in a safe place."
                      backupCodes)))
    (fun error => throw error).

(** [secret] is the base32 secret [speakeasy.generateSecret] draws. *)
Definition setupAuthenticator (user : UserRow) (secret : string) : M Reply :=
  try_catch
    (twoFactorModel.saveAuthenticatorSecret (u_id user) secret ;;;
     ret (Reply.ok (AuthenticatorSecret secret)))
    (fun error => throw error).


Definition disableAuthenticator (userId : string) : M Reply :=
  try_catch
    (twoFactorModel.deleteAuthenticator userId ;;;
     settings <- twoFactorModel.get2FASettings userId ;;
     twoFactorModel.upsert2FASettings userId
       (with_authenticator false (flags_of settings)) ;;;
     ret (Reply.okMessage "Authenticator disabled successfully"))
    (fun error => throw error).

Definition enableOneTimeCode (userId : string) (draw : nat -> string) : M Reply :=
  try_catch
    (settings <- twoFactorModel.get2FASettings userId ;;
     twoFactorModel.upsert2FASettings userId
       (with_one_time_code true (flags_of settings)) ;;;
     backupCodes <- generateBackupCodes userId draw ;;
     ret (Reply.ok (BackupCodesIssued "One-time code via email enabled successfully"
                                      backupCodes)))
    (fun error => throw error).

Definition disableOneTimeCode (userId : string) : M Reply :=
  try_catch
    (settings <- twoFactorModel.get2FASettings userId ;;
     twoFactorModel.upsert2FASettings userId
       (with_one_time_code false (flags_of settings)) ;;;
     ret (Reply.okMessage "One-time code disabled successfully"))
    (fun error => throw error).

(** [qa.answer.toLowerCase().trim()], hashed. *)
Definition hashed_question (qa : QuestionAndAnswer) : twoFactorModel.NewQuestion :=
  {| twoFactorModel.question := qa_question qa;
     twoFactorModel.answerHash := bcrypt_hash (trim (toLowerCase (qa_answer qa))) |}.

Definition setupSecurityQuestions (userId : string)
           (questionsAndAnswers : list QuestionAndAnswer) (draw : nat -> string)
  : M Reply :=
  try_catch
    (let questions := map hashed_question questionsAndAnswers in
     twoFactorModel.saveSecurityQuestions userId questions ;;;
     settings <- twoFactorModel.get2FASettings userId ;;
     twoFactorModel.upsert2FASettings userId
       (with_security_question true (flags_of settings)) ;;;
     backupCodes <- generateBackupCodes userId draw ;;
     ret (Reply.ok (BackupCodesIssued "Security questions enabled successfully"
                                      backupCodes)))
    (fun error => throw error).

Definition disableSecurityQuestions (userId : string) : M Reply :=
  try_catch
    (twoFactorModel.deleteSecurityQuestions userId ;;;
     settings <- twoFactorModel.get2FASettings userId ;;
     twoFactorModel.upsert2FASettings userId
       (with_security_question false (flags_of settings)) ;;;
     ret (Reply.okMessage "Security questions disabled successfully"))
    (fun error => throw error).

Definition getSecurityQuestionsForVerification (userId : string) : M Reply :=
  try_catch
    (questions <- twoFactorModel.getSecurityQuestions userId ;;
     ret (Reply.ok (Questions (map (fun q => (q_id q, q_question q)) questions))))
    (fun error => throw error).

(** The loop of [verifySecurityAnswers]: every answer must name a stored
    question and match it. *)
Fixpoint all_answers_correct (questions : list QuestionRow)
         (answers : list verificationService.Answer) : bool :=
  match answers with
  | [] => true
  | answer :: rest =>
      match verificationService.find_question questions answer with
      | None => false
      | Some question =>
          if bcrypt_compare (trim (toLowerCase (verificationService.a_answer answer)))
                            (q_answer_hash question)
          then all_answers_correct questions rest
          else false
      end
  end.

Definition verifySecurityAnswers (userId : string)
           (answers : list verificationService.Answer) : M bool :=
  try_catch
    (questions <- twoFactorModel.getSecurityQuestions userId ;;
     ret (all_answers_correct questions answers))
    (fun _ => ret false).

End Service.

End twoFactorService.

(* ================================================================== *)
(** * [services/auth]: the login orchestrator *)

Module authService.

Definition DeviceBlocked : Response :=
  Response.error
    "This device has been blocked from accessing this account. Please contact support or unblock from another device."
    403.

Section Orchestrator.
Context `{Crypto} `{Config} `{JsString} `{Collation}.

(** The predicate of [sessions.find(...)] in [isDeviceBlocked]. *)
Definition blocked_match (deviceInfo : DeviceInfo) (session : SessionRow) : bool :=
  s_is_blocked session
  && (s_ip_address session =? ipAddress deviceInfo)%string
  && (s_browser session =? browser deviceInfo)%string
  && (s_os session =? os deviceInfo)%string.

Definition isDeviceBlocked (userId : string) (req : option Req) : M bool :=
  match req with
  | None => ret false
  | Some req =>
      try_catch
        (let deviceInfo := extractDeviceInfo req in
         sessions <- deviceSessionModel.getUserSessions userId ;;
         let blockedSession := find (blocked_match deviceInfo) sessions in
         ret (match blockedSession with Some _ => true | None => false end))
        (fun _ => ret false)
  end.

(** [if (req) { try { createSession } catch { log } }]; [uuid] is the
    identifier [uuidv4()] draws. *)
Definition createDeviceSession (user : UserRow) (req : option Req) (uuid : string)
  : M unit :=
  match req with
  | Some req =>
      try_catch
        (let deviceInfo := extractDeviceInfo req in
         deviceSessionModel.createSession uuid (u_id user) deviceInfo ;;;
         ret tt)
        (fun _ => ret tt)
  | None => ret tt
  end.

Definition plain_claims (user : UserRow) : Claims :=
  {| c_id := u_id user; c_role := u_role user; c_temp := false;
     c_temp2FA := false; c_actualRole := None |}.

Definition temp2FA_claims (user : UserRow) : Claims :=
  {| c_id := u_id user; c_role := u_role user; c_temp := false;
     c_temp2FA := true; c_actualRole := None |}.

Definition temp_claims (user : UserRow) : Claims :=
  {| c_id := u_id user; c_role := u_role user; c_temp := true;
     c_temp2FA := false; c_actualRole := None |}.

(** Lines 132-169 of [login]: the final token, the device session,
    the last-login stamp. *)
Definition issue_session (user : UserRow) (req : option Req) (uuid : string)
  : M Response :=
  token <- jwt.sign (plain_claims user) jwtSecret seven_days ;;
  createDeviceSession user req uuid ;;;
  userModel.updateLastLoggedIn (u_id user) ;;;
  ret (Response.ok (LoggedIn token (userWithoutBusinessId user) None)).

(** [login] from the factor decision on (line 68 to the end). *)
Definition login_factor_decision (user : UserRow) (req : option Req) (uuid : string)
  : M Response :=
  twoFASettings <- twoFactorModel.get2FASettings (u_id user) ;;
  if match twoFASettings with Some s => st_is_2fa_enabled s | None => false end
  then
    tempToken <- jwt.sign (temp2FA_claims user) jwtSecret ten_minutes ;;
    ret (Response.ok
           (Require2FA tempToken
              {| m_authenticator :=
                   match twoFASettings with
                   | Some s => st_authenticator_enabled s | None => false end;
                 m_oneTimeCode :=
                   match twoFASettings with
                   | Some s => st_one_time_code_enabled s | None => false end;
                 m_securityQuestion :=
                   match twoFASettings with
                   | Some s => st_security_question_enabled s | None => false end;
                 m_backupCode := true |}
              (userWithoutBusinessId user)
              "Please complete 2FA verification"))
  else
    if (u_role user =? ROLES.SUPER_ADMIN)%string then
      userRoleNames <- userRolesModel.getUserRoleNames (u_id user) ;;
      if (1 <? List.length userRoleNames)%nat then
        tempToken <- jwt.sign (temp_claims user) jwtSecret ten_minutes ;;
        ret (Response.ok
               (RequireRoleSelection tempToken userRoleNames
                  (userWithoutBusinessId user) "Please select your login role"))
      else issue_session user req uuid
    else issue_session user req uuid.

Definition login (email password : string) (req : option Req) (uuid : string)
  : M Response :=
  user <- userModel.getByEmail email ;;
  match user with
  | None => ret (Response.error "User does not exist" 404)
  | Some user =>
      validPass <- bcrypt_compare_js (Some password) (u_password user) ;;
      if negb validPass then ret (Response.error "Invalid password" 400)
      else if u_is_deleted user then ret (Response.error "User not found" 404)
      else
        deviceBlocked <- isDeviceBlocked (u_id user) req ;;
        if deviceBlocked then ret DeviceBlocked
        else login_factor_decision user req uuid
  end.

(** The [catch] of the token-carrying entry points. *)
Definition token_errors (expired : string) (error : Error) : M Response :=
  match error with
  | TokenExpiredError => ret (Response.error expired 401)
  | JsonWebTokenError => ret (Response.error "Invalid token" 401)
  | _ => throw error
  end.

(** Lines 585-614 of [verify2FAAndLogin]: the end of [login] once more, on
    a row whose [password] was never deleted. *)
Definition issue_session_after_2FA (user : UserRow) (req : option Req) (uuid : string)
  : M Response :=
  token <- jwt.sign (plain_claims user) jwtSecret seven_days ;;
  createDeviceSession user req uuid ;;;
  userModel.updateLastLoggedIn (u_id user) ;;;
  ret (Response.ok (LoggedIn token (userWithoutBusinessId_with_password user) None)).

Definition verify2FAAndLogin (tempToken : Token) (method : string)
           (code : option string)
           (answers : option (list verificationService.Answer))
           (req : option Req) (uuid : string) : M Response :=
  try_catch
    (decoded <- jwt.verify tempToken jwtSecret ;;
     if negb (c_temp2FA decoded)
     then ret (Response.error "Invalid token. Please login first." 401)
     else
       user <- userModel.getById (c_id decoded) ;;
       match user with
       | None => ret (Response.error "User not found" 404)
       | Some user =>
           if u_is_deleted user then ret (Response.error "User not found" 404)
           else
             result <- verificationService.verify2FA (u_id user) (u_email user)
                         {| verificationService.vd_method := method;
                            verificationService.vd_code := code;
                            verificationService.vd_answers := answers |} req ;;
             if Response.is_error result then ret result
             else
               deviceBlocked <- isDeviceBlocked (u_id user) req ;;
               if deviceBlocked then ret DeviceBlocked
               else
                 if (u_role user =? ROLES.SUPER_ADMIN)%string then
                   userRoleNames <- userRolesModel.getUserRoleNames (u_id user) ;;
                   if (1 <? List.length userRoleNames)%nat then
                     roleSelectionToken <-
                       jwt.sign (temp_claims user) jwtSecret ten_minutes ;;
                     ret (Response.ok
                            (RequireRoleSelection roleSelectionToken userRoleNames
                               (userWithoutBusinessId_with_password user)
                               "2FA verified. Please select your login role"))
                   else issue_session_after_2FA user req uuid
                 else issue_session_after_2FA user req uuid
       end)
    (token_errors "2FA token expired. Please login again.").

Definition send2FACode (tempToken : Token) (otp : string) : M Response :=
  try_catch
    (decoded <- jwt.verify tempToken jwtSecret ;;
     if negb (c_temp2FA decoded)
     then ret (Response.error "Invalid token. Please login first." 401)
     else
       user <- userModel.getById (c_id decoded) ;;
       match user with
       | None => ret (Response.error "User not found" 404)
       | Some user =>
           if u_is_deleted user then ret (Response.error "User not found" 404)
           else
             settings <- twoFactorModel.get2FASettings (u_id user) ;;
             if match settings with
                | Some s => st_one_time_code_enabled s | None => false end
             then twoFactorService.sendOneTimeCode user otp
             else ret (Response.error "One-time code is not enabled" 400)
       end)
    (token_errors "Token expired. Please login again.").

Definition ResetCodeSent : Response :=
  Response.okMessage
    "If an account with that email exists, a password reset code has been sent.".

(** [otp] is the six digits [randomInt(100000, 999999).toString()] draws. *)
Definition requestPasswordResetOTP (email otp : string) : M Response :=
  try_catch
    (user <- userModel.getByEmail email ;;
     match user with
     | None => ret ResetCodeSent
     | Some user =>
         if u_is_deleted user then ret ResetCodeSent
         else if negb (u_role user =? ROLES.SUPER_ADMIN)%string then ret ResetCodeSent
         else
           authModel.insertOtp (u_email user) otp ;;;
           try_catch
             (emailService.sendPasswordResetOTPEmail (u_email user)
                (trim (u_first_name user ++ " " ++ u_last_name user)) otp ;;;
              ret ResetCodeSent)
             (fun _ =>
                ret (Response.error
                       "Failed to send password reset code. Please try again later." 500))
     end)
    (fun error => throw error).

Definition PasswordReset : Response :=
  Response.okMessage
    "Password has been reset successfully. You can now login with your new password.".

Definition resetPasswordWithOTP (email : string) (otp : option string)
           (password : string) : M Response :=
  try_catch
    (user <- userModel.getByEmail email ;;
     match user with
     | None => ret (Response.error "Invalid credentials" 400)
     | Some user =>
         if u_is_deleted user then ret (Response.error "Invalid credentials" 400)
         else if negb (u_role user =? ROLES.SUPER_ADMIN)%string
         then ret (Response.error "Invalid credentials" 400)
         else
           isValidOTP <- authModel.verifyToken email otp ;;
           if negb isValidOTP
           then ret (Response.error "Invalid or expired OTP code" 400)
           else
             let hashedPassword := bcrypt_hash password in
             userModel.updatePassword (u_id user) hashedPassword ;;;
             authModel.updateOtpStatus email ;;;
             ret PasswordReset
     end)
    (fun error => throw error).

Definition selected_claims (user : UserRow) (selectedRole : string) : Claims :=
  {| c_id := u_id user; c_role := selectedRole; c_temp := false;
     c_temp2FA := false; c_actualRole := Some (u_role user) |}.

(** [tempToken] is the Authorization header without ["Bearer "], or [null].
    The body of the success response carries [activeRole]; its message is
    "Logged in as" followed by that role. *)
Definition selectRole (selectedRole : string) (tempToken : option Token)
           (req : option Req) (uuid : string) : M Response :=
  try_catch
    (match tempToken with
     | None =>
         ret (Response.error "Temporary token is required in Authorization header" 401)
     | Some tempToken =>
         decoded <- jwt.verify tempToken jwtSecret ;;
         if negb (c_temp decoded)
         then ret (Response.error
                     "Invalid token. Please use the temporary token from login." 401)
         else
           user <- userModel.getById (c_id decoded) ;;
           match user with
           | None => ret (Response.error "User does not exist" 404)
           | Some user =>
               if negb (u_role user =? ROLES.SUPER_ADMIN)%string
               then ret (Response.error "Only super_admin can select roles" 403)
               else if u_is_deleted user then ret (Response.error "User not found" 404)
               else
                 userRoleNames <- userRolesModel.getUserRoleNames (u_id user) ;;
                 if negb (includes userRoleNames selectedRole)
                 then ret (Response.error "You do not have access to this role" 403)
                 else
                   deviceBlocked <- isDeviceBlocked (u_id user) req ;;
                   if deviceBlocked then ret DeviceBlocked
                   else
                     token <- jwt.sign (selected_claims user selectedRole)
                                       jwtSecret seven_days ;;
                     createDeviceSession user req uuid ;;;
                     userModel.updateLastLoggedIn (u_id user) ;;;
                     ret (Response.ok (LoggedIn token (userWithoutBusinessId user)
                                                (Some selectedRole)))
           end
     end)
    (token_errors "Role selection token expired. Please login again.").

Definition changeEmail (userId currentPassword newEmail : string) : M Reply :=
  try_catch
    (user <- userModel.getById userId ;;
     match user with
     | None => ret (Reply.error "User not found" 404)
     | Some user =>
         if u_is_deleted user then ret (Reply.error "User not found" 404)
         else if negb (u_role user =? ROLES.SUPER_ADMIN)%string
         then ret (Reply.error "Only super admin can change email" 403)
         else
           validPassword <- bcrypt_compare_js (Some currentPassword) (u_password user) ;;
           if negb validPassword
           then ret (Reply.error "Current password is incorrect" 401)
           else
             existingUser <- userModel.getByEmail newEmail ;;
             if match existingUser with
                | Some existing => negb (u_id existing =? userId)%string
                | None => false
                end
             then ret (Reply.error "Email is already in use" 409)
             else if (u_email user =? newEmail)%string
             then ret (Reply.error "New email cannot be the same as current email" 400)
             else
               userModel.updateEmail userId newEmail ;;;
               ret (Reply.ok (EmailUpdated newEmail))
     end)
    (fun error => throw error).

Definition updatePassword (userId currentPassword newPassword : string) : M Response :=
  try_catch
    (user <- userModel.getById userId ;;
     match user with
     | None => ret (Response.error "User not found" 404)
     | Some user =>
         if u_is_deleted user then ret (Response.error "User not found" 404)
         else
           validPassword <- bcrypt_compare_js (Some currentPassword) (u_password user) ;;
           if negb validPassword
           then ret (Response.error "Current password is incorrect" 401)
           else
             samePassword <- bcrypt_compare_js (Some newPassword) (u_password user) ;;
             if samePassword
             then ret (Response.error
                         "New password cannot be the same as current password" 400)
             else
               let hashedPassword := bcrypt_hash newPassword in
               userModel.updatePassword userId hashedPassword ;;;
               ret (Response.okMessage "Password updated successfully")
     end)
    (fun error => throw error).

End Orchestrator.

End authService.

(* ================================================================== *)
(** * [middleware/auth] and [middleware/businessAuth]: full-session gates *)

Module middleware.

(** What a middleware does with a request: it calls [next()] with
    [req.user] and [req.role] set, or it sends a response. *)
Inductive Handled : Type :=
| Next (user : UserRow) (role : string)
| Sent (response : Response).

Definition accepted (h : Handled) : bool :=
  match h with Next _ _ => true | Sent _ => false end.

Section Gates.
Context `{Config}.

(** The predicate of [sessions.find(...)] in [checkDeviceBlocked]. *)
Definition fingerprint_match (deviceInfo : DeviceInfo) (session : SessionRow) : bool :=
  (s_ip_address session =? ipAddress deviceInfo)%string
  && (s_browser session =? browser deviceInfo)%string
  && (s_os session =? os deviceInfo)%string.

(** [checkDeviceBlocked] once [req.user] is set by the caller. *)
Definition checkDeviceBlocked (user : UserRow) (role : string) (req : Req) : M Handled :=
  try_catch
    (let deviceInfo := extractDeviceInfo req in
     sessions <- deviceSessionModel.getUserSessions (u_id user) ;;
     let currentSession := find (fingerprint_match deviceInfo) sessions in
     match currentSession with
     | Some s =>
         if s_is_blocked s then ret (Sent authService.DeviceBlocked)
         else
           deviceSessionModel.updateLastActive (s_id s) ;;;
           ret (Next user role)
     | None => ret (Next user role)
     end)
    (fun _ => ret (Next user role)).

(** [authorization] is [req.headers.authorization] with the
    ["Bearer "] prefix removed. *)
Definition authenticate (authorization : option Token) (req : Req) : M Handled :=
  try_catch
    (match authorization with
     | None => ret (Sent (Response.error "Authentication required. Please log in." 401))
     | Some token =>
         decoded <- jwt.verify token jwtSecret ;;
         if c_temp decoded || c_temp2FA decoded
         then ret (Sent (Response.error
                           "Please complete authentication process first" 401))
         else
           user <- userModel.getById (c_id decoded) ;;
           match user with
           | None => ret (Sent (Response.error
                                  "User not found or account deactivated" 401))
           | Some user =>
               if u_is_deleted user
               then ret (Sent (Response.error
                                 "User not found or account deactivated" 401))
               else if negb (u_is_active user)
               then ret (Sent (Response.error "Account is inactive" 403))
               else checkDeviceBlocked user (c_role decoded) req
           end
     end)
    (fun error =>
       match error with
       | TokenExpiredError =>
           ret (Sent (Response.error "Token expired. Please log in again." 401))
       | JsonWebTokenError =>
           ret (Sent (Response.error "Invalid token. Please log in again." 401))
       | _ => ret (Sent (Response.error "Authentication failed" 401))
       end).

Definition authenticateSuperAdmin (authorization : option Token) (req : Req)
  : M Handled :=
  try_catch
    (match authorization with
     | None => ret (Sent (Response.error "Authentication required. Please log in." 401))
     | Some token =>
         decoded <- jwt.verify token jwtSecret ;;
         if c_temp decoded
         then ret (Sent (Response.error "Please complete role selection first" 401))
         else
           user <- userModel.getById (c_id decoded) ;;
           match user with
           | None => ret (Sent (Response.error
                                  "User not found or account deactivated" 401))
           | Some user =>
               if u_is_deleted user
               then ret (Sent (Response.error
                                 "User not found or account deactivated" 401))
               else if negb (u_is_active user)
               then ret (Sent (Response.error "Account is inactive" 403))
               else if negb (c_role decoded =? ROLES.SUPER_ADMIN)%string
               then ret (Sent (Response.error
                                 "Only super admin can perform this action" 403))
               else checkDeviceBlocked user (c_role decoded) req
           end
     end)
    (fun error =>
       match error with
       | TokenExpiredError =>
           ret (Sent (Response.error "Token expired. Please log in again." 401))
       | JsonWebTokenError =>
           ret (Sent (Response.error "Invalid token. Please log in again." 401))
       | _ => ret (Sent (Response.error "Authentication failed" 401))
       end).

Definition authenticateBusinessAdmin (authorization : option Token) (req : Req)
  : M Handled :=
  try_catch
    (match authorization with
     | None => ret (Sent Response.unauthorized)
     | Some token =>
         decoded <- jwt.verify token jwtSecret ;;
         if c_temp decoded
         then ret (Sent (Response.error "Please complete role selection first" 401))
         else
           user <- userModel.getById (c_id decoded) ;;
           match user with
           | None => ret (Sent Response.unauthorized)
           | Some user =>
               if negb (u_account_name user =? "business")%string
               then ret (Sent (Response.error
                                 "Only business accounts can manage users" 403))
               else
                 let effectiveRole := c_role decoded in
                 if negb (includes ADMIN_ROLES effectiveRole)
                 then ret (Sent (Response.error
                                   "Only admins can manage business users" 403))
                 else
                   match u_business_id user with
                   | None | Some "" =>
                       ret (Sent (Response.error
                                    "User must be associated with a business" 403))
                   | Some business_id =>
                       business <- businessModel.getById business_id ;;
                       if match business with
                          | Some b => b_is_active b | None => false end
                       then checkDeviceBlocked user effectiveRole req
                       else ret (Sent (Response.error
                                         "Business not found or inactive" 404))
                   end
           end
     end)
    (fun _ => ret (Sent (Response.error "Invalid token" 401))).

End Gates.

End middleware.

(* ================================================================== *)
(** * Backup-code redemption as interleaved steps

    Each [await executeQuery(...)] of [verifyBackupCode] and of the
    [useBackupCode] it calls is one step; between two steps of one request
    the event loop may run steps of another. *)

Module redemption.

Section Steps.
Context `{Crypto}.

(** Where a request is, with the locals it holds. *)
Inductive Pc : Type :=
| AtSelectCodes
| AtUseSelect (storedCode : BackupCodeRow)
| AtUseUpdate (id : Z)
| AtLog (success : bool)
| Done (result : bool).

(** The comparisons of the loop, up to the first valid stored code. *)
Fixpoint first_valid (code : option string) (codes : list BackupCodeRow)
  : M (option BackupCodeRow) :=
  match codes with
  | [] => ret None
  | storedCode :: rest =>
      isValid <- bcrypt_compare_js code (bc_code_hash storedCode) ;;
      if isValid then ret (Some storedCode) else first_valid code rest
  end.

(** One step of the body of the [try]. *)
Definition step_body (userId : string) (code : option string) (req : option Req)
           (pc : Pc) : M Pc :=
  match pc with
  | AtSelectCodes =>
      codes <- select T_user_2fa_backup_code
                 (fun _ d => verificationService.unused_codes userId d) ;;
      hit <- first_valid code codes ;;
      ret (match hit with
           | Some storedCode => AtUseSelect storedCode
           | None => AtLog false
           end)
  | AtUseSelect storedCode =>
      rows <- select T_user_2fa_backup_code
                (fun _ d => twoFactorModel.select_unused_code
                              userId (bc_code_hash storedCode) d) ;;
      ret (match first_row rows with
           | Some code => AtUseUpdate (bc_id code)
           | None => AtLog true
           end)
  | AtUseUpdate id =>
      execute T_user_2fa_backup_code
              (fun now d => twoFactorModel.update_code_used id now d) ;;;
      ret (AtLog true)
  | AtLog success =>
      twoFactorModel.log2FAAttempt
        {| twoFactorModel.userId := userId;
           twoFactorModel.method := "backup_code";
           twoFactorModel.success := success;
           twoFactorModel.ipAddress := client_ip_of req |} ;;;
      ret (Done success)
  | Done result => ret (Done result)
  end.

(** A step under the [catch], which returns [false]. *)
Definition step (userId : string) (code : option string) (req : option Req)
           (pc : Pc) : M Pc :=
  try_catch (step_body userId code req pc) (fun _ => ret (Done false)).

(** One request run alone for [n] steps. *)
Fixpoint steps (n : nat) (userId : string) (code : option string)
         (req : option Req) (pc : Pc) : M Pc :=
  match n with
  | O => ret pc
  | S n' => pc' <- step userId code req pc ;; steps n' userId code req pc'
  end.

(** Two requests of one user presenting codes [c1] and [c2]. *)
Inductive Thread : Type := First | Second.

Record Config2 : Type := {
  pc1 : Pc;
  pc2 : Pc;
  world : World
}.

(** The scheduler lets one request take its next step. *)
Definition step2 (userId : string) (c1 c2 : option string) (req : option Req)
           (t : Thread) (c : Config2) : Config2 :=
  match t with
  | First =>
      match step userId c1 req (pc1 c) (world c) with
      | Ret pc w => {| pc1 := pc; pc2 := pc2 c; world := w |}
      | Throw _ w => {| pc1 := Done false; pc2 := pc2 c; world := w |}
      end
  | Second =>
      match step userId c2 req (pc2 c) (world c) with
      | Ret pc w => {| pc1 := pc1 c; pc2 := pc; world := w |}
      | Throw _ w => {| pc1 := pc1 c; pc2 := Done false; world := w |}
      end
  end.

Definition run2 (userId : string) (c1 c2 : option string) (req : option Req)
           (schedule : list Thread) (w : World) : Config2 :=
  fold_left (fun c t => step2 userId c1 c2 req t c) schedule
            {| pc1 := AtSelectCodes; pc2 := AtSelectCodes; world := w |}.

(** Both requests take turns, one query each. *)
Definition alternating : list Thread :=
  [First; Second; First; Second; First; Second; First; Second].

(** The second request starts after the first has finished. *)
Definition one_after_the_other : list Thread :=
  [First; First; First; First; Second; Second; Second; Second].

End Steps.

End redemption.

(* ================================================================== *)
(** * Vocabulary of the properties *)

(** The four second-factor methods and the tag each is dispatched on. *)
Inductive Method : Type := authenticator | one_time_code | security_question | backup_code.

Definition method_name (m : Method) : string :=
  match m with
  | authenticator => "authenticator"
  | one_time_code => "one_time_code"
  | security_question => "security_question"
  | backup_code => "backup_code"
  end.

(** The verifier [verify2FA] calls for a method, on the same arguments. *)
Definition verifier_of `{Crypto} `{JsString} `{Collation} (m : Method) (userId email : string)
           (vd : verificationService.VerificationData) (req : option Req) : M bool :=
  match m with
  | authenticator =>
      verificationService.verifyAuthenticatorCode userId (verificationService.vd_code vd) req
  | one_time_code =>
      verificationService.verifyOneTimeCode userId email (verificationService.vd_code vd) req
  | security_question =>
      verificationService.verifySecurityQuestionsCode userId
        (verificationService.vd_answers vd) req
  | backup_code =>
      verificationService.verifyBackupCode userId (verificationService.vd_code vd) req
  end.

(** Failed attempts recorded for a user in the trailing 30 minutes. *)
Definition failures_in_window (userId : string) (w : World) : Z :=
  count_where (twoFactorModel.recent_failure userId 30 (clock w)) (attempts (db w)).

(** The attempt ledger an outcome leaves behind. *)
Definition ledger {A} (o : Outcome A) : list AttemptRow := attempts (db (world_of o)).

Definition one_row_appended {A} (w : World) (o : Outcome A) : Prop :=
  exists r, ledger o = (attempts (db w) ++ [r])%list.

Definition at_most_one_row {A} (w : World) (o : Outcome A) : Prop :=
  exists rows, ledger o = (attempts (db w) ++ rows)%list /\ (List.length rows <= 1)%nat.

(** A verifier gets as far as comparing the proof: a verified secret is
    stored (TOTP), a question is stored (security questions), the
    presented code is a string (backup code). *)
Definition engaged (m : Method) (userId : string)
           (vd : verificationService.VerificationData) (w : World) : bool :=
  match m with
  | authenticator =>
      match value_of (twoFactorModel.getAuthenticatorSecret userId w) with
      | Some (Some a) => au_is_verified a
      | _ => false
      end
  | one_time_code => true
  | security_question =>
      match value_of (twoFactorModel.getSecurityQuestions userId w) with
      | Some (_ :: _) => true
      | _ => false
      end
  | backup_code =>
      match verificationService.vd_code vd with
      | Some _ => true
      | None => false
      end
  end.

(** The row a verifier logs for an outcome. *)
Definition logged_row (m : Method) (userId : string) (isValid : bool)
           (req : option Req) (now : Z) : AttemptRow :=
  twoFactorModel.attempt_row
    {| twoFactorModel.userId := userId;
       twoFactorModel.method := method_name m;
       twoFactorModel.success := isValid;
       twoFactorModel.ipAddress := client_ip_of req |} now.

(** The questions stored for a user, as [getSecurityQuestions] returns them. *)
Definition stored_questions (userId : string) (w : World) : list QuestionRow :=
  match value_of (twoFactorModel.getSecurityQuestions userId w) with
  | Some qs => qs
  | None => []
  end.

(** The primary key of a list of questions: no two rows share an id. *)
Definition keyed_by_id (questions : list QuestionRow) : Prop :=
  forall q q', In q questions -> In q' questions -> q_id q = q_id q' -> q = q'.

Definition questions_keyed (w : World) : Prop := keyed_by_id (questions (db w)).

(** A supplied answer matches: its id is the id of a stored question and
    the answer, lowercased and trimmed, compares equal to that question's
    hash. *)
Definition answer_matches `{Crypto} `{JsString} (questions : list QuestionRow)
           (answer : verificationService.Answer) : Prop :=
  exists question,
    In question questions
    /\ q_id question = verificationService.a_id answer
    /\ bcrypt_compare (trim (toLowerCase (verificationService.a_answer answer)))
                      (q_answer_hash question) = true.

(** An OTP row that is neither expired nor used and whose e-mail address
    MySQL finds equal to the given one. *)
Definition live_otp `{Collation} (email : string) (now : Z) (r : OtpRow) : bool :=
  sql_eq (otp_email r) email && (now <? otp_expires_at r) && negb (otp_is_used r).

(** A presented code finds a live row whose code MySQL finds equal to it. *)
Definition code_is_live `{Collation} (email otp : string) (w : World) : bool :=
  existsb (fun r => sql_eq (otp_code r) otp && live_otp email (clock w) r)
          (otps (db w)).

(** The claim's words for the e-mail verifier: the most recent live row of
    the address, and the verdict of comparing the presented code with it by
    exact string match. *)
Definition most_recent_live `{Collation} (email : string) (w : World) : option OtpRow :=
  first_row (order_by (fun a b => otp_created_at b <=? otp_created_at a)
                      (filter (live_otp email (clock w)) (otps (db w)))).

Definition verdict_on_most_recent `{Collation} (email otp : string) (w : World) : bool :=
  match most_recent_live email w with
  | Some r => (otp_code r =? otp)%string
  | None => false
  end.

(** The user the password-reset flow mints codes for. *)
Definition reset_eligible `{Collation} (email : string) (user : UserRow) (w : World) : Prop :=
  userModel.getByEmail email w = Ret (Some user) w
  /\ u_is_deleted user = false
  /\ u_role user = ROLES.SUPER_ADMIN.

(** The user a login with these credentials passes the credentials check as. *)
Definition credentials_accepted `{Crypto} `{Collation} (email password : string) (user : UserRow)
           (w : World) : Prop :=
  userModel.getByEmail email w = Ret (Some user) w
  /\ bcrypt_compare password (u_password user) = true
  /\ u_is_deleted user = false.

(** The device-session lookup behind the block check rejects. *)
Definition lookup_throws (userId : string) (w : World) : Prop :=
  exists e w', deviceSessionModel.getUserSessions userId w = Throw e w'.

(** Login went on past the device check: it answers with a success
    response, or fails for a reason other than the device-session store. *)
Definition proceeds (o : Outcome Response) : Prop :=
  match o with
  | Ret r _ => Response.is_error r = false
  | Throw e _ => e <> QueryError T_device_session
  end.

(** The triple a device is recognised by. *)
Definition fingerprint_of_request (req : Req) : string * string * string :=
  let d := extractDeviceInfo req in (ipAddress d, browser d, os d).

Definition fingerprint_of_session (s : SessionRow) : string * string * string :=
  (s_ip_address s, s_browser s, s_os s).

(** A blocked session of the user carries the fingerprint of the request. *)
Definition blocked_for (userId : string) (req : Req) (w : World) : Prop :=
  exists s, In s (sessions (db w))
            /\ s_user_id s = userId
            /\ s_is_blocked s = true
            /\ fingerprint_of_request req = fingerprint_of_session s.

(** What the settings table says about a user's second factor. *)
Definition second_factor_enabled (userId : string) (w : World) : bool :=
  match value_of (twoFactorModel.get2FASettings userId w) with
  | Some (Some s) => st_is_2fa_enabled s
  | _ => false
  end.

(** A response that asks for the second factor. *)
Definition asks_second_factor (r : Response) : bool :=
  match body r with
  | Require2FA _ _ _ _ => true
  | _ => false
  end.

(** [twoFASettings && twoFASettings.is_2fa_enabled] *)
Definition enabled_in (row : option SettingsRow) : bool :=
  match row with Some s => st_is_2fa_enabled s | None => false end.

(** What a full-session gate has checked about a request it lets through. *)
Definition session_token_of `{Config} (authorization : option Token) (role : string)
           (user : UserRow) (w : World) (claims : Claims) : Prop :=
  (exists exp, authorization = Some (Signed jwtSecret claims exp) /\ clock w < exp)
  /\ c_temp claims = false
  /\ role = c_role claims
  /\ userModel.getById (c_id claims) w = Ret (Some user) w.

(** The exceptions a rejected query raises, as opposed to the two
    [jsonwebtoken] raises. *)
Definition query_error (e : Error) : bool :=
  match e with QueryError _ => true | _ => false end.

(** The user holds an active grant of the role. *)
Definition holds_role (userId role : string) (w : World) : Prop :=
  exists r, In r (user_roles (db w))
            /\ ur_user_id r = userId
            /\ ur_is_active r = true
            /\ ur_role_name r = role.

(** The keys of the user table: no two rows share an identifier, no two
    rows share an e-mail address. *)
Definition users_keyed `{Collation} (w : World) : Prop :=
  NoDup (map u_id (users (db w)))
  /\ forall u u', In u (users (db w)) -> In u' (users (db w)) ->
                  sql_eq (u_email u) (u_email u') = true -> u = u'.

(** The key of the session table: no two rows carry identifiers that MySQL
    finds equal. *)
Definition sessions_keyed `{Collation} (w : World) : Prop :=
  forall s s', In s (sessions (db w)) -> In s' (sessions (db w)) ->
               sql_eq (s_id s) (s_id s') = true -> s = s'.

(** A blocked session of the user that is not the one [sessionId] names
    carries the fingerprint of the request. *)
Definition blocked_elsewhere `{Collation} (userId sessionId : string) (req : Req)
           (w : World) : Prop :=
  exists s, In s (sessions (db w))
            /\ sql_eq (s_id s) sessionId = false
            /\ s_user_id s = userId
            /\ s_is_blocked s = true
            /\ fingerprint_of_request req = fingerprint_of_session s.

(** The table after the [INSERT]s of [insert_codes]. *)
Fixpoint with_new_codes (userId : string) (codeHashes : list string)
         (rows : list BackupCodeRow) : list BackupCodeRow :=
  match codeHashes with
  | [] => rows
  | hash :: rest =>
      with_new_codes userId rest
        (rows ++ [{| bc_id := next_id (map bc_id rows); bc_user_id := userId;
                     bc_code_hash := hash; bc_is_used := false;
                     bc_used_at := None |}])%list
  end.

(** The table after the [INSERT]s of [insert_questions]. *)
Fixpoint with_new_questions (userId : string) (qs : list twoFactorModel.NewQuestion)
         (rows : list QuestionRow) : list QuestionRow :=
  match qs with
  | [] => rows
  | q :: rest =>
      with_new_questions userId rest
        (rows ++ [{| q_id := next_id (map q_id rows); q_user_id := userId;
                     q_question := twoFactorModel.question q;
                     q_answer_hash := twoFactorModel.answerHash q |}])%list
  end.

(** The flags stored for a user, all off when no row is stored. *)
Definition stored_flags (userId : string) (w : World) : twoFactorModel.Flags :=
  twoFactorService.flags_of
    (match value_of (twoFactorModel.get2FASettings userId w) with
     | Some row => row
     | None => None
     end).

(** The self-service switches of the second factor that need no proof. *)
Inductive Toggle : Type :=
| DisableAuthenticator
| EnableOneTimeCode
| DisableOneTimeCode
| EnableSecurityQuestions (questionsAndAnswers : list twoFactorService.QuestionAndAnswer)
| DisableSecurityQuestions.

Definition run_toggle `{Crypto} `{JsString} (t : Toggle) (userId : string) (draw : nat -> string)
  : M Reply :=
  match t with
  | DisableAuthenticator => twoFactorService.disableAuthenticator userId
  | EnableOneTimeCode => twoFactorService.enableOneTimeCode userId draw
  | DisableOneTimeCode => twoFactorService.disableOneTimeCode userId
  | EnableSecurityQuestions qas => twoFactorService.setupSecurityQuestions userId qas draw
  | DisableSecurityQuestions => twoFactorService.disableSecurityQuestions userId
  end.

Definition flags_after (t : Toggle) (f : twoFactorModel.Flags) : twoFactorModel.Flags :=
  match t with
  | DisableAuthenticator => twoFactorService.with_authenticator false f
  | EnableOneTimeCode => twoFactorService.with_one_time_code true f
  | DisableOneTimeCode => twoFactorService.with_one_time_code false f
  | EnableSecurityQuestions _ => twoFactorService.with_security_question true f
  | DisableSecurityQuestions => twoFactorService.with_security_question false f
  end.

(** Identifiers that grow strictly, all above [lo]. *)
Fixpoint ascending (lo : Z) (ids : list Z) : Prop :=
  match ids with
  | [] => True
  | i :: rest => lo < i /\ ascending i rest
  end.

(** The user object a response of the login flow carries, if it carries
    one. *)
Definition user_in_body (b : Body) : option UserView :=
  match b with
  | Require2FA _ _ user _ | RequireRoleSelection _ _ user _ | LoggedIn _ user _ =>
      Some user
  | ErrorBody _ | MessageBody _ => None
  end.

(* ================================================================== *)
(** * Sample data *)

Module sample.

(** A stand-in for bcrypt: the hash of a text is the text behind a fixed
    salt prefix; a TOTP secret accepts itself as the code. *)
Definition hash (plain : string) : string := "$2a$10$" ++ plain.

#[export] Instance crypto : Crypto := {|
  bcrypt_compare plain h := (hash plain =? h)%string;
  bcrypt_hash := hash;
  totp_verify secret token _ :=
    match token with
    | Some t => (t =? secret)%string
    | None => false
    end
|}.

#[export] Instance config : Config := {| jwtSecret := "server-secret" |}.

(** The engine's string functions in the toy world: the ASCII ones, on
    every text. *)
#[export] Instance js_string : JsString := {|
  toLowerCase := ascii_toLowerCase;
  trim := ascii_trim;
  remove_white_space := ascii_remove_white_space;
  toLowerCase_ascii_text := fun _ _ => eq_refl;
  trim_ascii_text := fun _ _ => eq_refl;
  remove_white_space_ascii_text := fun _ _ => eq_refl
|}.

(** A stand-in for [utf8mb4_unicode_ci]: two texts are equal when they are
    the same once ASCII letters are lowercased and trailing spaces dropped. *)
Fixpoint unpad (s : string) : string :=
  match s with
  | EmptyString => EmptyString
  | String c r =>
      match unpad r with
      | EmptyString => if Ascii.eqb c " " then EmptyString else String c EmptyString
      | String c' r' => String c (String c' r')
      end
  end.

Definition canonical (s : string) : string := unpad (ascii_toLowerCase s).

Fixpoint unpad_pad (s : string) : unpad (s ++ " ") = unpad s :=
  match s with
  | EmptyString => eq_refl
  | String c r =>
      f_equal (fun u => match u with
                        | EmptyString =>
                            if Ascii.eqb c " " then EmptyString else String c EmptyString
                        | String c' r' => String c (String c' r')
                        end) (unpad_pad r)
  end.

Fixpoint ascii_toLowerCase_pad (s : string)
  : ascii_toLowerCase (s ++ " ") = ascii_toLowerCase s ++ " " :=
  match s with
  | EmptyString => eq_refl
  | String c r => f_equal (String (lower_ascii c)) (ascii_toLowerCase_pad r)
  end.

#[export] Instance collation : Collation := {|
  sql_eq s t := (canonical s =? canonical t)%string;
  sql_eq_refl := fun s => String.eqb_refl (canonical s);
  sql_eq_sym := fun s t => String.eqb_sym (canonical s) (canonical t);
  sql_eq_trans := fun s t u Hst Htu =>
    proj2 (String.eqb_eq (canonical s) (canonical u))
          (eq_trans (proj1 (String.eqb_eq _ _) Hst) (proj1 (String.eqb_eq _ _) Htu));
  sql_eq_pad := fun s =>
    proj2 (String.eqb_eq (canonical (s ++ " ")) (canonical s))
          (eq_trans (f_equal unpad (ascii_toLowerCase_pad s))
                    (unpad_pad (ascii_toLowerCase s)))
|}.

Definition alice : UserRow :=
  {| u_id := "u-alice"; u_email := "alice@example.com";
     u_password := hash "Password123!";
     u_first_name := "Alice"; u_last_name := "Doe"; u_role := "super_admin";
     u_account_name := "business"; u_business_id := Some "b-1";
     u_business_name := Some "Acme"; u_is_active := true; u_is_deleted := false;
     u_last_login := None |}.

Definition carol : UserRow :=
  {| u_id := "u-carol"; u_email := "carol@example.com";
     u_password := hash "Secret456!";
     u_first_name := "Carol"; u_last_name := "Roe"; u_role := "admin";
     u_account_name := "business"; u_business_id := Some "b-1";
     u_business_name := Some "Acme"; u_is_active := true; u_is_deleted := true;
     u_last_login := None |}.

Definition acme : BusinessRow :=
  {| b_id := "b-1"; b_name := "Acme"; b_is_active := true |}.

Definition alice_settings : SettingsRow :=
  {| st_user_id := "u-alice"; st_authenticator_enabled := true;
     st_passkey_enabled := false; st_one_time_code_enabled := true;
     st_security_question_enabled := true; st_is_2fa_enabled := true |}.

Definition alice_secret : AuthenticatorRow :=
  {| au_user_id := "u-alice"; au_secret := "424242"; au_is_verified := true;
     au_created_at := 10 |}.

Definition alice_questions : list QuestionRow :=
  [ {| q_id := 1; q_user_id := "u-alice"; q_question := "First pet's name?";
       q_answer_hash := hash "fluffy" |};
    {| q_id := 2; q_user_id := "u-alice"; q_question := "City of birth?";
       q_answer_hash := hash "paris" |};
    {| q_id := 3; q_user_id := "u-alice"; q_question := "Favourite teacher?";
       q_answer_hash := hash "ms. smith" |} ].

Definition alice_code : BackupCodeRow :=
  {| bc_id := 1; bc_user_id := "u-alice"; bc_code_hash := hash "A1B2C3D4";
     bc_is_used := false; bc_used_at := None |}.

Definition failure (t : Z) : AttemptRow :=
  {| at_user_id := "u-alice"; at_method := "authenticator"; at_success := false;
     at_ip_address := Some "10.0.0.7"; at_created_at := t |}.

Definition laptop : Req :=
  {| req_client_ip := Some "::ffff:10.0.0.7"; req_browser := "Firefox";
     req_os := "Linux" |}.

Definition phone : Req :=
  {| req_client_ip := Some "10.0.0.9"; req_browser := "Safari"; req_os := "iOS" |}.

Definition laptop_session : SessionRow :=
  {| s_id := "s-1"; s_user_id := "u-alice"; s_browser := "Firefox"; s_os := "Linux";
     s_ip_address := "10.0.0.7"; s_is_blocked := false; s_last_active := 900;
     s_created_at := 100 |}.

Definition store : Db :=
  {| users := [alice; carol]; businesses := [acme]; user_roles := [];
     otps := []; settings := [alice_settings]; authenticators := [alice_secret];
     questions := alice_questions; backup_codes := [alice_code];
     attempts := []; sessions := [laptop_session] |}.

(** One o'clock, everything reachable. *)
Definition world0 : World :=
  {| db := store; clock := 3600; down := []; mail_down := false |}.

(** The same with five failures in the last half hour. *)
Definition locked : World :=
  with_db (set_attempts [failure 2000; failure 2100; failure 2200; failure 2300;
                         failure 2400] store) world0.

Definition unreachable (t : Table) (w : World) : World :=
  {| db := db w; clock := clock w; down := t :: down w; mail_down := mail_down w |}.

(** Two codes mailed to Alice, both still valid; the second is the latest. *)
Definition older_code : OtpRow :=
  {| otp_email := "alice@example.com"; otp_code := "111111"; otp_created_at := 3300;
     otp_expires_at := 3900; otp_is_used := false |}.

Definition newer_code : OtpRow :=
  {| otp_email := "alice@example.com"; otp_code := "222222"; otp_created_at := 3500;
     otp_expires_at := 4100; otp_is_used := false |}.

Definition two_codes : World := with_db (set_otps [older_code; newer_code] store) world0.

(** An unknown question id, a wrong answer, and a right one in capitals
    with blanks around it. *)
Definition answers_one_right : list verificationService.Answer :=
  [ {| verificationService.a_id := 9; verificationService.a_answer := "whatever" |};
    {| verificationService.a_id := 1; verificationService.a_answer := "Rex" |};
    {| verificationService.a_id := 2; verificationService.a_answer := "  PARIS " |} ].

(** The correct authenticator code. *)
Definition totp_proof : verificationService.VerificationData :=
  {| verificationService.vd_method := "authenticator";
     verificationService.vd_code := Some "424242";
     verificationService.vd_answers := None |}.

(** A backup-code submission that carries no code. *)
Definition empty_proof : verificationService.VerificationData :=
  {| verificationService.vd_method := "backup_code";
     verificationService.vd_code := None;
     verificationService.vd_answers := None |}.

(** The token [login] hands Alice while her second factor is pending. *)
Definition pending_token : Token :=
  Signed "server-secret"
         {| c_id := "u-alice"; c_role := "super_admin"; c_temp := false;
            c_temp2FA := true; c_actualRole := None |} 4200.

End sample.

(** More of the same household, for the further properties. *)
Module fixtures.

(** The enrolment check in the toy world: the secret accepts itself. *)
#[export] Instance enrolment : twoFactorService.EnrolmentTotp := {|
  twoFactorService.totp_verify_window3 secret token _ := (token =? secret)%string
|}.

(** Alice's laptop session, blocked. *)
Definition blocked_laptop : SessionRow :=
  {| s_id := "s-1"; s_user_id := "u-alice"; s_browser := "Firefox"; s_os := "Linux";
     s_ip_address := "10.0.0.7"; s_is_blocked := true; s_last_active := 900;
     s_created_at := 100 |}.

Definition blocked : World :=
  with_db (set_sessions [blocked_laptop] sample.store) sample.world0.

(** Alice with sessions on her laptop and on her phone. *)
Definition phone_session : SessionRow :=
  {| s_id := "s-9"; s_user_id := "u-alice"; s_browser := "Safari"; s_os := "iOS";
     s_ip_address := "10.0.0.9"; s_is_blocked := false; s_last_active := 1200;
     s_created_at := 1100 |}.

Definition two_devices : World :=
  with_db (set_sessions [sample.laptop_session; phone_session] sample.store)
          sample.world0.

(** Alice granted two roles. *)
Definition granted : World :=
  with_db
    {| users := users sample.store; businesses := businesses sample.store;
       user_roles :=
         [ {| ur_user_id := "u-alice"; ur_role_id := 1; ur_role_name := "super_admin";
              ur_is_active := true |};
           {| ur_user_id := "u-alice"; ur_role_id := 2; ur_role_name := "admin";
              ur_is_active := true |} ];
       otps := otps sample.store; settings := settings sample.store;
       authenticators := authenticators sample.store;
       questions := questions sample.store;
       backup_codes := backup_codes sample.store;
       attempts := attempts sample.store; sessions := sessions sample.store |}
    sample.world0.

(** The token a login hands Alice for the role-selection step. *)
Definition selection_token : Token :=
  Signed "server-secret"
         {| c_id := "u-alice"; c_role := "super_admin"; c_temp := true;
            c_temp2FA := false; c_actualRole := None |} 4200.

(** A full-session token of Alice. *)
Definition session_token : Token :=
  Signed "server-secret"
         {| c_id := "u-alice"; c_role := "super_admin"; c_temp := false;
            c_temp2FA := false; c_actualRole := None |} 608400.

(** Four failures in the last half hour. *)
Definition four_failures : World :=
  with_db (set_attempts [sample.failure 2000; sample.failure 2100; sample.failure 2200;
                         sample.failure 2300] sample.store) sample.world0.

(** A wrong authenticator code. *)
Definition wrong_totp : verificationService.VerificationData :=
  {| verificationService.vd_method := "authenticator";
     verificationService.vd_code := Some "000000";
     verificationService.vd_answers := None |}.

(** The backup codes drawn in the toy world. *)
Definition draw (i : nat) : string :=
  String (ascii_of_nat (65 + i)) "1B2C3D4".

Definition new_questions : list twoFactorService.QuestionAndAnswer :=
  [ {| twoFactorService.qa_question := "Name of your first school?";
       twoFactorService.qa_answer := " Hilltop " |} ].

End fixtures.

(* ================================================================== *)
(** * Properties *)

(** ** The monad *)

Lemma try_catch_rethrow {A} (m : M A) (w : World) :
  try_catch m (fun error => throw error) w = m w.
Proof.
  unfold try_catch, throw. destruct (m w); reflexivity.
Qed.

Lemma select_up {A} (t : Table) (q : Z -> Db -> A) (w : World) :
  is_down t w = false -> select t q w = Ret (q (clock w) (db w)) w.
Proof.
  intros Hup. unfold select. rewrite Hup. reflexivity.
Qed.

Lemma select_down {A} (t : Table) (q : Z -> Db -> A) (w : World) :
  is_down t w = true -> select t q w = Throw (QueryError t) w.
Proof.
  intros Hdown. unfold select. rewrite Hdown. reflexivity.
Qed.

Lemma execute_up (t : Table) (q : Z -> Db -> Db) (w : World) :
  is_down t w = false -> execute t q w = Ret tt (with_db (q (clock w) (db w)) w).
Proof.
  intros Hup. unfold execute, executeQuery. rewrite Hup. reflexivity.
Qed.


Lemma is_down_with_db (t : Table) (d : Db) (w : World) :
  is_down t (with_db d w) = is_down t w.
Proof. reflexivity. Qed.

(** ** The helpers on small inputs *)

Example normalized_answer `{JsString} :
  trim (toLowerCase "  Ms. SMITH	 ") = "ms. smith".
Proof.
  rewrite toLowerCase_ascii_text by reflexivity.
  rewrite trim_ascii_text by reflexivity. reflexivity.
Qed.

Example padded_code_is_equal `{Collation} : sql_eq "111111" "111111 " = true.
Proof. rewrite sql_eq_sym. apply (sql_eq_pad "111111"). Qed.

Example mapped_address_cleaned :
  ipAddress (extractDeviceInfo sample.laptop) = "10.0.0.7".
Proof. reflexivity. Qed.

Example loopback_cleaned : replace_first "::1" "127.0.0.1" "::1" = "127.0.0.1".
Proof. reflexivity. Qed.

Example latest_first :
  order_by (fun a b => b <=? a) [3; 9; 1; 9] = [9; 9; 3; 1].
Proof. reflexivity. Qed.

Example window_is_strict :
  twoFactorModel.recent_failure "u-alice" 30 3600 (sample.failure 1800) = false
  /\ twoFactorModel.recent_failure "u-alice" 30 3600 (sample.failure 1801) = true.
Proof. split; reflexivity. Qed.

Import verificationService authService deviceSessionService.

(** Runs the queries of a goal: every reachability flag met is decided
    once and remembered. *)
Ltac run_queries :=
  repeat (cbn;
          match goal with
          | H : existsb (Table_eqb ?t) ?dn = _
            |- context [existsb (Table_eqb ?t) ?dn] => rewrite H
          | |- context [existsb (Table_eqb ?t) ?dn] =>
              is_var dn; destruct (existsb (Table_eqb t) dn) eqn:?
          end);
  cbn.

Ltac world_cases w :=
  destruct w as [d now dn md];
  unfold try_catch, bind, select, execute, executeQuery, ret, throw, is_down,
         current_time, with_db in *;
  run_queries.

(** Closes a goal on the ledger once the outcome is computed. *)
Ltac ledger_done :=
  cbn;
  first [ exists (@nil AttemptRow); split; [cbn; now rewrite app_nil_r | cbn; lia]
        | eexists [_]; split; [cbn; reflexivity | cbn; lia] ].

(** ** Lockout *)

Section Lockout.
Context `{Crypto} `{JsString} `{Collation}.

(** Claim C1. When at least 5 failed attempts are recorded for the user
    in the trailing 30 minutes, [verify2FA] answers [TooManyAttempts]
    whatever the method and the proof, and leaves the world as it found it:
    no verifier has run and no attempt row is written. Below 5, the call
    is the verifier of the method followed by the translation of its
    boolean into the response. *)
Theorem verify2FA_lockout (userId email : string) (vd : VerificationData)
        (req : option Req) (w : World) :
  is_down T_user_2fa_attempt w = false ->
  (5 <= failures_in_window userId w ->
   verify2FA userId email vd req w = Ret TooManyAttempts w)
  /\ (failures_in_window userId w < 5 ->
      forall m : Method, vd_method vd = method_name m ->
      verify2FA userId email vd req w =
      (isValid <- verifier_of m userId email vd req ;;
       ret (if isValid then VerificationSuccessful else InvalidVerification)) w).
Proof.
  intros Hup.
  assert (Hcount : twoFactorModel.getRecentFailedAttempts userId 30 w
                   = Ret (failures_in_window userId w) w)
    by (unfold twoFactorModel.getRecentFailedAttempts; now rewrite select_up).
  split.
  - intros Hlocked. apply Z.leb_le in Hlocked.
    unfold verify2FA. rewrite try_catch_rethrow. unfold bind at 1.
    rewrite Hcount, Hlocked. reflexivity.
  - intros Hfree m Hm. apply Z.leb_gt in Hfree.
    unfold verify2FA. rewrite try_catch_rethrow. unfold bind at 1.
    rewrite Hcount, Hfree, Hm.
    destruct m; cbn [method_name String.eqb Ascii.eqb Bool.eqb verifier_of];
      unfold bind;
      match goal with
      | |- match ?o with _ => _ end = _ => destruct o as [[] ?|? ?]; reflexivity
      end.
Qed.

End Lockout.

(** ** The attempt ledger *)

Section Ledger.
Context `{Crypto} `{JsString} `{Collation}.

Lemma otp_at_most_one userId email otp req w :
  at_most_one_row w (verifyOneTimeCode userId email otp req w).
Proof.
  unfold at_most_one_row, ledger, verifyOneTimeCode, authModel.verifyToken,
    twoFactorModel.log2FAAttempt, authModel.updateOtpStatus.
  world_cases w; try ledger_done.
  all: destruct (0 <? _); run_queries; try ledger_done.
Qed.

Lemma totp_at_most_one userId token req w :
  at_most_one_row w (verifyAuthenticatorCode userId token req w).
Proof.
  unfold at_most_one_row, ledger, verifyAuthenticatorCode,
    twoFactorModel.getAuthenticatorSecret, twoFactorModel.log2FAAttempt.
  world_cases w; try ledger_done.
  all: cbn; destruct (first_row _) as [a|]; try ledger_done.
  all: destruct (au_is_verified a); run_queries; try ledger_done.
Qed.

Lemma questions_at_most_one userId answers req w :
  at_most_one_row w (verifySecurityQuestionsCode userId answers req w).
Proof.
  unfold at_most_one_row, ledger, verifySecurityQuestionsCode,
    twoFactorModel.getSecurityQuestions, twoFactorModel.log2FAAttempt.
  world_cases w; try ledger_done.
  all: cbn; destruct (order_by _ _); try ledger_done.
  all: destruct answers as [[|]|]; run_queries; try ledger_done.
Qed.

Lemma scan_at_most_one userId code req codes w :
  at_most_one_row w (scan_codes userId code req codes w).
Proof.
  revert w. induction codes as [|c rest IH]; intros w.
  - unfold at_most_one_row, ledger, scan_codes, twoFactorModel.log2FAAttempt.
    world_cases w; ledger_done.
  - cbn [scan_codes]. unfold bind at 1. destruct code as [plain|].
    + cbn [bcrypt_compare_js]. unfold ret at 1.
      destruct (bcrypt_compare plain (bc_code_hash c)); [|apply IH].
      unfold at_most_one_row, ledger, twoFactorModel.useBackupCode,
        twoFactorModel.log2FAAttempt.
      world_cases w; try ledger_done.
      all: destruct (first_row _); run_queries; ledger_done.
    + unfold at_most_one_row, ledger. cbn. ledger_done.
Qed.

Lemma backup_at_most_one userId code req w :
  at_most_one_row w (verifyBackupCode userId code req w).
Proof.
  unfold verifyBackupCode, try_catch, bind at 1.
  destruct (is_down T_user_2fa_backup_code w) eqn:E.
  - rewrite select_down by assumption. unfold at_most_one_row, ledger. ledger_done.
  - rewrite select_up by assumption.
    pose proof (scan_at_most_one userId code req
                  (unused_codes userId (db w)) w) as [rows [Hl Hn]].
    exists rows. split; [|exact Hn]. unfold ledger in *.
    destruct (scan_codes _ _ _ _ w); exact Hl.
Qed.

Lemma scan_one_row userId plain req codes w :
  down w = [] ->
  exists isValid w',
    scan_codes userId (Some plain) req codes w = Ret isValid w'
    /\ attempts (db w') =
       (attempts (db w) ++ [logged_row backup_code userId isValid req (clock w)])%list.
Proof.
  revert w. induction codes as [|c rest IH]; intros w Hup.
  - destruct w as [d now dn md]; cbn in Hup; subst dn.
    exists false; eexists; split; reflexivity.
  - cbn [scan_codes bcrypt_compare_js]. unfold bind at 1, ret at 1.
    destruct (bcrypt_compare plain (bc_code_hash c)); [|apply IH; exact Hup].
    destruct w as [d now dn md]; cbn in Hup; subst dn.
    exists true. unfold twoFactorModel.useBackupCode, bind, select. cbn.
    destruct (first_row _); cbn; eexists; split; reflexivity.
Qed.

(** Claim C3, as amended. A verifier call that meets no exception and
    gets as far as comparing the proof (a verified TOTP secret or a
    security question is stored; a backup code is presented as a string)
    appends exactly one row to the ledger, tagged with the method, the
    outcome and the caller's address. And in every case, exceptions
    included, a call appends at most one row and keeps the rows that
    were there. *)
Theorem attempt_ledger_one_row (m : Method) (userId email : string)
        (vd : VerificationData) (req : option Req) (w : World) :
  (down w = [] -> engaged m userId vd w = true ->
   exists isValid w',
     verifier_of m userId email vd req w = Ret isValid w'
     /\ attempts (db w') =
        (attempts (db w) ++ [logged_row m userId isValid req (clock w)])%list)
  /\ at_most_one_row w (verifier_of m userId email vd req w).
Proof.
  split.
  - intros Hup Hen. destruct m; cbn [verifier_of engaged] in *.
    + destruct w as [d now dn md]; cbn in Hup; subst dn.
      unfold verifyAuthenticatorCode, twoFactorModel.getAuthenticatorSecret,
        try_catch, bind, select in *. cbn in *.
      destruct (first_row _) as [a|]; [|discriminate]. cbn in Hen. rewrite Hen. cbn.
      eexists; eexists; split; reflexivity.
    + destruct w as [d now dn md]; cbn in Hup; subst dn.
      unfold verifyOneTimeCode, authModel.verifyToken, try_catch, bind, select. cbn.
      destruct (0 <? _); cbn; eexists; eexists; split; reflexivity.
    + destruct w as [d now dn md]; cbn in Hup; subst dn.
      unfold verifySecurityQuestionsCode, twoFactorModel.getSecurityQuestions,
        try_catch, bind, select in *. cbn in *.
      destruct (order_by _ _) as [|q qs]; [discriminate|].
      destruct (vd_answers vd) as [[|]|]; cbn; eexists; eexists; split; reflexivity.
    + destruct (vd_code vd) as [plain|]; [|discriminate].
      unfold verifyBackupCode, try_catch, bind at 1.
      rewrite select_up by (unfold is_down; now rewrite Hup).
      destruct (scan_one_row userId plain req (unused_codes userId (db w)) w Hup)
        as [b [w' [Hrun Hrows]]].
      rewrite Hrun. exists b, w'. split; [reflexivity|exact Hrows].
  - destruct m; cbn [verifier_of].
    + apply totp_at_most_one.
    + apply otp_at_most_one.
    + apply questions_at_most_one.
    + apply backup_at_most_one.
Qed.

End Ledger.

(** ** Security questions *)

Section SecurityQuestions.
Context `{Crypto} `{JsString} `{Collation}.

(** [ORDER BY] returns the rows it was given. *)
Lemma In_insert_by {A} (le : A -> A -> bool) (x y : A) (l : list A) :
  In y (insert_by le x l) <-> y = x \/ In y l.
Proof.
  induction l as [|z l IH]; cbn [insert_by].
  - cbn. intuition.
  - destruct (le x z); cbn [In]; [intuition|]. rewrite IH. intuition.
Qed.

Lemma In_order_by {A} (le : A -> A -> bool) (y : A) (l : list A) :
  In y (order_by le l) <-> In y l.
Proof.
  unfold order_by. induction l as [|x l IH]; cbn [fold_right In]; [tauto|].
  rewrite In_insert_by, IH. intuition.
Qed.

(** The questions read for a user are the rows of the table that carry
    the user's id. *)
Lemma stored_questions_rows (userId : string) (question : QuestionRow) (w : World) :
  is_down T_user_security_question w = false ->
  (In question (stored_questions userId w)
   <-> In question (questions (db w)) /\ q_user_id question = userId).
Proof.
  intros Hup. unfold stored_questions, twoFactorModel.getSecurityQuestions.
  rewrite select_up by assumption. cbn [value_of].
  rewrite In_order_by, filter_In. now rewrite String.eqb_eq.
Qed.

(** They keep the primary key of the table. *)
Lemma stored_questions_keyed (userId : string) (w : World) :
  is_down T_user_security_question w = false ->
  questions_keyed w -> keyed_by_id (stored_questions userId w).
Proof.
  intros Hup Hkey q q' Hq Hq'.
  apply (stored_questions_rows userId _ w Hup) in Hq as [Hq _].
  apply (stored_questions_rows userId _ w Hup) in Hq' as [Hq' _].
  now apply Hkey.
Qed.

(** In a list keyed by id, [questions.find] returns the one question that
    carries the id of the answer. *)
Lemma find_question_keyed (questions : list QuestionRow) (answer : Answer)
      (question : QuestionRow) :
  keyed_by_id questions ->
  (find_question questions answer = Some question
   <-> In question questions /\ q_id question = a_id answer).
Proof.
  unfold find_question. intros Hkey. split.
  - intros Hfind. apply find_some in Hfind as [Hin Hid].
    apply Z.eqb_eq in Hid. now split.
  - intros [Hin Hid].
    destruct (find (fun q => q_id q =? a_id answer) questions) as [found|] eqn:Hfind.
    + apply find_some in Hfind as [Hfound Hsame]. apply Z.eqb_eq in Hsame.
      f_equal. apply Hkey; congruence.
    + apply (find_none _ _ Hfind) in Hin. apply Z.eqb_neq in Hin. contradiction.
Qed.

(** The loop says yes exactly when some supplied answer matches. *)
Lemma check_answers_iff (questions : list QuestionRow) (answers : list Answer) :
  keyed_by_id questions ->
  (check_answers questions answers = true
   <-> exists answer, In answer answers /\ answer_matches questions answer).
Proof.
  intros Hkey. induction answers as [|a rest IH]; cbn [check_answers].
  - split; [discriminate | intros [x [[] _]]].
  - destruct (find_question questions a) as [q|] eqn:Hfind.
    + pose proof (proj1 (find_question_keyed questions a q Hkey) Hfind) as [Hin Hid].
      destruct (bcrypt_compare _ (q_answer_hash q)) eqn:Hcmp.
      * split; [|reflexivity]. intros _. exists a. split; [now left|].
        exists q. now repeat split.
      * rewrite IH. split.
        -- intros [x [Hx Hm]]. exists x. split; [now right|exact Hm].
        -- intros [x [[Heq|Hx] Hm]].
           ++ subst x. destruct Hm as [q' [Hin' [Hid' Hc']]].
              assert (Hq' : find_question questions a = Some q')
                by (apply find_question_keyed; auto).
              rewrite Hfind in Hq'. injection Hq' as <-. congruence.
           ++ exists x. now split.
    + rewrite IH. split.
      * intros [x [Hx Hm]]. exists x. split; [now right|exact Hm].
      * intros [x [[Heq|Hx] Hm]].
        -- subst x. destruct Hm as [q' [Hin' [Hid' _]]].
           assert (Hq' : find_question questions a = Some q')
             by (apply find_question_keyed; auto).
           congruence.
        -- exists x. now split.
Qed.

(** Claim C6. For a user with at least one stored security question and a
    non-empty array of answers, with the question and attempt tables
    reachable and the question table keyed by its id, the verifier returns
    a boolean that is true exactly when, for some supplied answer, a row of
    the question table belongs to the user, carries the id the answer gives
    and has a hash that compares equal to the answer put through the
    engine's [toLowerCase] and then [trim]. Answers whose id is the id of
    no stored question, and wrong answers, do not enter the condition: they
    neither fail the call nor make it succeed. *)
Theorem security_questions_any_one_correct (userId : string) (answers : list Answer)
        (req : option Req) (w : World) :
  is_down T_user_security_question w = false ->
  is_down T_user_2fa_attempt w = false ->
  questions_keyed w ->
  stored_questions userId w <> [] ->
  answers <> [] ->
  exists isValid w',
    verifySecurityQuestionsCode userId (Some answers) req w = Ret isValid w'
    /\ (isValid = true <->
        exists answer question,
          In answer answers
          /\ In question (questions (db w))
          /\ q_user_id question = userId
          /\ q_id question = a_id answer
          /\ bcrypt_compare (trim (toLowerCase (a_answer answer)))
                            (q_answer_hash question) = true).
Proof.
  intros Hq Ha Hkey Hstored Hanswers.
  pose proof (stored_questions_keyed userId w Hq Hkey) as Hkeyed.
  pose proof (fun question => stored_questions_rows userId question w Hq) as Hrows.
  unfold stored_questions in *.
  unfold verifySecurityQuestionsCode, try_catch, bind at 1.
  unfold twoFactorModel.getSecurityQuestions in *.
  rewrite select_up in * by assumption. cbn [value_of] in *.
  set (questions := order_by _ _) in *.
  destruct questions as [|q qs] eqn:Hqs; [contradiction|].
  destruct answers as [|a rest]; [contradiction|].
  unfold bind, twoFactorModel.log2FAAttempt.
  rewrite execute_up by assumption. unfold ret.
  eexists; eexists; split; [reflexivity|].
  rewrite (check_answers_iff (q :: qs) (a :: rest) Hkeyed). unfold answer_matches.
  split.
  - intros [x [Hx [question [Hin Hm]]]]. apply Hrows in Hin as [Hin Huser].
    now exists x, question.
  - intros [x [question [Hx [Hin [Huser Hm]]]]]. exists x. split; [exact Hx|].
    exists question. split; [|exact Hm]. apply Hrows. now split.
Qed.

End SecurityQuestions.

(** ** The OTP table *)

Section OneTimeCodes.
Context `{Crypto} `{Config} `{JsString} `{Collation}.

Lemma otp_matches_live (email otp : string) (now : Z) (r : OtpRow) :
  authModel.otp_matches email (Some otp) now r
  = sql_eq (otp_code r) otp && live_otp email now r.
Proof.
  unfold authModel.otp_matches, live_otp. now rewrite !andb_assoc.
Qed.

Lemma verifyToken_up (email otp : string) (w : World) :
  is_down T_otp w = false ->
  authModel.verifyToken email (Some otp) w = Ret (code_is_live email otp w) w.
Proof.
  intros Hup. unfold authModel.verifyToken, bind. rewrite select_up by assumption.
  unfold ret, code_is_live. f_equal.
  induction (otps (db w)) as [|r l IH]; [reflexivity|].
  cbn [filter existsb]. rewrite otp_matches_live.
  destruct (sql_eq (otp_code r) otp && live_otp email (clock w) r);
    cbn [orb]; [|exact IH].
  cbn [List.length]. rewrite Nat2Z.inj_succ. apply Z.ltb_lt. lia.
Qed.

Lemma live_row_is_live (email : string) (r : OtpRow) (w : World) :
  In r (otps (db w)) -> live_otp email (clock w) r = true ->
  code_is_live email (otp_code r) w = true.
Proof.
  intros Hin Hlive. unfold code_is_live. apply existsb_exists.
  exists r. split; [exact Hin|]. now rewrite sql_eq_refl, Hlive.
Qed.

Lemma getByEmail_found (email : string) (user : UserRow) (w : World) :
  userModel.getByEmail email w = Ret (Some user) w ->
  is_down T_user w = false
  /\ first_row (filter (fun u => sql_eq (u_email u) email) (users (db w))) = Some user
  /\ sql_eq (u_email user) email = true.
Proof.
  unfold userModel.getByEmail, bind, select, ret.
  destruct (is_down T_user w); [discriminate|].
  intros Heq. injection Heq as Hrow. repeat split; [exact Hrow|].
  destruct (filter _ _) as [|u l] eqn:Hf; [discriminate|].
  injection Hrow as ->.
  assert (Hin : In user (filter (fun u => sql_eq (u_email u) email) (users (db w))))
    by (rewrite Hf; now left).
  now apply filter_In in Hin.
Qed.

Lemma getByEmail_frame (email : string) (user : UserRow) (w w' : World) :
  userModel.getByEmail email w = Ret (Some user) w ->
  users (db w') = users (db w) -> down w' = down w ->
  userModel.getByEmail email w' = Ret (Some user) w'.
Proof.
  intros Hfound Husers Hdown. apply getByEmail_found in Hfound as [Hup [Hrow _]].
  unfold userModel.getByEmail, bind. rewrite select_up.
  - unfold ret. now rewrite Husers, Hrow.
  - unfold is_down in *. now rewrite Hdown.
Qed.

Lemma verifyOneTimeCode_up (userId email otp : string) (req : option Req) (w : World) :
  is_down T_otp w = false ->
  is_down T_user_2fa_attempt w = false ->
  exists w',
    verifyOneTimeCode userId email (Some otp) req w = Ret (code_is_live email otp w) w'
    /\ otps (db w') =
       if code_is_live email otp w
       then update_where (fun r => sql_eq (otp_email r) email) authModel.mark_used
                         (otps (db w))
       else otps (db w).
Proof.
  intros Hotp Hatt.
  unfold verifyOneTimeCode, try_catch. unfold bind at 1.
  rewrite verifyToken_up by assumption.
  unfold bind at 1, twoFactorModel.log2FAAttempt. rewrite execute_up by assumption.
  unfold bind at 1. destruct (code_is_live email otp w).
  - unfold authModel.updateOtpStatus. rewrite execute_up by assumption.
    eexists; split; reflexivity.
  - eexists; split; reflexivity.
Qed.

(** A code and the same code followed by a space find the same rows. *)
Lemma code_is_live_pad (email otp : string) (w : World) :
  code_is_live email (otp ++ " ") w = code_is_live email otp w.
Proof.
  unfold code_is_live. induction (otps (db w)) as [|r l IH]; [reflexivity|].
  cbn [existsb]. rewrite IH. f_equal. f_equal.
  destruct (sql_eq (otp_code r) otp) eqn:Hcode.
  - apply (sql_eq_trans _ otp); [exact Hcode|].
    rewrite sql_eq_sym. apply sql_eq_pad.
  - destruct (sql_eq (otp_code r) (otp ++ " ")) eqn:Hpadded; [|reflexivity].
    rewrite <- Hcode. symmetry.
    apply (sql_eq_trans _ (otp ++ " ")); [exact Hpadded|apply sql_eq_pad].
Qed.

(** Claim C7, as amended. With the OTP and attempt tables reachable, the
    e-mail OTP verifier accepts a presented code exactly when some row,
    unexpired and unused, has an e-mail address and a code that MySQL's
    comparison under the collation of the table finds equal to the user's
    address and to the presented code: any such row, not only the most
    recent one, and not only a row that carries the very same string, since
    the code followed by a space gets the same verdict. On success it marks
    used every OTP row whose address MySQL finds equal to the user's,
    whichever code the row holds, and leaves every other row as it was; on
    failure it changes no OTP row. *)
Theorem otp_verifier_behaviour (userId email otp : string) (req : option Req)
        (w : World) :
  is_down T_otp w = false ->
  is_down T_user_2fa_attempt w = false ->
  exists isValid w',
    verifyOneTimeCode userId email (Some otp) req w = Ret isValid w'
    /\ (isValid = true <->
        exists r, In r (otps (db w))
                  /\ sql_eq (otp_code r) otp = true
                  /\ sql_eq (otp_email r) email = true
                  /\ clock w < otp_expires_at r
                  /\ otp_is_used r = false)
    /\ otps (db w') =
       (if isValid
        then map (fun r => if sql_eq (otp_email r) email
                           then authModel.mark_used r else r) (otps (db w))
        else otps (db w))
    /\ (exists w'',
          verifyOneTimeCode userId email (Some (otp ++ " ")) req w = Ret isValid w'').
Proof.
  intros Hotp Hatt.
  destruct (verifyOneTimeCode_up userId email otp req w Hotp Hatt) as [w' [Hrun Hrows]].
  destruct (verifyOneTimeCode_up userId email (otp ++ " ") req w Hotp Hatt)
    as [w'' [Hpadded _]].
  rewrite code_is_live_pad in Hpadded.
  exists (code_is_live email otp w), w'. split; [exact Hrun|].
  split; [|split; [exact Hrows|now exists w'']].
  unfold code_is_live. rewrite existsb_exists. unfold live_otp. split.
  - intros [r [Hin Hr]]. apply andb_true_iff in Hr as [Hcode Hlive].
    apply andb_true_iff in Hlive as [Hlive Hunused].
    apply andb_true_iff in Hlive as [Hemail Hfresh].
    apply Z.ltb_lt in Hfresh. apply negb_true_iff in Hunused.
    exists r. auto.
  - intros [r [Hin [Hcode [Hemail [Hfresh Hunused]]]]]. exists r. split; [exact Hin|].
    apply Z.ltb_lt in Hfresh. now rewrite Hcode, Hemail, Hfresh, Hunused.
Qed.

(** Claim C10. The OTP table carries no purpose. With the tables
    reachable: any live row stored for an e-mail address is accepted by the
    2FA e-mail verifier when its code is presented; the code the
    password-reset flow mints for a user is accepted by the 2FA verifier
    during its ten minutes; and the code the 2FA "send code" entry point
    mints is accepted by the password-reset flow, which then resets the
    password. *)
Theorem otp_store_shared_across_purposes (email otp password : string)
        (user : UserRow) (req : option Req) (t : Z) (w : World) :
  is_down T_otp w = false ->
  is_down T_user_2fa_attempt w = false ->
  reset_eligible email user w ->
  clock w <= t < clock w + 600 ->
  (forall r : OtpRow,
      In r (otps (db w)) -> live_otp email (clock w) r = true ->
      exists w', verifyOneTimeCode (u_id user) email (Some (otp_code r)) req w
                 = Ret true w')
  /\ (let w1 := at_time t (world_of (requestPasswordResetOTP email otp w)) in
      exists w', verifyOneTimeCode (u_id user) email (Some otp) req w1 = Ret true w')
  /\ (let w2 := at_time t (world_of (twoFactorService.sendOneTimeCode user otp w)) in
      exists w', resetPasswordWithOTP email (Some otp) password w2
                 = Ret PasswordReset w').
Proof.
  intros Hotp Hatt [Hfound [Hlive Hrole]] Ht.
  destruct (getByEmail_found _ _ _ Hfound) as [Huser [_ Hemail]].
  set (minted := {| otp_email := u_email user; otp_code := otp; otp_created_at := clock w;
                    otp_expires_at := clock w + 600; otp_is_used := false |}).
  set (after := with_db (set_otps (otps (db w) ++ [minted]) (db w)) w).
  assert (Hminted : code_is_live email otp (at_time t after) = true).
  { change otp with (otp_code minted). apply live_row_is_live.
    - cbn. apply in_or_app. right. now left.
    - unfold live_otp. cbn [minted otp_email otp_expires_at otp_is_used at_time clock].
      rewrite Hemail.
      replace (t <? clock w + 600) with true by (symmetry; apply Z.ltb_lt; lia).
      reflexivity. }
  assert (Hreset : world_of (requestPasswordResetOTP email otp w) = after).
  { unfold requestPasswordResetOTP. rewrite try_catch_rethrow. unfold bind at 1.
    rewrite Hfound, Hlive, Hrole. cbn [negb String.eqb]. rewrite String.eqb_refl.
    cbn [negb]. unfold bind at 1, authModel.insertOtp.
    rewrite execute_up by assumption. fold minted. fold after.
    unfold try_catch, bind, emailService.sendPasswordResetOTPEmail.
    destruct (mail_down after); reflexivity. }
  assert (Hsend : world_of (twoFactorService.sendOneTimeCode user otp w) = after).
  { unfold twoFactorService.sendOneTimeCode. rewrite try_catch_rethrow.
    unfold bind at 1, authModel.insertOtp.
    rewrite execute_up by assumption. fold minted. fold after.
    unfold bind, emailService.sendPasswordResetOTPEmail.
    destruct (mail_down after); reflexivity. }
  split; [|split].
  - intros r Hin Hr.
    destruct (verifyOneTimeCode_up (u_id user) email (otp_code r) req w Hotp Hatt)
      as [w' [Hrun _]].
    rewrite (live_row_is_live email r w Hin Hr) in Hrun. now exists w'.
  - cbv zeta. rewrite Hreset.
    destruct (verifyOneTimeCode_up (u_id user) email otp req (at_time t after))
      as [w' [Hrun _]]; [exact Hotp|exact Hatt|].
    rewrite Hminted in Hrun. now exists w'.
  - cbv zeta. rewrite Hsend.
    unfold resetPasswordWithOTP. rewrite try_catch_rethrow. unfold bind at 1.
    rewrite (getByEmail_frame email user w (at_time t after) Hfound)
      by reflexivity.
    rewrite Hlive, Hrole. cbn [String.eqb]. rewrite String.eqb_refl. cbn [negb].
    unfold bind at 1. rewrite verifyToken_up by exact Hotp. rewrite Hminted.
    cbn [negb]. unfold bind at 1, userModel.updatePassword.
    rewrite execute_up by exact Huser.
    unfold bind at 1, authModel.updateOtpStatus.
    rewrite execute_up by exact Hotp. eexists. reflexivity.
Qed.

End OneTimeCodes.

(** ** The device check at login *)

Section DeviceCheck.
Context `{Crypto} `{Config} `{JsString} `{Collation}.

Lemma lookup_throws_down userId w :
  lookup_throws userId w -> is_down T_device_session w = true.
Proof.
  intros [e [w' Hthrow]]. unfold deviceSessionModel.getUserSessions, select in Hthrow.
  destruct (is_down T_device_session w); [reflexivity|discriminate].
Qed.

Lemma isDeviceBlocked_fails_open userId req w :
  lookup_throws userId w -> isDeviceBlocked userId req w = Ret false w.
Proof.
  intros Hthrow. apply lookup_throws_down in Hthrow.
  destruct req as [r|]; [|reflexivity].
  unfold isDeviceBlocked, try_catch, bind, deviceSessionModel.getUserSessions.
  rewrite select_down by assumption. reflexivity.
Qed.

Lemma issue_session_proceeds user req uuid w :
  is_down T_device_session w = true -> proceeds (issue_session user req uuid w).
Proof.
  intros Hdown. unfold issue_session, createDeviceSession, jwt.sign,
    deviceSessionModel.createSession, userModel.updateLastLoggedIn.
  destruct req as [r|]; world_cases w; try reflexivity; discriminate.
Qed.

Lemma login_factor_decision_proceeds user req uuid w :
  is_down T_device_session w = true -> proceeds (login_factor_decision user req uuid w).
Proof.
  intros Hdown. unfold login_factor_decision.
  unfold bind at 1. unfold twoFactorModel.get2FASettings, bind at 1.
  destruct (is_down T_user_2fa_settings w) eqn:Hs.
  - rewrite select_down by assumption. cbn. discriminate.
  - rewrite select_up by assumption. unfold ret at 1.
    destruct (match first_row _ with Some s => st_is_2fa_enabled s | None => false end).
    + reflexivity.
    + destruct (u_role user =? ROLES.SUPER_ADMIN)%string.
      * unfold bind at 1. unfold userRolesModel.getUserRoleNames, bind at 1.
        destruct (is_down T_user_roles w) eqn:Hr.
        -- rewrite select_down by assumption. cbn. discriminate.
        -- rewrite select_up by assumption. unfold ret at 1.
           destruct (1 <? _)%nat; [reflexivity|].
           now apply issue_session_proceeds.
      * now apply issue_session_proceeds.
Qed.

(** What the credentials check of [login] answers, case by case. *)
Lemma login_credentials_check (email password : string) (req : option Req)
      (uuid : string) (w : World) :
  is_down T_user w = false ->
  match first_row (filter (fun u => sql_eq (u_email u) email) (users (db w))) with
  | None => login email password req uuid w
            = Ret (Response.error "User does not exist" 404) w
  | Some user =>
      if negb (bcrypt_compare password (u_password user))
      then login email password req uuid w = Ret (Response.error "Invalid password" 400) w
      else u_is_deleted user = true ->
           login email password req uuid w = Ret (Response.error "User not found" 404) w
  end.
Proof.
  intros Hup.
  assert (Hget : userModel.getByEmail email w
                 = Ret (first_row (filter (fun u => sql_eq (u_email u) email)
                                          (users (db w)))) w)
    by (unfold userModel.getByEmail, bind; now rewrite select_up).
  destruct (first_row _) as [user|].
  - destruct (bcrypt_compare password (u_password user)) eqn:Hpass; cbn [negb].
    + intros Hdeleted. unfold login. unfold bind at 1. rewrite Hget.
      unfold bind at 1. cbn [bcrypt_compare_js]. unfold ret at 1.
      rewrite Hpass, Hdeleted. reflexivity.
    + unfold login. unfold bind at 1. rewrite Hget.
      unfold bind at 1. cbn [bcrypt_compare_js]. unfold ret at 1.
      rewrite Hpass. reflexivity.
  - unfold login. unfold bind at 1. rewrite Hget. reflexivity.
Qed.

(** Claim C8. In a login whose credentials are accepted and whose
    device-session lookup throws, the block check answers "not blocked"
    without raising, login continues with the factor decision exactly as if
    no blocked session had been found, and what login finally answers is a
    success response or a failure of another store: the lookup error is
    never what the caller sees. *)
Theorem login_device_check_fails_open (email password : string) (req : option Req)
        (uuid : string) (user : UserRow) (w : World) :
  credentials_accepted email password user w ->
  lookup_throws (u_id user) w ->
  isDeviceBlocked (u_id user) req w = Ret false w
  /\ login email password req uuid w = login_factor_decision user req uuid w
  /\ proceeds (login email password req uuid w).
Proof.
  intros [Hfound [Hpass Hlive]] Hthrow.
  pose proof (isDeviceBlocked_fails_open (u_id user) req w Hthrow) as Hopen.
  assert (Hlogin : login email password req uuid w
                   = login_factor_decision user req uuid w).
  { unfold login. unfold bind at 1. rewrite Hfound.
    unfold bind at 1. cbn [bcrypt_compare_js]. unfold ret at 1.
    rewrite Hpass, Hlive. cbn [negb]. unfold bind at 1. rewrite Hopen. reflexivity. }
  split; [exact Hopen|]. split; [exact Hlogin|].
  rewrite Hlogin. apply login_factor_decision_proceeds.
  apply (lookup_throws_down (u_id user)). exact Hthrow.
Qed.

End DeviceCheck.

(** ** Self-service device management *)

Section CurrentDevice.
Context `{Collation}.

Lemma isCurrentDevice_iff (req : Req) (s : SessionRow) :
  isCurrentDevice req s = true
  <-> fingerprint_of_request req = fingerprint_of_session s.
Proof.
  unfold isCurrentDevice, fingerprint_of_request, fingerprint_of_session.
  rewrite !andb_true_iff, !String.eqb_eq. split.
  - intros [[Hip Hbrowser] Hos]. congruence.
  - intros Heq. injection Heq as Hip Hbrowser Hos. auto.
Qed.

(** Claim C9. When the session a block or revoke request targets has the
    fingerprint (address, browser, OS) of the request itself, the request
    is answered with an error and the world is left as it was; for the
    caller's own session the error is "Cannot block your current device",
    respectively "Cannot revoke your current device session". Whether a
    session is the current one is fingerprint equality and nothing else:
    the session id takes no part. *)
Theorem current_device_protected (userId sessionId : string) (req : Req)
        (session : SessionRow) (w : World) :
  deviceSessionModel.getSessionById sessionId w = Ret (Some session) w ->
  fingerprint_of_request req = fingerprint_of_session session ->
  (s_user_id session = userId ->
   blockDevice userId sessionId (Some req) w = Ret CannotBlockCurrentDevice w
   /\ revokeDevice userId sessionId (Some req) w = Ret CannotRevokeCurrentDevice w)
  /\ (exists r1 r2,
        blockDevice userId sessionId (Some req) w = Ret r1 w
        /\ revokeDevice userId sessionId (Some req) w = Ret r2 w
        /\ Response.is_error r1 = true /\ Response.is_error r2 = true)
  /\ (forall s : SessionRow,
        isCurrentDevice req s = true
        <-> fingerprint_of_request req = fingerprint_of_session s).
Proof.
  intros Hfound Hprint.
  assert (Hme : is_current (Some req) session = true)
    by (apply isCurrentDevice_iff; exact Hprint).
  assert (Hblock : blockDevice userId sessionId (Some req) w
                   = Ret (if negb (s_user_id session =? userId)%string
                          then Response.error "Unauthorized to block this device" 403
                          else CannotBlockCurrentDevice) w).
  { unfold blockDevice. rewrite try_catch_rethrow. unfold bind at 1.
    rewrite Hfound, Hme. now destruct (s_user_id session =? userId)%string. }
  assert (Hrevoke : revokeDevice userId sessionId (Some req) w
                    = Ret (if negb (s_user_id session =? userId)%string
                           then Response.error "Unauthorized to revoke this device" 403
                           else CannotRevokeCurrentDevice) w).
  { unfold revokeDevice. rewrite try_catch_rethrow. unfold bind at 1.
    rewrite Hfound, Hme. now destruct (s_user_id session =? userId)%string. }
  split; [|split].
  - intros Hown. rewrite Hblock, Hrevoke, Hown, String.eqb_refl. split; reflexivity.
  - rewrite Hblock, Hrevoke.
    destruct (s_user_id session =? userId)%string;
      eexists; eexists; repeat split; reflexivity.
  - intros s. apply isCurrentDevice_iff.
Qed.

End CurrentDevice.

(** ** Backup codes: one request alone, two requests interleaved *)

Section Redemption.
Context `{Crypto} `{JsString} `{Collation}.

Import redemption.

Lemma first_valid_world code codes w :
  world_of (first_valid code codes w) = w.
Proof.
  induction codes as [|c rest IH]; [reflexivity|].
  cbn [first_valid]. unfold bind. destruct code as [plain|]; [|reflexivity].
  cbn [bcrypt_compare_js]. unfold ret at 1.
  destruct (bcrypt_compare plain (bc_code_hash c)); [reflexivity|exact IH].
Qed.

(** The loop of [verifyBackupCode] is the search for the first valid code
    followed by what the loop body does with it. *)
Lemma scan_codes_first_valid userId code req codes w :
  scan_codes userId code req codes w =
  (hit <- first_valid code codes ;;
   match hit with
   | Some storedCode =>
       twoFactorModel.useBackupCode userId (bc_code_hash storedCode) ;;;
       twoFactorModel.log2FAAttempt
         {| twoFactorModel.userId := userId; twoFactorModel.method := "backup_code";
            twoFactorModel.success := true;
            twoFactorModel.ipAddress := client_ip_of req |} ;;;
       ret true
   | None =>
       twoFactorModel.log2FAAttempt
         {| twoFactorModel.userId := userId; twoFactorModel.method := "backup_code";
            twoFactorModel.success := false;
            twoFactorModel.ipAddress := client_ip_of req |} ;;;
       ret false
   end) w.
Proof.
  induction codes as [|c rest IH]; [reflexivity|].
  cbn [scan_codes first_valid]. unfold bind at 1 4 5.
  destruct code as [plain|]; [|reflexivity].
  cbn [bcrypt_compare_js]. unfold ret at 1 4.
  destruct (bcrypt_compare plain (bc_code_hash c)); [reflexivity|].
  rewrite IH. reflexivity.
Qed.

(** A request stepped alone ends where [verifyBackupCode] ends: four steps
    are the whole function. *)
Lemma steps_alone userId code req w :
  steps 4 userId code req AtSelectCodes w =
  (result <- verifyBackupCode userId code req ;; ret (Done result)) w.
Proof.
  destruct w as [d now dn md].
  unfold verifyBackupCode. cbn [steps].
  unfold step, step_body, try_catch, bind, select, ret, is_down.
  cbn [down db clock mail_down].
  destruct (existsb (Table_eqb T_user_2fa_backup_code) dn) eqn:Hdown; [reflexivity|].
  rewrite scan_codes_first_valid. unfold bind at 1.
  match goal with
  | |- context [first_valid code ?cs ?w0] =>
      pose proof (first_valid_world code cs w0) as Hw;
      destruct (first_valid code cs w0) as [[c|] w1|e w1]
  end; cbn [world_of] in Hw; subst w1; [| |reflexivity].
  all: unfold twoFactorModel.useBackupCode, twoFactorModel.log2FAAttempt,
         bind, select, execute, executeQuery, ret, is_down, with_db;
       cbn [down db clock mail_down]; rewrite ?Hdown;
       cbn [down db clock mail_down].
  - destruct (first_row _); cbn [down db clock mail_down]; rewrite ?Hdown;
      cbn [down db clock mail_down];
      destruct (existsb (Table_eqb T_user_2fa_attempt) dn); reflexivity.
  - destruct (existsb (Table_eqb T_user_2fa_attempt) dn); reflexivity.
Qed.

(** Whenever the presented code matches an unused stored code and the
    store is reachable, two requests whose queries alternate both succeed. *)
Lemma alternating_requests_both_succeed (userId plain : string) (req : option Req)
      (c : BackupCodeRow) (w : World) :
  down w = [] ->
  first_valid (Some plain) (unused_codes userId (db w)) w = Ret (Some c) w ->
  let raced := run2 userId (Some plain) (Some plain) req alternating w in
  pc1 raced = Done true /\ pc2 raced = Done true.
Proof.
  intros Hup Hhit. destruct w as [d now dn md]. cbn in Hup. subst dn.
  cbn [db] in Hhit.
  unfold run2, alternating. cbn [fold_left].
  unfold step2, step, step_body, try_catch, bind, select, ret, is_down.
  cbn [pc1 pc2 world down existsb db clock].
  rewrite Hhit. cbn [pc1 pc2 world down existsb db clock].
  rewrite Hhit. cbn [pc1 pc2 world down existsb db clock].
  destruct (first_row _) as [row|]; cbn; split; reflexivity.
Qed.

End Redemption.

(** From here on the sample instances stand in for bcrypt, TOTP and the
    configuration wherever a statement is about the sample data. *)
Import sample.

(** Claim C2. Two requests of one user redeem the same unused backup code.
    When the second starts after the first has finished, the first succeeds
    and the second finds no code. When their queries alternate, both read
    the list of unused codes before either marks the code used, and both
    succeed: the code is spent twice and two successful attempts are
    logged. *)
Theorem backup_code_double_spend :
  let code := Some "A1B2C3D4" in
  let serial := redemption.run2 "u-alice" code code (Some sample.laptop)
                  redemption.one_after_the_other sample.world0 in
  let raced := redemption.run2 "u-alice" code code (Some sample.laptop)
                 redemption.alternating sample.world0 in
  (redemption.pc1 serial = redemption.Done true
   /\ redemption.pc2 serial = redemption.Done false)
  /\ (redemption.pc1 raced = redemption.Done true
      /\ redemption.pc2 raced = redemption.Done true
      /\ map at_success (attempts (db (redemption.world raced))) = [true; true]
      /\ map bc_is_used (backup_codes (db (redemption.world raced))) = [true]).
Proof.
  vm_compute. repeat split; reflexivity.
Qed.

(** ** Login failures *)

(** Claim C4. The three ways the credentials check of [login] fails are
    told apart by the caller: an unknown address is answered 404 "User
    does not exist", a wrong password 400 "Invalid password", a
    soft-deleted user with the right password 404 "User not found". *)
Theorem login_failures_distinguishable :
  let absent := login "nobody@example.com" "Password123!" (Some sample.laptop) "s-2"
                      sample.world0 in
  let mismatch := login "alice@example.com" "guess" (Some sample.laptop) "s-2"
                        sample.world0 in
  let deleted := login "carol@example.com" "Secret456!" (Some sample.laptop) "s-2"
                       sample.world0 in
  absent = Ret (Response.error "User does not exist" 404) sample.world0
  /\ mismatch = Ret (Response.error "Invalid password" 400) sample.world0
  /\ deleted = Ret (Response.error "User not found" 404) sample.world0
  /\ absent <> mismatch /\ mismatch <> deleted /\ absent <> deleted.
Proof.
  vm_compute. repeat split; try reflexivity; discriminate.
Qed.

(** ** Intermediate tokens at the full-session gates *)

Section IntermediateTokens.
Context `{Config}.

(** The business and super-admin gates never read the [temp2FA] flag: a
    token is treated as the same token with the flag cleared. *)
Lemma gates_ignore_temp2FA (key id role : string) (temp flag : bool)
      (actual : option string) (exp : Z) (req : Req) (w : World) :
  let token b := Signed key {| c_id := id; c_role := role; c_temp := temp;
                               c_temp2FA := b; c_actualRole := actual |} exp in
  middleware.authenticateBusinessAdmin (Some (token flag)) req w
  = middleware.authenticateBusinessAdmin (Some (token false)) req w
  /\ middleware.authenticateSuperAdmin (Some (token flag)) req w
     = middleware.authenticateSuperAdmin (Some (token false)) req w.
Proof.
  split;
    unfold middleware.authenticateBusinessAdmin, middleware.authenticateSuperAdmin,
      try_catch, bind, jwt.verify;
    destruct (negb (key =? jwtSecret)%string); try reflexivity;
    unfold bind, current_time; destruct (exp <=? clock w); reflexivity.
Qed.

(** [authenticate] turns away both kinds of intermediate token. *)
Lemma authenticate_rejects_intermediate (claims : Claims) (exp : Z) (req : Req)
      (w : World) :
  c_temp claims || c_temp2FA claims = true ->
  exists r, middleware.authenticate (Some (Signed jwtSecret claims exp)) req w
            = Ret (middleware.Sent r) w.
Proof.
  intros Htemp. unfold middleware.authenticate, try_catch, bind, jwt.verify.
  rewrite String.eqb_refl. cbn [negb]. unfold bind, current_time.
  destruct (exp <=? clock w); cbn.
  - eexists; reflexivity.
  - unfold ret. rewrite Htemp. eexists; reflexivity.
Qed.

(** The business and super-admin gates turn away the role-selection token. *)
Lemma business_gate_rejects_role_selection (claims : Claims) (exp : Z) (req : Req)
      (w : World) :
  c_temp claims = true ->
  (exists r, middleware.authenticateBusinessAdmin (Some (Signed jwtSecret claims exp)) req w
             = Ret (middleware.Sent r) w)
  /\ (exists r, middleware.authenticateSuperAdmin (Some (Signed jwtSecret claims exp)) req w
                = Ret (middleware.Sent r) w).
Proof.
  intros Htemp.
  unfold middleware.authenticateBusinessAdmin, middleware.authenticateSuperAdmin,
    try_catch, bind, jwt.verify.
  rewrite String.eqb_refl. cbn [negb]. unfold bind, current_time.
  destruct (exp <=? clock w); cbn.
  - split; eexists; reflexivity.
  - unfold ret. rewrite Htemp. split; eexists; reflexivity.
Qed.

End IntermediateTokens.

(** Claim C5. The second-factor-pending token that [login] hands a user
    with 2FA enabled passes [authenticateBusinessAdmin] and
    [authenticateSuperAdmin] as if it were a session token, before any
    second factor was verified; only [authenticate] turns it away. *)
Theorem pending_token_passes_full_session_gates :
  (exists methods view message,
      value_of (login "alice@example.com" "Password123!" (Some sample.laptop) "s-2"
                      sample.world0)
      = Some (Response.ok (Require2FA sample.pending_token methods view message)))
  /\ value_of (middleware.authenticateBusinessAdmin (Some sample.pending_token)
                 sample.laptop sample.world0)
     = Some (middleware.Next sample.alice "super_admin")
  /\ value_of (middleware.authenticateSuperAdmin (Some sample.pending_token)
                 sample.laptop sample.world0)
     = Some (middleware.Next sample.alice "super_admin")
  /\ value_of (middleware.authenticate (Some sample.pending_token)
                 sample.laptop sample.world0)
     = Some (middleware.Sent
               (Response.error "Please complete authentication process first" 401)).
Proof.
  split; [|vm_compute; repeat split; reflexivity].
  eexists; eexists; eexists. vm_compute. reflexivity.
Qed.

(** ** The properties at the sample data *)

(** Alice is locked out although the code she presents is the right one;
    without the five failures the same call runs the TOTP verifier. *)
Lemma verify2FA_lockout_witness :
  verify2FA "u-alice" "alice@example.com" totp_proof (Some laptop) locked
  = Ret TooManyAttempts locked
  /\ verify2FA "u-alice" "alice@example.com" totp_proof (Some laptop) world0
     = (isValid <- verifier_of authenticator "u-alice" "alice@example.com"
                     totp_proof (Some laptop) ;;
        ret (if isValid then VerificationSuccessful else InvalidVerification)) world0.
Proof.
  split.
  - apply (proj1 (verify2FA_lockout "u-alice" "alice@example.com" totp_proof
                    (Some laptop) locked eq_refl)).
    vm_compute. discriminate.
  - apply (proj2 (verify2FA_lockout "u-alice" "alice@example.com" totp_proof
                    (Some laptop) world0 eq_refl)).
    + vm_compute. reflexivity.
    + reflexivity.
Defined.

Example unlocked_totp_succeeds :
  value_of (verify2FA "u-alice" "alice@example.com" totp_proof (Some laptop) world0)
  = Some VerificationSuccessful.
Proof. reflexivity. Qed.

(** Three calls that leave the ledger as it was: a backup-code submission
    without a code (the comparison throws), an e-mail code checked while
    the OTP table is unreachable (the query throws), and a TOTP code for a
    user without an authenticator secret (the early return). *)
Lemma attempt_ledger_skipped_writes :
  ~ one_row_appended world0
      (verifier_of backup_code "u-alice" "alice@example.com" empty_proof
                   (Some laptop) world0)
  /\ ~ one_row_appended (unreachable T_otp world0)
         (verifier_of one_time_code "u-alice" "alice@example.com" totp_proof
                      (Some laptop) (unreachable T_otp world0))
  /\ ~ one_row_appended world0
         (verifier_of authenticator "u-carol" "carol@example.com" totp_proof
                      (Some laptop) world0).
Proof.
  repeat split; intros [r Hr]; vm_compute in Hr; discriminate.
Qed.

Lemma attempt_ledger_one_row_witness :
  exists isValid w',
    verifier_of authenticator "u-alice" "alice@example.com" totp_proof (Some laptop)
                world0 = Ret isValid w'
    /\ attempts (db w') =
       (attempts (db world0)
        ++ [logged_row authenticator "u-alice" isValid (Some laptop) (clock world0)])%list.
Proof.
  apply (proj1 (attempt_ledger_one_row authenticator "u-alice" "alice@example.com"
                  totp_proof (Some laptop) world0)); reflexivity.
Defined.

Lemma security_questions_witness :
  exists isValid w',
    verifySecurityQuestionsCode "u-alice" (Some answers_one_right) (Some laptop) world0
    = Ret isValid w'
    /\ (isValid = true <->
        exists answer question,
          In answer answers_one_right
          /\ In question (questions (db world0))
          /\ q_user_id question = "u-alice"
          /\ q_id question = a_id answer
          /\ bcrypt_compare (trim (toLowerCase (a_answer answer)))
                            (q_answer_hash question) = true).
Proof.
  apply (security_questions_any_one_correct "u-alice" answers_one_right
           (Some laptop) world0).
  - reflexivity.
  - reflexivity.
  - intros q q' [<-|[<-|[<-|[]]]] [<-|[<-|[<-|[]]]] Hid;
      first [reflexivity | discriminate Hid].
  - vm_compute. discriminate.
  - discriminate.
Defined.

Example one_right_answer_is_enough :
  value_of (verifySecurityQuestionsCode "u-alice" (Some answers_one_right)
              (Some laptop) world0) = Some true.
Proof. reflexivity. Qed.

(** Two live codes are stored for Alice. The older one is presented: by
    the claim's words it is compared with the latest code and refused; the
    verifier accepts it, and the latest code, which was not presented, is
    marked used along with it. *)
Lemma otp_older_code_accepted_all_marked :
  let o := verifyOneTimeCode "u-alice" "alice@example.com" (Some "111111")
             (Some laptop) two_codes in
  most_recent_live "alice@example.com" two_codes = Some newer_code
  /\ verdict_on_most_recent "alice@example.com" "111111" two_codes = false
  /\ value_of o = Some true
  /\ map otp_is_used (otps (db two_codes)) = [false; false]
  /\ map otp_is_used (otps (db (world_of o))) = [true; true].
Proof.
  vm_compute. repeat split; reflexivity.
Qed.

Lemma otp_verifier_behaviour_witness :
  exists isValid w',
    verifyOneTimeCode "u-alice" "alice@example.com" (Some "111111") (Some laptop)
                      two_codes = Ret isValid w'
    /\ (isValid = true <->
        exists r, In r (otps (db two_codes))
                  /\ sql_eq (otp_code r) "111111" = true
                  /\ sql_eq (otp_email r) "alice@example.com" = true
                  /\ clock two_codes < otp_expires_at r
                  /\ otp_is_used r = false)
    /\ otps (db w') =
       (if isValid
        then map (fun r => if sql_eq (otp_email r) "alice@example.com"
                           then authModel.mark_used r else r) (otps (db two_codes))
        else otps (db two_codes))
    /\ (exists w'',
          verifyOneTimeCode "u-alice" "alice@example.com" (Some ("111111" ++ " "))
                            (Some laptop) two_codes = Ret isValid w'').
Proof.
  apply (otp_verifier_behaviour "u-alice" "alice@example.com" "111111"
           (Some laptop) two_codes); reflexivity.
Defined.

Lemma login_device_check_fails_open_witness :
  let w := unreachable T_device_session world0 in
  isDeviceBlocked "u-alice" (Some laptop) w = Ret false w
  /\ login "alice@example.com" "Password123!" (Some laptop) "s-2" w
     = login_factor_decision alice (Some laptop) "s-2" w
  /\ proceeds (login "alice@example.com" "Password123!" (Some laptop) "s-2" w).
Proof.
  apply (login_device_check_fails_open "alice@example.com" "Password123!"
           (Some laptop) "s-2" alice (unreachable T_device_session world0)).
  - repeat split; reflexivity.
  - eexists; eexists; reflexivity.
Defined.

Lemma current_device_protected_witness :
  (s_user_id laptop_session = "u-alice" ->
   blockDevice "u-alice" "s-1" (Some laptop) world0 = Ret CannotBlockCurrentDevice world0
   /\ revokeDevice "u-alice" "s-1" (Some laptop) world0
      = Ret CannotRevokeCurrentDevice world0)
  /\ (exists r1 r2,
        blockDevice "u-alice" "s-1" (Some laptop) world0 = Ret r1 world0
        /\ revokeDevice "u-alice" "s-1" (Some laptop) world0 = Ret r2 world0
        /\ Response.is_error r1 = true /\ Response.is_error r2 = true)
  /\ (forall s : SessionRow,
        isCurrentDevice laptop s = true
        <-> fingerprint_of_request laptop = fingerprint_of_session s).
Proof.
  apply (current_device_protected "u-alice" "s-1" laptop laptop_session world0);
    reflexivity.
Defined.

Example other_device_can_be_blocked :
  value_of (blockDevice "u-alice" "s-1" (Some phone) world0)
  = Some (Response.okMessage
            "Device blocked successfully. This device can no longer access your account.").
Proof. reflexivity. Qed.

Lemma otp_store_shared_witness :
  (forall r : OtpRow,
      In r (otps (db two_codes)) ->
      live_otp "alice@example.com" (clock two_codes) r = true ->
      exists w', verifyOneTimeCode (u_id alice) "alice@example.com"
                   (Some (otp_code r)) (Some laptop) two_codes = Ret true w')
  /\ (let w1 := at_time 3900 (world_of (requestPasswordResetOTP "alice@example.com"
                                          "654321" two_codes)) in
      exists w', verifyOneTimeCode (u_id alice) "alice@example.com" (Some "654321")
                   (Some laptop) w1 = Ret true w')
  /\ (let w2 := at_time 3900 (world_of (twoFactorService.sendOneTimeCode alice
                                          "654321" two_codes)) in
      exists w', resetPasswordWithOTP "alice@example.com" (Some "654321")
                   "NewPassword1!" w2 = Ret PasswordReset w').
Proof.
  apply (otp_store_shared_across_purposes "alice@example.com" "654321" "NewPassword1!"
           alice (Some laptop) 3900 two_codes).
  - reflexivity.
  - reflexivity.
  - repeat split; reflexivity.
  - vm_compute. split; [discriminate|reflexivity].
Defined.

(* ================================================================== *)
(** * More of the flows *)

(** ** Blocked devices *)

Lemma find_is_some {A} (p : A -> bool) (l : list A) :
  (exists x, find p l = Some x) <-> (exists x, In x l /\ p x = true).
Proof.
  split.
  - intros [x Hx]. exists x. now apply find_some in Hx.
  - intros [x [Hin Hp]]. destruct (find p l) as [y|] eqn:Hf; [now exists y|].
    apply (find_none _ _ Hf) in Hin. congruence.
Qed.

Lemma blocked_match_iff (req : Req) (s : SessionRow) :
  blocked_match (extractDeviceInfo req) s = true
  <-> s_is_blocked s = true /\ fingerprint_of_request req = fingerprint_of_session s.
Proof.
  unfold blocked_match, fingerprint_of_request, fingerprint_of_session.
  rewrite !andb_true_iff, !String.eqb_eq. split.
  - intros [[[Hb Hip] Hbr] Hos]. split; [exact Hb|congruence].
  - intros [Hb Heq]. injection Heq as Hip Hbr Hos. auto.
Qed.

Section DeviceBlocks.
Context `{Crypto} `{Config} `{JsString} `{Collation}.

Lemma isDeviceBlocked_iff (userId : string) (req : Req) (w : World) :
  is_down T_device_session w = false ->
  exists b, isDeviceBlocked userId (Some req) w = Ret b w
            /\ (b = true <-> blocked_for userId req w).
Proof.
  intros Hup. unfold isDeviceBlocked, try_catch, bind, deviceSessionModel.getUserSessions.
  rewrite select_up by assumption. unfold ret.
  set (l := order_by _ _).
  assert (Hl : forall s, In s l <-> In s (sessions (db w)) /\ s_user_id s = userId).
  { intros s. unfold l. rewrite In_order_by, filter_In, String.eqb_eq. tauto. }
  destruct (find (blocked_match (extractDeviceInfo req)) l) as [s|] eqn:Hf.
  - exists true. split; [reflexivity|]. split; [intros _|reflexivity].
    apply find_some in Hf as [Hin Hm]. apply Hl in Hin as [Hin Hu].
    apply blocked_match_iff in Hm as [Hb Hfp]. exists s. auto.
  - exists false. split; [reflexivity|]. split; [discriminate|].
    intros [s [Hin [Hu [Hb Hfp]]]]. exfalso.
    assert (Hs : In s l) by (apply Hl; auto).
    apply (find_none _ _ Hf) in Hs.
    assert (blocked_match (extractDeviceInfo req) s = true)
      by (apply blocked_match_iff; auto).
    congruence.
Qed.

Lemma login_after_credentials (email password : string) (req : option Req)
      (uuid : string) (user : UserRow) (w : World) :
  credentials_accepted email password user w ->
  login email password req uuid w =
  (deviceBlocked <- isDeviceBlocked (u_id user) req ;;
   if deviceBlocked then ret DeviceBlocked else login_factor_decision user req uuid) w.
Proof.
  intros [Hfound [Hpass Hlive]]. unfold login. unfold bind at 1. rewrite Hfound.
  unfold bind at 1. cbn [bcrypt_compare_js]. unfold ret at 1.
  rewrite Hpass, Hlive. reflexivity.
Qed.

(** Property X1. A login from a fingerprint on which the user has a blocked
    session is refused and changes nothing; from any other fingerprint the
    device check lets it through to the factor decision. *)
Theorem login_refuses_blocked_fingerprint (email password : string) (req : Req)
        (uuid : string) (user : UserRow) (w : World) :
  credentials_accepted email password user w ->
  is_down T_device_session w = false ->
  (blocked_for (u_id user) req w ->
   login email password (Some req) uuid w = Ret DeviceBlocked w)
  /\ (~ blocked_for (u_id user) req w ->
      login email password (Some req) uuid w
      = login_factor_decision user (Some req) uuid w).
Proof.
  intros Hcred Hup.
  destruct (isDeviceBlocked_iff (u_id user) req w Hup) as [b [Hrun Hb]].
  rewrite (login_after_credentials _ _ _ _ _ _ Hcred). unfold bind. rewrite Hrun.
  split; intros Hblocked.
  - apply Hb in Hblocked. subst b. reflexivity.
  - destruct b; [exfalso; apply Hblocked, Hb; reflexivity|reflexivity].
Qed.

Lemma getSessionById_found (sessionId : string) (session : SessionRow) (w : World) :
  deviceSessionModel.getSessionById sessionId w = Ret (Some session) w ->
  is_down T_device_session w = false
  /\ In session (sessions (db w)) /\ sql_eq (s_id session) sessionId = true.
Proof.
  unfold deviceSessionModel.getSessionById, bind, select, ret.
  destruct (is_down T_device_session w); [discriminate|].
  intros Heq. injection Heq as Hrow. split; [reflexivity|].
  destruct (filter _ _) as [|s l] eqn:Hf; [discriminate|]. injection Hrow as ->.
  assert (Hin : In session (filter (fun s => sql_eq (s_id s) sessionId)
                                   (sessions (db w)))) by (rewrite Hf; now left).
  apply filter_In in Hin as [Hin Hid]. auto.
Qed.

(** Property X2. Once a session has been blocked through the self-service
    endpoint, every login of that user from the session's fingerprint is
    refused. *)
Theorem blocked_session_locks_out_its_fingerprint (userId sessionId : string)
        (req : option Req) (session : SessionRow) (r : Response) (w w' : World) :
  deviceSessionModel.getSessionById sessionId w = Ret (Some session) w ->
  blockDevice userId sessionId req w = Ret r w' ->
  Response.is_error r = false ->
  forall req' : Req,
    fingerprint_of_request req' = fingerprint_of_session session ->
    isDeviceBlocked userId (Some req') w' = Ret true w'.
Proof.
  intros Hfound Hrun Hok req' Hfp.
  destruct (getSessionById_found _ _ _ Hfound) as [Hup [Hin Hid]].
  unfold blockDevice in Hrun. rewrite try_catch_rethrow in Hrun.
  unfold bind at 1 in Hrun. rewrite Hfound in Hrun.
  destruct (s_user_id session =? userId)%string eqn:Hown; cbn [negb] in Hrun;
    [|injection Hrun as <- <-; discriminate].
  destruct (is_current req session);
    [injection Hrun as <- <-; discriminate|].
  unfold bind, deviceSessionModel.blockSession in Hrun.
  rewrite execute_up in Hrun by assumption. injection Hrun as _ <-.
  apply String.eqb_eq in Hown.
  set (w' := with_db _ w).
  destruct (isDeviceBlocked_iff userId req' w') as [b [Hb Hiff]]; [exact Hup|].
  rewrite Hb. f_equal. apply Hiff.
  exists (deviceSessionModel.set_blocked true (clock w) session).
  split; [|repeat split; auto].
  cbn. unfold update_where. apply in_map_iff. exists session. split; [|exact Hin].
  now rewrite Hid.
Qed.

End DeviceBlocks.

(** ** The login flow: tokens, the factor decision, the reset request *)

Section LoginFlow.
Context `{Crypto} `{Config} `{JsString} `{Collation}.

Lemma jwt_verify_live (claims : Claims) (exp : Z) (w : World) :
  clock w < exp ->
  jwt.verify (Signed jwtSecret claims exp) jwtSecret w = Ret claims w.
Proof.
  intros Hlive. unfold jwt.verify. rewrite String.eqb_refl. cbn [negb].
  unfold bind, current_time, ret.
  replace (exp <=? clock w) with false by (symmetry; apply Z.leb_gt; lia).
  reflexivity.
Qed.

Lemma jwt_verify_expired (claims : Claims) (exp : Z) (w : World) :
  exp <= clock w ->
  jwt.verify (Signed jwtSecret claims exp) jwtSecret w = Throw TokenExpiredError w.
Proof.
  intros Hdead. unfold jwt.verify. rewrite String.eqb_refl. cbn [negb].
  unfold bind, current_time, throw.
  replace (exp <=? clock w) with true by (symmetry; apply Z.leb_le; lia).
  reflexivity.
Qed.

(** Property X3. A validly signed, unexpired token is turned away by the entry
    point of the other purpose, with nothing changed. *)
Theorem intermediate_purposes_not_interchangeable (claims : Claims) (exp : Z)
        (method selectedRole otp uuid : string) (code : option string)
        (answers : option (list Answer)) (req : option Req) (w : World) :
  clock w < exp ->
  let token := Signed jwtSecret claims exp in
  (c_temp2FA claims = false ->
   verify2FAAndLogin token method code answers req uuid w
   = Ret (Response.error "Invalid token. Please login first." 401) w
   /\ send2FACode token otp w
      = Ret (Response.error "Invalid token. Please login first." 401) w)
  /\ (c_temp claims = false ->
      selectRole selectedRole (Some token) req uuid w
      = Ret (Response.error
               "Invalid token. Please use the temporary token from login." 401) w).
Proof.
  intros Hlive token. split.
  - intros Hflag. unfold verify2FAAndLogin, send2FACode, try_catch, bind.
    unfold token. rewrite jwt_verify_live by assumption. rewrite Hflag. split; reflexivity.
  - intros Hflag. unfold selectRole, try_catch, bind.
    unfold token. rewrite jwt_verify_live by assumption. rewrite Hflag. reflexivity.
Qed.

Lemma issue_session_never_asks user req uuid w r w' :
  issue_session user req uuid w = Ret r w' -> asks_second_factor r = false.
Proof.
  unfold issue_session, jwt.sign. unfold bind, current_time, ret.
  destruct (createDeviceSession user req uuid w) as [[] w1|e w1];
    cbv beta iota; [|discriminate].
  destruct (userModel.updateLastLoggedIn (u_id user) w1) as [[] w2|e w2];
    cbv beta iota; [|discriminate].
  intros Heq. inversion Heq. reflexivity.
Qed.

Lemma login_passes_device_check (email password : string) (req : option Req)
      (uuid : string) (user : UserRow) (w : World) :
  credentials_accepted email password user w ->
  isDeviceBlocked (u_id user) req w = Ret false w ->
  login email password req uuid w = login_factor_decision user req uuid w.
Proof.
  intros Hcred Hopen. rewrite (login_after_credentials _ _ _ _ _ _ Hcred).
  unfold bind. rewrite Hopen. reflexivity.
Qed.

Lemma factor_decision_on (user : UserRow) (req : option Req) (uuid : string)
      (row : option SettingsRow) (w : World) :
  twoFactorModel.get2FASettings (u_id user) w = Ret row w ->
  enabled_in row = true ->
  exists methods,
    login_factor_decision user req uuid w
    = Ret (Response.ok
             (Require2FA (Signed jwtSecret (temp2FA_claims user) (clock w + ten_minutes))
                         methods (userWithoutBusinessId user)
                         "Please complete 2FA verification")) w
    /\ m_backupCode methods = true.
Proof.
  intros Hget Hon. unfold login_factor_decision. unfold bind at 1. rewrite Hget.
  fold (enabled_in row). rewrite Hon. eexists. split; reflexivity.
Qed.

Lemma factor_decision_off (user : UserRow) (req : option Req) (uuid : string)
      (row : option SettingsRow) (w : World) :
  twoFactorModel.get2FASettings (u_id user) w = Ret row w ->
  enabled_in row = false ->
  forall r w', login_factor_decision user req uuid w = Ret r w' ->
               asks_second_factor r = false.
Proof.
  intros Hget Hoff r w'. unfold login_factor_decision. unfold bind at 1. rewrite Hget.
  fold (enabled_in row). rewrite Hoff.
  destruct (u_role user =? ROLES.SUPER_ADMIN)%string;
    [|apply issue_session_never_asks].
  unfold bind at 1.
  destruct (userRolesModel.getUserRoleNames (u_id user) w) as [names w1|e w1];
    [|discriminate].
  destruct (1 <? List.length names)%nat; [|apply issue_session_never_asks].
  unfold jwt.sign. unfold bind, current_time, ret.
  intros Heq. inversion Heq. reflexivity.
Qed.

(** Property X4. With the device check passed, login asks for the second factor
    exactly when the user's settings row says 2FA is enabled; when it asks,
    it issues a ten-minute token marked [temp2FA], offers the backup-code
    method, and changes nothing in the store. *)
Theorem login_second_factor_decision (email password : string) (req : option Req)
        (uuid : string) (user : UserRow) (w : World) :
  credentials_accepted email password user w ->
  isDeviceBlocked (u_id user) req w = Ret false w ->
  is_down T_user_2fa_settings w = false ->
  (second_factor_enabled (u_id user) w = true ->
   exists methods,
     login email password req uuid w
     = Ret (Response.ok
              (Require2FA (Signed jwtSecret (temp2FA_claims user) (clock w + ten_minutes))
                          methods (userWithoutBusinessId user)
                          "Please complete 2FA verification")) w
     /\ m_backupCode methods = true)
  /\ (second_factor_enabled (u_id user) w = false ->
      forall r w', login email password req uuid w = Ret r w' ->
                   asks_second_factor r = false).
Proof.
  intros Hcred Hopen Hup.
  rewrite (login_passes_device_check _ _ _ _ _ _ Hcred Hopen).
  assert (Hget : exists row, twoFactorModel.get2FASettings (u_id user) w = Ret row w)
    by (unfold twoFactorModel.get2FASettings, bind; rewrite select_up by assumption;
        eexists; reflexivity).
  destruct Hget as [row Hget].
  unfold second_factor_enabled. rewrite Hget. cbn [value_of]. fold (enabled_in row).
  split.
  - apply factor_decision_on. exact Hget.
  - apply factor_decision_off. exact Hget.
Qed.

(** Property X5. Whenever the request gate refuses a device as blocked, the
    login check refuses the same device too. *)
Theorem gate_block_implies_login_block (user : UserRow) (role : string) (req : Req)
        (w w' : World) :
  middleware.checkDeviceBlocked user role req w = Ret (middleware.Sent DeviceBlocked) w' ->
  isDeviceBlocked (u_id user) (Some req) w = Ret true w.
Proof.
  unfold middleware.checkDeviceBlocked, isDeviceBlocked, try_catch, bind,
    deviceSessionModel.getUserSessions.
  destruct (is_down T_device_session w) eqn:Hd.
  - rewrite !select_down by assumption. discriminate.
  - rewrite !select_up by assumption. unfold ret.
    set (l := order_by _ _).
    destruct (find (middleware.fingerprint_match (extractDeviceInfo req)) l)
      as [s|] eqn:Hf; [|discriminate].
    destruct (s_is_blocked s) eqn:Hb.
    + intros _. apply find_some in Hf as [Hin Hm].
      destruct (find (blocked_match (extractDeviceInfo req)) l) as [s'|] eqn:Hf';
        [reflexivity|].
      apply (find_none _ _ Hf') in Hin. unfold blocked_match in Hin.
      unfold middleware.fingerprint_match in Hm. rewrite Hb in Hin.
      rewrite <- !andb_assoc in Hin. cbn [andb] in Hin. rewrite andb_assoc in Hin.
      congruence.
    + unfold deviceSessionModel.updateLastActive.
      rewrite execute_up by assumption. discriminate.
Qed.

(** Property X6. Asked with the mail transport working, the password-reset code
    request answers the same whether or not the address belongs to an
    eligible account, and mints a code only for an eligible one. *)
Theorem reset_code_request_reveals_nothing (email otp : string) (w : World) :
  is_down T_user w = false ->
  is_down T_otp w = false ->
  mail_down w = false ->
  exists w',
    requestPasswordResetOTP email otp w = Ret ResetCodeSent w'
    /\ ((forall user, ~ reset_eligible email user w) -> w' = w).
Proof.
  intros Huser Hotp Hmail.
  unfold requestPasswordResetOTP. rewrite try_catch_rethrow.
  assert (Hget : userModel.getByEmail email w
                 = Ret (first_row (filter (fun u => sql_eq (u_email u) email)
                                          (users (db w)))) w)
    by (unfold userModel.getByEmail, bind; now rewrite select_up).
  unfold reset_eligible. unfold bind at 1. rewrite Hget.
  destruct (first_row _) as [user|]; [|exists w; split; auto].
  destruct (u_is_deleted user) eqn:Hdel; [exists w; split; auto|].
  destruct (u_role user =? ROLES.SUPER_ADMIN)%string eqn:Hrole; cbn [negb];
    [|exists w; split; auto].
  unfold bind at 1, authModel.insertOtp. rewrite execute_up by assumption.
  unfold try_catch, bind, emailService.sendPasswordResetOTPEmail.
  cbn [mail_down with_db]. rewrite Hmail. eexists. split; [reflexivity|].
  intros Hnone. exfalso. apply (Hnone user). apply String.eqb_eq in Hrole. auto.
Qed.

End LoginFlow.

(** ** What the full-session gates let through *)

Section FullSessionGates.
Context `{Crypto} `{Config} `{JsString} `{Collation}.

Lemma jwt_verify_ret (token : Token) (claims : Claims) (w w' : World) :
  jwt.verify token jwtSecret w = Ret claims w' ->
  w' = w /\ exists exp, token = Signed jwtSecret claims exp /\ clock w < exp.
Proof.
  unfold jwt.verify. destruct token as [|key c exp]; [discriminate|].
  destruct (key =? jwtSecret)%string eqn:Hkey; cbn [negb]; [|discriminate].
  unfold bind, current_time, ret, throw.
  destruct (exp <=? clock w) eqn:Hexp; [discriminate|].
  intros Heq. inversion Heq. subst. split; [reflexivity|].
  apply String.eqb_eq in Hkey. apply Z.leb_gt in Hexp. subst key. eauto.
Qed.

Lemma checkDeviceBlocked_next (user u : UserRow) (role r : string) (req : Req)
      (w w' : World) :
  middleware.checkDeviceBlocked user role req w = Ret (middleware.Next u r) w' ->
  u = user /\ r = role.
Proof.
  unfold middleware.checkDeviceBlocked, try_catch, bind.
  destruct (deviceSessionModel.getUserSessions (u_id user) w) as [l w1|e w1].
  - destruct (find _ l) as [s|].
    + destruct (s_is_blocked s); [discriminate|].
      destruct (deviceSessionModel.updateLastActive (s_id s) w1);
        intros Heq; inversion Heq; auto.
    + intros Heq; inversion Heq; auto.
  - intros Heq; inversion Heq; auto.
Qed.

(** Property X7. Every request a full-session gate lets through carries a live
    token that is not marked [temp], and the user the token names is stored;
    [authenticate] has also seen that the token is not marked [temp2FA] and
    that the user is active and not deleted; [authenticateSuperAdmin] that
    the role of the token is super admin and that the user is active and not
    deleted; [authenticateBusinessAdmin] that the role is an admin role and
    that the user belongs to a business account whose business is stored and
    active. *)
Theorem gates_let_through_only (authorization : option Token) (req : Req)
        (user : UserRow) (role : string) (w w' : World) :
  (middleware.authenticate authorization req w = Ret (middleware.Next user role) w' ->
   exists claims,
     session_token_of authorization role user w claims
     /\ c_temp2FA claims = false
     /\ u_is_deleted user = false /\ u_is_active user = true)
  /\ (middleware.authenticateSuperAdmin authorization req w
      = Ret (middleware.Next user role) w' ->
      exists claims,
        session_token_of authorization role user w claims
        /\ role = ROLES.SUPER_ADMIN
        /\ u_is_deleted user = false /\ u_is_active user = true)
  /\ (middleware.authenticateBusinessAdmin authorization req w
      = Ret (middleware.Next user role) w' ->
      exists claims business_id business,
        session_token_of authorization role user w claims
        /\ In role ADMIN_ROLES
        /\ u_account_name user = "business"
        /\ u_business_id user = Some business_id
        /\ businessModel.getById business_id w = Ret (Some business) w
        /\ b_is_active business = true).
Proof.
  split; [|split].
  - unfold middleware.authenticate, try_catch. unfold bind at 1.
    destruct authorization as [token|]; [|discriminate].
    destruct (jwt.verify token jwtSecret w) as [claims w1|e w1] eqn:Hv;
      [|destruct e; discriminate].
    apply jwt_verify_ret in Hv as [-> [exp [-> Hexp]]].
    destruct (c_temp claims) eqn:Ht; [discriminate|].
    destruct (c_temp2FA claims) eqn:Ht2; [discriminate|]. cbn [orb].
    unfold bind at 1.
    destruct (userModel.getById (c_id claims) w) as [[u|] w1|e w1] eqn:Hu;
      [| discriminate | destruct e; discriminate].
    assert (w1 = w) as ->.
    { unfold userModel.getById, bind, select in Hu.
      destruct (is_down T_user w); inversion Hu; reflexivity. }
    destruct (u_is_deleted u) eqn:Hdel; [discriminate|].
    destruct (u_is_active u) eqn:Hact; cbn [negb]; [|discriminate].
    destruct (middleware.checkDeviceBlocked u (c_role claims) req w)
      as [h w2|e w2] eqn:Hc; [|destruct e; discriminate].
    intros Heq. inversion Heq. subst.
    apply checkDeviceBlocked_next in Hc as [-> ->].
    exists claims. unfold session_token_of. repeat split; eauto.
  - unfold middleware.authenticateSuperAdmin, try_catch. unfold bind at 1.
    destruct authorization as [token|]; [|discriminate].
    destruct (jwt.verify token jwtSecret w) as [claims w1|e w1] eqn:Hv;
      [|destruct e; discriminate].
    apply jwt_verify_ret in Hv as [-> [exp [-> Hexp]]].
    destruct (c_temp claims) eqn:Ht; [discriminate|].
    unfold bind at 1.
    destruct (userModel.getById (c_id claims) w) as [[u|] w1|e w1] eqn:Hu;
      [| discriminate | destruct e; discriminate].
    assert (w1 = w) as ->.
    { unfold userModel.getById, bind, select in Hu.
      destruct (is_down T_user w); inversion Hu; reflexivity. }
    destruct (u_is_deleted u) eqn:Hdel; [discriminate|].
    destruct (u_is_active u) eqn:Hact; cbn [negb]; [|discriminate].
    destruct (c_role claims =? ROLES.SUPER_ADMIN)%string eqn:Hrole; cbn [negb];
      [|discriminate].
    destruct (middleware.checkDeviceBlocked u (c_role claims) req w)
      as [h w2|e w2] eqn:Hc; [|destruct e; discriminate].
    intros Heq. inversion Heq. subst.
    apply checkDeviceBlocked_next in Hc as [-> ->].
    apply String.eqb_eq in Hrole.
    exists claims. unfold session_token_of. repeat split; eauto.
  - unfold middleware.authenticateBusinessAdmin, try_catch. unfold bind at 1.
    destruct authorization as [token|]; [|discriminate].
    destruct (jwt.verify token jwtSecret w) as [claims w1|e w1] eqn:Hv;
      [|discriminate].
    apply jwt_verify_ret in Hv as [-> [exp [-> Hexp]]].
    destruct (c_temp claims) eqn:Ht; [discriminate|].
    unfold bind at 1.
    destruct (userModel.getById (c_id claims) w) as [[u|] w1|e w1] eqn:Hu;
      [| discriminate | discriminate].
    assert (w1 = w) as ->.
    { unfold userModel.getById, bind, select in Hu.
      destruct (is_down T_user w); inversion Hu; reflexivity. }
    destruct (u_account_name u =? "business")%string eqn:Hacc; cbn [negb];
      [|discriminate].
    destruct (includes ADMIN_ROLES (c_role claims)) eqn:Hinc; cbn [negb];
      [|discriminate].
    destruct (u_business_id u) as [[|c0 rest]|] eqn:Hbid;
      [discriminate| |discriminate].
    set (bid := String c0 rest) in *.
    unfold bind at 1.
    destruct (businessModel.getById bid w) as [[b|] w1|e w1] eqn:Hb;
      [| discriminate | discriminate].
    assert (w1 = w) as ->.
    { unfold businessModel.getById, bind, select in Hb.
      destruct (is_down T_business w); inversion Hb; reflexivity. }
    destruct (b_is_active b) eqn:Hba; [|discriminate].
    destruct (middleware.checkDeviceBlocked u (c_role claims) req w)
      as [h w2|e w2] eqn:Hc; [|discriminate].
    intros Heq. inversion Heq. subst h.
    apply checkDeviceBlocked_next in Hc as [-> ->].
    apply String.eqb_eq in Hacc.
    exists claims, bid, b. unfold session_token_of. repeat split; eauto.
    unfold includes in Hinc. apply existsb_exists in Hinc as [x [Hin Hx]].
    apply String.eqb_eq in Hx. now subst x.
Qed.

End FullSessionGates.

(** ** The lifetime of the second-factor-pending token *)

Section PendingToken.
Context `{Crypto} `{Config} `{JsString} `{Collation}.

Lemma issue_session_ok user req uuid w r w' :
  issue_session user req uuid w = Ret r w' ->
  r = Response.ok (LoggedIn (Signed jwtSecret (plain_claims user) (clock w + seven_days))
                            (userWithoutBusinessId user) None).
Proof.
  unfold issue_session, jwt.sign. unfold bind, current_time, ret.
  destruct (createDeviceSession user req uuid w) as [[] w1|e w1]; [|discriminate].
  destruct (userModel.updateLastLoggedIn (u_id user) w1) as [[] w2|e w2]; [|discriminate].
  intros Heq. inversion Heq. reflexivity.
Qed.

Lemma verify2FA_answers userId email vd req w r w' :
  verify2FA userId email vd req w = Ret r w' ->
  r = TooManyAttempts \/ r = InvalidMethod \/ r = InvalidVerification
  \/ r = VerificationSuccessful.
Proof.
  unfold verify2FA. rewrite try_catch_rethrow. unfold bind at 1.
  destruct (twoFactorModel.getRecentFailedAttempts userId 30 w) as [n w1|e w1];
    [|discriminate].
  destruct (5 <=? n); [intros Heq; inversion Heq; auto|].
  repeat match goal with
         | |- context [if (?a =? ?b)%string then _ else _] =>
             destruct (a =? b)%string
         end.
  all: unfold bind, ret;
    try match goal with
        | |- match ?o with _ => _ end = _ -> _ => destruct o as [[] ?|? ?]
        end;
    intros Heq; inversion Heq; auto.
Qed.

Lemma select_throws {A} t (q : Z -> Db -> A) w e w' :
  select t q w = Throw e w' -> query_error e = true.
Proof.
  unfold select. destruct (is_down t w); intros Heq; inversion Heq; reflexivity.
Qed.

Lemma execute_throws t q w e w' :
  execute t q w = Throw e w' -> query_error e = true.
Proof.
  unfold execute, executeQuery. destruct (is_down t w); intros Heq; inversion Heq;
    reflexivity.
Qed.

Lemma getById_throws id w e w' :
  userModel.getById id w = Throw e w' -> query_error e = true.
Proof.
  unfold userModel.getById, bind. 
  destruct (select _ _ w) as [a w1|e1 w1] eqn:Hs; [discriminate|].
  intros Heq; inversion Heq; subst. eapply select_throws; eassumption.
Qed.

Lemma verify2FA_throws userId email vd req w e w' :
  verify2FA userId email vd req w = Throw e w' -> query_error e = true.
Proof.
  unfold verify2FA. rewrite try_catch_rethrow. unfold bind at 1.
  destruct (twoFactorModel.getRecentFailedAttempts userId 30 w) as [n w1|e1 w1] eqn:Hn.
  - destruct (5 <=? n); [discriminate|].
    repeat match goal with
           | |- context [if (?a =? ?b)%string then _ else _] =>
               destruct (a =? b)%string
           end.
    all: unfold bind, ret; try discriminate.
    + destruct (verifyAuthenticatorCode _ _ _ w1) as [[] ?|e2 w2] eqn:Hv; try discriminate.
      exfalso. revert Hv. unfold verifyAuthenticatorCode, try_catch.
      match goal with |- match ?o with _ => _ end = _ -> _ => destruct o end;
        discriminate.
    + destruct (verifyOneTimeCode _ _ _ _ w1) as [[] ?|e2 w2] eqn:Hv; try discriminate.
      exfalso. revert Hv. unfold verifyOneTimeCode, try_catch.
      match goal with |- match ?o with _ => _ end = _ -> _ => destruct o end;
        discriminate.
    + destruct (verifySecurityQuestionsCode _ _ _ w1) as [[] ?|e2 w2] eqn:Hv;
        try discriminate.
      exfalso. revert Hv. unfold verifySecurityQuestionsCode, try_catch.
      match goal with |- match ?o with _ => _ end = _ -> _ => destruct o end;
        discriminate.
    + destruct (verifyBackupCode _ _ _ w1) as [[] ?|e2 w2] eqn:Hv; try discriminate.
      exfalso. revert Hv. unfold verifyBackupCode, try_catch.
      match goal with |- match ?o with _ => _ end = _ -> _ => destruct o end;
        discriminate.
  - intros Heq; inversion Heq; subst.
    unfold twoFactorModel.getRecentFailedAttempts in Hn.
    eapply select_throws; eassumption.
Qed.

Lemma isDeviceBlocked_returns userId req w e w' :
  isDeviceBlocked userId req w <> Throw e w'.
Proof.
  unfold isDeviceBlocked. destruct req as [rq|]; [|discriminate].
  unfold try_catch.
  match goal with |- match ?o with _ => _ end <> _ => destruct o end; discriminate.
Qed.

Lemma token_errors_query msg e w :
  query_error e = true -> token_errors msg e w = Throw e w.
Proof. destruct e; try discriminate; reflexivity. Qed.

Lemma issue_session_throws user req uuid w e w' :
  issue_session user req uuid w = Throw e w' -> query_error e = true.
Proof.
  unfold issue_session, jwt.sign. unfold bind, current_time, ret.
  destruct (createDeviceSession user req uuid w) as [[] w1|e1 w1] eqn:Hc.
  - destruct (userModel.updateLastLoggedIn (u_id user) w1) as [[] w2|e2 w2] eqn:Hu;
      [discriminate|].
    intros Heq; inversion Heq; subst.
    unfold userModel.updateLastLoggedIn in Hu. eapply execute_throws; eassumption.
  - exfalso. revert Hc. unfold createDeviceSession.
    destruct req as [rq|]; [|discriminate]. unfold try_catch.
    match goal with |- match ?o with _ => _ end = _ -> _ => destruct o end;
      discriminate.
Qed.

Lemma issue_session_after_2FA_ok user req uuid w r w' :
  issue_session_after_2FA user req uuid w = Ret r w' ->
  r = Response.ok (LoggedIn (Signed jwtSecret (plain_claims user) (clock w + seven_days))
                            (userWithoutBusinessId_with_password user) None).
Proof.
  unfold issue_session_after_2FA, jwt.sign. unfold bind, current_time, ret.
  destruct (createDeviceSession user req uuid w) as [[] w1|e w1]; [|discriminate].
  destruct (userModel.updateLastLoggedIn (u_id user) w1) as [[] w2|e w2]; [|discriminate].
  intros Heq. inversion Heq. reflexivity.
Qed.

Lemma issue_session_after_2FA_throws user req uuid w e w' :
  issue_session_after_2FA user req uuid w = Throw e w' -> query_error e = true.
Proof.
  unfold issue_session_after_2FA, jwt.sign. unfold bind, current_time, ret.
  destruct (createDeviceSession user req uuid w) as [[] w1|e1 w1] eqn:Hc.
  - destruct (userModel.updateLastLoggedIn (u_id user) w1) as [[] w2|e2 w2] eqn:Hu;
      [discriminate|].
    intros Heq; inversion Heq; subst.
    unfold userModel.updateLastLoggedIn in Hu. eapply execute_throws; eassumption.
  - exfalso. revert Hc. unfold createDeviceSession.
    destruct req as [rq|]; [|discriminate]. unfold try_catch.
    match goal with |- match ?o with _ => _ end = _ -> _ => destruct o end;
      discriminate.
Qed.

Lemma getUserRoleNames_world userId w names w' :
  userRolesModel.getUserRoleNames userId w = Ret names w' -> w' = w.
Proof.
  unfold userRolesModel.getUserRoleNames, bind, select.
  destruct (is_down T_user_roles w); intros Heq; inversion Heq; reflexivity.
Qed.

Lemma getUserRoleNames_throws userId w e w' :
  userRolesModel.getUserRoleNames userId w = Throw e w' -> query_error e = true.
Proof.
  unfold userRolesModel.getUserRoleNames, bind, select.
  destruct (is_down T_user_roles w); intros Heq; inversion Heq; reflexivity.
Qed.

(** Property X8. The token login hands out for a pending second factor is
    refused as expired from the tenth minute on; before that,
    [verify2FAAndLogin] never answers it with a 401. *)
Theorem pending_token_lifetime (user : UserRow) (issued : Z) (method uuid : string)
        (proof : option string) (answers : option (list Answer))
        (req : option Req) (w : World) :
  let token := Signed jwtSecret (temp2FA_claims user) (issued + ten_minutes) in
  (issued + ten_minutes <= clock w ->
   verify2FAAndLogin token method proof answers req uuid w
   = Ret (Response.error "2FA token expired. Please login again." 401) w)
  /\ (clock w < issued + ten_minutes ->
      forall r w', verify2FAAndLogin token method proof answers req uuid w = Ret r w' ->
                   code r <> 401).
Proof.
  intros token. split.
  - intros Hdead. unfold verify2FAAndLogin, try_catch, bind. unfold token.
    rewrite jwt_verify_expired by assumption. reflexivity.
  - intros Hlive r w'. unfold verify2FAAndLogin, try_catch. unfold bind at 1.
    unfold token. rewrite jwt_verify_live by assumption.
    cbn [temp2FA_claims c_temp2FA negb c_id].
    unfold bind at 1.
    destruct (userModel.getById (u_id user) w) as [[u|] w1|e w1] eqn:Hg;
      [| intros Heq; inversion Heq; discriminate
       | apply getById_throws in Hg; rewrite token_errors_query by assumption;
         discriminate ].
    destruct (u_is_deleted u); [intros Heq; inversion Heq; discriminate|].
    unfold bind at 1.
    destruct (verify2FA (u_id u) (u_email u) _ req w1) as [res w2|e w2] eqn:Hv;
      [| apply verify2FA_throws in Hv; rewrite token_errors_query by assumption;
         discriminate ].
    apply verify2FA_answers in Hv.
    destruct (Response.is_error res) eqn:Herr.
    { intros Heq; inversion Heq; subst.
      destruct Hv as [ -> | [ -> | [ -> | -> ] ] ]; discriminate. }
    unfold bind at 1.
    destruct (isDeviceBlocked (u_id u) req w2) as [[|] w3|e w3] eqn:Hb;
      [ intros Heq; inversion Heq; discriminate | |
        exfalso; exact (isDeviceBlocked_returns _ _ _ _ _ Hb) ].
    assert (Hissue : forall r w', match issue_session_after_2FA u req uuid w3 with
                                  | Ret a w'0 => Ret a w'0
                                  | Throw e w'0 =>
                                      token_errors "2FA token expired. Please login again."
                                                   e w'0
                                  end = Ret r w' -> code r <> 401).
    { intros r0 w0.
      destruct (issue_session_after_2FA u req uuid w3) as [a wa|e wa] eqn:Hi.
      - apply issue_session_after_2FA_ok in Hi. intros Heq; inversion Heq; subst.
        discriminate.
      - apply issue_session_after_2FA_throws in Hi.
        rewrite token_errors_query by assumption. discriminate. }
    destruct (u_role u =? ROLES.SUPER_ADMIN)%string; [|apply Hissue].
    unfold bind at 1.
    destruct (userRolesModel.getUserRoleNames (u_id u) w3) as [names w4|e w4] eqn:Hn.
    + destruct (1 <? List.length names)%nat.
      * unfold jwt.sign. unfold bind, current_time, ret.
        intros Heq; inversion Heq; discriminate.
      * apply getUserRoleNames_world in Hn. subst w4. apply Hissue.
    + apply getUserRoleNames_throws in Hn. rewrite token_errors_query by assumption.
      discriminate.
Qed.

End PendingToken.

(** ** Role selection *)

Section RoleSelection.
Context `{Crypto} `{Config} `{JsString} `{Collation}.

Lemma getById_world id w u w' :
  userModel.getById id w = Ret u w' -> w' = w.
Proof.
  unfold userModel.getById, bind, select.
  destruct (is_down T_user w); intros Heq; inversion Heq; reflexivity.
Qed.

Lemma includes_In (l : list string) (x : string) :
  includes l x = true <-> In x l.
Proof.
  unfold includes. rewrite existsb_exists. split.
  - intros [y [Hy Heq]]. apply String.eqb_eq in Heq. subst. assumption.
  - intros Hin. exists x. split; [assumption|apply String.eqb_refl].
Qed.

Lemma getUserRoleNames_holds userId w names w' role :
  userRolesModel.getUserRoleNames userId w = Ret names w' ->
  (In role names <-> holds_role userId role w).
Proof.
  unfold userRolesModel.getUserRoleNames, bind, select.
  destruct (is_down T_user_roles w); [discriminate|].
  unfold ret. intros Heq. inversion Heq; subst. clear Heq.
  rewrite in_map_iff. unfold holds_role. split.
  - intros [r [Hname Hin]]. apply In_order_by in Hin. apply filter_In in Hin.
    destruct Hin as [Hin Hp]. apply andb_prop in Hp. destruct Hp as [Hu Ha].
    apply String.eqb_eq in Hu. exists r. auto.
  - intros [r [Hin [Hu [Ha Hname]]]]. exists r. split; [assumption|].
    apply In_order_by. apply filter_In. split; [assumption|].
    rewrite Ha, andb_true_r. apply String.eqb_eq. assumption.
Qed.

(** Property X9. A role selection that succeeds was asked with a live
    role-selection token of a super admin who is not deleted and holds an
    active grant of the selected role; the session token it returns carries
    the selected role, remembers the stored one and lasts seven days. *)
Theorem selectRole_grants_only_held_roles (selectedRole uuid : string)
        (tempToken : option Token) (req : option Req) (w w' : World) (r : Response) :
  selectRole selectedRole tempToken req uuid w = Ret r w' ->
  Response.is_error r = false ->
  exists claims exp user,
    tempToken = Some (Signed jwtSecret claims exp)
    /\ clock w < exp
    /\ c_temp claims = true
    /\ userModel.getById (c_id claims) w = Ret (Some user) w
    /\ u_role user = ROLES.SUPER_ADMIN
    /\ u_is_deleted user = false
    /\ holds_role (u_id user) selectedRole w
    /\ (forall rq, req = Some rq -> is_down T_device_session w = false ->
                   ~ blocked_for (u_id user) rq w)
    /\ r = Response.ok
             (LoggedIn (Signed jwtSecret (selected_claims user selectedRole)
                               (clock w + seven_days))
                       (userWithoutBusinessId user) (Some selectedRole)).
Proof.
  unfold selectRole, try_catch.
  destruct tempToken as [tok|]; [|intros Heq; inversion Heq; subst; discriminate].
  unfold bind at 1.
  destruct (jwt.verify tok jwtSecret w) as [claims w1|e w1] eqn:Hv.
  2:{ revert Hv. unfold jwt.verify. destruct tok as [|key cl exp]; unfold throw.
      - intros Hv; inversion Hv; subst. cbn. intros Heq; inversion Heq; subst.
        discriminate.
      - destruct (negb (key =? jwtSecret)%string).
        + intros Hv; inversion Hv; subst. cbn. intros Heq; inversion Heq; subst.
          discriminate.
        + unfold bind, current_time, ret. destruct (exp <=? clock w).
          * intros Hv; inversion Hv; subst. cbn. intros Heq; inversion Heq; subst.
            discriminate.
          * discriminate. }
  apply jwt_verify_ret in Hv. destruct Hv as [-> [exp [-> Hlive]]].
  destruct (c_temp claims) eqn:Htemp; cbn [negb];
    [|intros Heq; inversion Heq; subst; discriminate].
  unfold bind at 1.
  destruct (userModel.getById (c_id claims) w) as [[u|] w1|e w1] eqn:Hg;
    [| intros Heq; inversion Heq; subst; discriminate
     | apply getById_throws in Hg; rewrite token_errors_query by assumption;
       discriminate ].
  pose proof (getById_world _ _ _ _ Hg) as ->.
  destruct (u_role u =? ROLES.SUPER_ADMIN)%string eqn:Hrole; cbn [negb];
    [|intros Heq; inversion Heq; subst; discriminate].
  destruct (u_is_deleted u) eqn:Hdel; [intros Heq; inversion Heq; subst; discriminate|].
  unfold bind at 1.
  destruct (userRolesModel.getUserRoleNames (u_id u) w) as [names w1|e w1] eqn:Hn;
    [| apply getUserRoleNames_throws in Hn; rewrite token_errors_query by assumption;
       discriminate ].
  pose proof (getUserRoleNames_world _ _ _ _ Hn) as ->.
  destruct (includes names selectedRole) eqn:Hinc; cbn [negb];
    [|intros Heq; inversion Heq; subst; discriminate].
  unfold bind at 1.
  destruct (isDeviceBlocked (u_id u) req w) as [[|] w1|e w1] eqn:Hb;
    [ intros Heq; inversion Heq; subst; discriminate | |
      exfalso; exact (isDeviceBlocked_returns _ _ _ _ _ Hb) ].
  intros Hrun Hok.
  exists claims, exp, u.
  repeat split; try assumption.
  - apply String.eqb_eq. assumption.
  - apply (getUserRoleNames_holds _ _ _ _ selectedRole Hn). apply includes_In.
    assumption.
  - intros rq -> Hup Hblocked.
    destruct (isDeviceBlocked_iff (u_id u) rq w Hup) as [b [Hb' Hiff]].
    rewrite Hb' in Hb. inversion Hb; subst. apply Hiff in Hblocked. discriminate.
  - assert (w1 = w) as ->.
    { destruct req as [rq|].
      - unfold isDeviceBlocked, try_catch, bind in Hb.
        unfold deviceSessionModel.getUserSessions, select in Hb.
        destruct (is_down T_device_session w); inversion Hb; reflexivity.
      - inversion Hb; reflexivity. }
    revert Hrun. unfold jwt.sign. unfold bind, current_time, ret.
    destruct (createDeviceSession u req uuid w) as [[] w2|e w2] eqn:Hc.
    + destruct (userModel.updateLastLoggedIn (u_id u) w2) as [[] w3|e w3] eqn:Hu.
      * intros Heq; inversion Heq; reflexivity.
      * unfold userModel.updateLastLoggedIn in Hu. apply execute_throws in Hu.
        rewrite token_errors_query by assumption. discriminate.
    + exfalso. revert Hc. unfold createDeviceSession.
      destruct req as [rq|]; [|discriminate]. unfold try_catch.
      match goal with |- match ?o with _ => _ end = _ -> _ => destruct o end;
        discriminate.
Qed.

End RoleSelection.

(** ** Failed verifications and the lockout *)

Section FailedVerifications.
Context `{Crypto} `{JsString} `{Collation}.

Lemma count_where_app {A} (p : A -> bool) (l1 l2 : list A) :
  count_where p (l1 ++ l2)%list = count_where p l1 + count_where p l2.
Proof.
  unfold count_where. rewrite filter_app, length_app. lia.
Qed.

(** A verifier that gets as far as comparing the proof returns, writes its
    row and changes neither the clock nor the reachability of the tables. *)
Lemma engaged_verifier_logs (m : Method) (userId email : string)
      (vd : VerificationData) (req : option Req) (w : World) :
  down w = [] -> engaged m userId vd w = true ->
  exists (isValid : bool) (w' : World),
    verifier_of m userId email vd req w = Ret isValid w'
    /\ attempts (db w') =
       (attempts (db w) ++ [logged_row m userId isValid req (clock w)])%list
    /\ clock w' = clock w /\ down w' = [].
Proof.
  intros Hup Hen. destruct m; cbn [verifier_of engaged] in *.
  - destruct w as [d now dn md]; cbn in Hup; subst dn.
    unfold verifyAuthenticatorCode, twoFactorModel.getAuthenticatorSecret,
      try_catch, bind, select in *. cbn in *.
    destruct (first_row _) as [a|]; [|discriminate]. cbn in Hen. rewrite Hen. cbn.
    eexists; eexists; repeat split; reflexivity.
  - destruct w as [d now dn md]; cbn in Hup; subst dn.
    unfold verifyOneTimeCode, authModel.verifyToken, try_catch, bind, select. cbn.
    destruct (0 <? _); cbn; eexists; eexists; repeat split; reflexivity.
  - destruct w as [d now dn md]; cbn in Hup; subst dn.
    unfold verifySecurityQuestionsCode, twoFactorModel.getSecurityQuestions,
      try_catch, bind, select in *. cbn in *.
    destruct (order_by _ _) as [|q qs]; [discriminate|].
    destruct (vd_answers vd) as [[|]|]; cbn; eexists; eexists; repeat split; reflexivity.
  - destruct (vd_code vd) as [plain|]; [|discriminate].
    unfold verifyBackupCode, try_catch, bind at 1.
    rewrite select_up by (unfold is_down; now rewrite Hup).
    clear Hen. generalize (unused_codes userId (db w)) as codes.
    intros codes. induction codes as [|c rest IH].
    + destruct w as [d now dn md]; cbn in Hup; subst dn.
      exists false; eexists; repeat split; reflexivity.
    + cbn [scan_codes bcrypt_compare_js]. unfold bind at 1, ret at 1.
      destruct (bcrypt_compare plain (bc_code_hash c)); [|exact IH].
      destruct w as [d now dn md]; cbn in Hup; subst dn.
      exists true. unfold twoFactorModel.useBackupCode, bind, select. cbn.
      destruct (first_row _); cbn; eexists; repeat split; reflexivity.
Qed.

Lemma failures_after_log (m : Method) (userId other : string) (isValid : bool)
      (req : option Req) (w w' : World) :
  attempts (db w') = (attempts (db w) ++ [logged_row m userId isValid req (clock w)])%list ->
  clock w' = clock w ->
  failures_in_window other w' =
  failures_in_window other w
  + (if (userId =? other)%string && negb isValid then 1 else 0).
Proof.
  intros Hrows Hclock. unfold failures_in_window. rewrite Hrows, Hclock.
  rewrite count_where_app. f_equal.
  unfold count_where, logged_row, twoFactorModel.attempt_row,
    twoFactorModel.recent_failure. cbn [filter at_user_id at_success at_created_at
    twoFactorModel.userId twoFactorModel.success].
  replace (clock w - 30 * 60 <? clock w) with true by (symmetry; apply Z.ltb_lt; lia).
  rewrite andb_true_r.
  destruct ((userId =? other)%string && negb isValid); reflexivity.
Qed.

Lemma verify2FA_locked (userId email : string) (vd : VerificationData)
      (req : option Req) (w : World) :
  is_down T_user_2fa_attempt w = false -> 5 <= failures_in_window userId w ->
  verify2FA userId email vd req w = Ret TooManyAttempts w.
Proof.
  intros Hup Hlocked. apply Z.leb_le in Hlocked.
  unfold verify2FA. rewrite try_catch_rethrow. unfold bind at 1.
  unfold twoFactorModel.getRecentFailedAttempts. rewrite select_up by assumption.
  fold (failures_in_window userId w). rewrite Hlocked. reflexivity.
Qed.

Lemma verify2FA_unlocked (m : Method) (userId email : string) (vd : VerificationData)
      (req : option Req) (w : World) :
  is_down T_user_2fa_attempt w = false -> failures_in_window userId w < 5 ->
  vd_method vd = method_name m ->
  verify2FA userId email vd req w =
  (isValid <- verifier_of m userId email vd req ;;
   ret (if isValid then VerificationSuccessful else InvalidVerification)) w.
Proof.
  intros Hup Hfree Hm. apply Z.leb_gt in Hfree.
  unfold verify2FA. rewrite try_catch_rethrow. unfold bind at 1.
  unfold twoFactorModel.getRecentFailedAttempts. rewrite select_up by assumption.
  fold (failures_in_window userId w). rewrite Hfree, Hm.
  destruct m; cbn [method_name String.eqb Ascii.eqb Bool.eqb verifier_of];
    unfold bind;
    match goal with
    | |- match ?o with _ => _ end = _ => destruct o as [[] ?|? ?]; reflexivity
    end.
Qed.

(** Property X10. Below the lockout threshold, a verification that gets as far
    as comparing the proof adds one failure to the user's 30-minute count
    when it is refused and none when it is accepted, and never touches
    another user's count; the failure that brings the count to five locks
    the user out for every later proof. *)
Theorem failed_verification_counts_towards_lockout (m : Method)
        (userId email : string) (vd : VerificationData) (req : option Req) (w : World) :
  down w = [] -> vd_method vd = method_name m -> engaged m userId vd w = true ->
  failures_in_window userId w < 5 ->
  exists (isValid : bool) (w' : World),
    verify2FA userId email vd req w
    = Ret (if isValid then VerificationSuccessful else InvalidVerification) w'
    /\ failures_in_window userId w'
       = failures_in_window userId w + (if isValid then 0 else 1)
    /\ (forall other, other <> userId ->
                      failures_in_window other w' = failures_in_window other w)
    /\ (isValid = false -> failures_in_window userId w = 4 ->
        forall vd' req', verify2FA userId email vd' req' w' = Ret TooManyAttempts w').
Proof.
  intros Hup Hm Hen Hfree.
  assert (Hatt : is_down T_user_2fa_attempt w = false)
    by (unfold is_down; now rewrite Hup).
  destruct (engaged_verifier_logs m userId email vd req w Hup Hen)
    as [isValid [w' [Hrun [Hrows [Hclock Hdown]]]]].
  exists isValid, w'.
  pose proof (failures_after_log m userId userId isValid req w w' Hrows Hclock) as Hown.
  rewrite String.eqb_refl in Hown. cbn [andb] in Hown.
  repeat split.
  - rewrite (verify2FA_unlocked m) by assumption. unfold bind. rewrite Hrun.
    reflexivity.
  - rewrite Hown. destruct isValid; reflexivity.
  - intros other Hother.
    rewrite (failures_after_log m userId other isValid req w w' Hrows Hclock).
    replace (userId =? other)%string with false; [cbn; lia|].
    symmetry. apply String.eqb_neq. congruence.
  - intros -> Hfour vd' req'. apply verify2FA_locked.
    + unfold is_down. now rewrite Hdown.
    + rewrite Hown. cbn. lia.
Qed.

End FailedVerifications.

(** ** A one-time code is accepted once *)

Section CodeReplay.
Context `{Crypto} `{Config} `{JsString} `{Collation}.

Lemma spent_codes_match_nothing (email email' : string) (otp : option string) (now : Z)
      (l : list OtpRow) :
  sql_eq email' email = true ->
  filter (authModel.otp_matches email' otp now)
         (update_where (fun r => sql_eq (otp_email r) email) authModel.mark_used l)
  = [].
Proof.
  intros Hsame. unfold update_where. induction l as [|r l IH]; [reflexivity|].
  cbn [map filter]. destruct (sql_eq (otp_email r) email) eqn:He.
  - unfold authModel.otp_matches at 1. cbn [authModel.mark_used otp_is_used negb].
    rewrite andb_false_r. exact IH.
  - unfold authModel.otp_matches at 1.
    destruct (sql_eq (otp_email r) email') eqn:He'.
    + rewrite (sql_eq_trans _ _ _ He' Hsame) in He. discriminate He.
    + rewrite andb_false_r. cbn [andb]. exact IH.
Qed.

Lemma verifyToken_spent (email email' : string) (otp : option string) (w : World) :
  is_down T_otp w = false ->
  sql_eq email' email = true ->
  otps (db w) = update_where (fun r => sql_eq (otp_email r) email)
                             authModel.mark_used (otps (db w)) ->
  authModel.verifyToken email' otp w = Ret false w.
Proof.
  intros Hup Hsame Hspent. unfold authModel.verifyToken, bind.
  rewrite select_up by assumption.
  rewrite Hspent, (spent_codes_match_nothing email email' _ _ _ Hsame).
  reflexivity.
Qed.

Lemma update_where_idem {A} (cond : A -> bool) (set : A -> A) (l : list A) :
  (forall r, cond (set r) = cond r) -> (forall r, set (set r) = set r) ->
  update_where cond set (update_where cond set l) = update_where cond set l.
Proof.
  intros Hc Hs. unfold update_where. rewrite map_map. apply map_ext.
  intros r. destruct (cond r) eqn:E; [rewrite Hc, E; apply Hs | rewrite E; reflexivity].
Qed.

Lemma verifyOneTimeCode_accepts (userId email : string) (otp : option string)
      (req : option Req) (w w' : World) :
  verifyOneTimeCode userId email otp req w = Ret true w' ->
  is_down T_otp w = false /\ is_down T_user_2fa_attempt w = false
  /\ down w' = down w
  /\ otps (db w') = update_where (fun r => sql_eq (otp_email r) email)
                                 authModel.mark_used (otps (db w)).
Proof.
  unfold verifyOneTimeCode, authModel.verifyToken, twoFactorModel.log2FAAttempt,
    authModel.updateOtpStatus.
  destruct w as [d now dn md].
  unfold try_catch, bind, select, execute, executeQuery, ret, throw, is_down,
    current_time, with_db. cbn [db clock down mail_down].
  destruct (existsb (Table_eqb T_otp) dn) eqn:Hotp; [discriminate|].
  destruct (0 <? _); cbn [db clock down mail_down];
    destruct (existsb (Table_eqb T_user_2fa_attempt) dn) eqn:Hatt;
    try discriminate; cbn [db clock down mail_down]; rewrite ?Hotp;
    intros Heq; inversion Heq; subst; cbn; auto.
Qed.

(** Property X11. Once the e-mail verifier has accepted a code, every code
    stored for that address is spent: whatever is presented next, at
    whatever time, for the address or for another spelling of it that MySQL
    finds equal, to the second-factor verifier or to the password reset, is
    refused until a new code is minted. *)
Theorem accepted_code_cannot_be_replayed (userId email : string) (otp : option string)
        (req : option Req) (w w' : World) :
  verifyOneTimeCode userId email otp req w = Ret true w' ->
  forall (t : Z) (email' : string) (otp' : option string),
    sql_eq email' email = true ->
    (forall userId' req', exists w'',
        verifyOneTimeCode userId' email' otp' req' (at_time t w') = Ret false w'')
    /\ (forall password r w'',
           resetPasswordWithOTP email' otp' password (at_time t w') = Ret r w'' ->
           Response.is_error r = true /\ w'' = at_time t w').
Proof.
  intros Hrun t email' otp' Hsame.
  apply verifyOneTimeCode_accepts in Hrun. destruct Hrun as [Hotp [Hatt [Hdown Hrows]]].
  assert (Hotp' : is_down T_otp (at_time t w') = false)
    by (unfold is_down, at_time; cbn; rewrite Hdown; exact Hotp).
  assert (Hatt' : is_down T_user_2fa_attempt (at_time t w') = false)
    by (unfold is_down, at_time; cbn; rewrite Hdown; exact Hatt).
  assert (Hspent : authModel.verifyToken email' otp' (at_time t w')
                   = Ret false (at_time t w')).
  { apply (verifyToken_spent email email'); [assumption|exact Hsame|].
    cbn [at_time db]. rewrite Hrows at 1.
    symmetry. rewrite Hrows. apply update_where_idem; intros r; reflexivity. }
  split.
  - intros userId' req'.
    unfold verifyOneTimeCode, try_catch. unfold bind at 1. rewrite Hspent.
    unfold bind at 1, twoFactorModel.log2FAAttempt. rewrite execute_up by assumption.
    eexists. reflexivity.
  - intros password r w''. unfold resetPasswordWithOTP. rewrite try_catch_rethrow.
    unfold bind at 1.
    destruct (userModel.getByEmail email' (at_time t w')) as [[u|] w1|e w1] eqn:Hg;
      [| intros Heq; inversion Heq; subst; split; [reflexivity|]
       | discriminate ].
    + assert (w1 = at_time t w') as ->.
      { revert Hg. unfold userModel.getByEmail, bind, select.
        destruct (is_down T_user _); intros Heq; inversion Heq; reflexivity. }
      destruct (u_is_deleted u);
        [intros Heq; inversion Heq; subst; split; reflexivity|].
      destruct (negb (u_role u =? ROLES.SUPER_ADMIN)%string);
        [intros Heq; inversion Heq; subst; split; reflexivity|].
      unfold bind at 1. rewrite Hspent. cbn [negb].
      intros Heq; inversion Heq; subst; split; reflexivity.
    + revert Hg. unfold userModel.getByEmail, bind, select.
      destruct (is_down T_user _); intros Hg; inversion Hg; reflexivity.
Qed.

End CodeReplay.

(** ** Password reset by one-time code *)

Section PasswordReset.
Context `{Crypto} `{Config} `{JsString} `{Collation}.

Lemma first_row_update_where {A} (p cond : A -> bool) (set : A -> A) (l : list A) :
  (forall r, p (set r) = p r) ->
  first_row (filter p (update_where cond set l))
  = option_map (fun r => if cond r then set r else r) (first_row (filter p l)).
Proof.
  intros Hp. unfold update_where. induction l as [|r l IH]; [reflexivity|].
  cbn [map filter].
  replace (p (if cond r then set r else r)) with (p r)
    by (destruct (cond r); [symmetry; apply Hp|reflexivity]).
  destruct (p r); [reflexivity|exact IH].
Qed.

Lemma getByEmail_world email w u w' :
  userModel.getByEmail email w = Ret u w' -> w' = w.
Proof.
  unfold userModel.getByEmail, bind, select.
  destruct (is_down T_user w); intros Heq; inversion Heq; reflexivity.
Qed.

(** An [UPDATE] of the user's row that keeps the address is seen by the
    next lookup of the address. *)
Lemma getByEmail_after_update (email : string) (user : UserRow)
      (set : UserRow -> UserRow) (w w' : World) :
  userModel.getByEmail email w = Ret (Some user) w ->
  users (db w') = update_where (fun u => (u_id u =? u_id user)%string) set (users (db w)) ->
  down w' = down w ->
  (forall u, u_email (set u) = u_email u) ->
  userModel.getByEmail email w' = Ret (Some (set user)) w'.
Proof.
  intros Hg Husers Hdown Hset.
  destruct (getByEmail_found email user w Hg) as [Hup [Hfirst _]].
  unfold userModel.getByEmail, bind.
  rewrite select_up by (unfold is_down in *; rewrite Hdown; exact Hup).
  rewrite Husers, first_row_update_where by (intros r; rewrite Hset; reflexivity).
  rewrite Hfirst. cbn [option_map]. rewrite String.eqb_refl. reflexivity.
Qed.

Lemma verifyToken_accepts (email : string) (otp : option string) (w w' : World) :
  authModel.verifyToken email otp w = Ret true w' ->
  w' = w /\ is_down T_otp w = false
  /\ exists code, otp = Some code /\ code_is_live email code w = true.
Proof.
  intros Hrun.
  assert (Hup : is_down T_otp w = false).
  { revert Hrun. unfold authModel.verifyToken, bind, select.
    destruct (is_down T_otp w); [discriminate|reflexivity]. }
  destruct otp as [code|].
  - rewrite verifyToken_up in Hrun by assumption.
    injection Hrun as Hlive Hw. subst w'.
    split; [reflexivity|]. split; [assumption|].
    exists code. split; [reflexivity|assumption].
  - exfalso. revert Hrun. unfold authModel.verifyToken, bind.
    rewrite select_up by assumption.
    replace (filter _ _) with (@nil OtpRow); [discriminate|].
    symmetry. induction (otps (db w)) as [|r l IH]; [reflexivity|].
    cbn [filter]. unfold authModel.otp_matches at 1. cbn [andb]. exact IH.
Qed.

(** Property X12. A password reset that succeeds was asked for a super admin who
    is not deleted, with a code that was live for the address; afterwards
    the account carries the hash of the new password and the same identity,
    and the codes of the address are spent: the same request sent again, at
    any time, is refused and changes nothing. *)
Theorem password_reset_takes_effect_once (email password : string)
        (otp : option string) (w w' : World) (r : Response) :
  resetPasswordWithOTP email otp password w = Ret r w' ->
  Response.is_error r = false ->
  exists user code,
    reset_eligible email user w
    /\ otp = Some code
    /\ code_is_live email code w = true
    /\ userModel.getByEmail email w'
       = Ret (Some (userModel.set_password (bcrypt_hash password) user)) w'
    /\ forall (t : Z) (otp' : option string) (password' : string),
         resetPasswordWithOTP email otp' password' (at_time t w')
         = Ret (Response.error "Invalid or expired OTP code" 400) (at_time t w').
Proof.
  unfold resetPasswordWithOTP at 1. rewrite try_catch_rethrow. unfold bind at 1.
  destruct (userModel.getByEmail email w) as [[u|] w1|e w1] eqn:Hg;
    [| intros Heq; inversion Heq; subst; discriminate | discriminate ].
  pose proof (getByEmail_world _ _ _ _ Hg) as ->.
  destruct (u_is_deleted u) eqn:Hdel;
    [intros Heq; inversion Heq; subst; discriminate|].
  destruct (u_role u =? ROLES.SUPER_ADMIN)%string eqn:Hrole; cbn [negb];
    [|intros Heq; inversion Heq; subst; discriminate].
  unfold bind at 1.
  destruct (authModel.verifyToken email otp w) as [[|] w1|e w1] eqn:Hv;
    cbn [negb]; [| intros Heq; inversion Heq; subst; discriminate | discriminate ].
  apply verifyToken_accepts in Hv. destruct Hv as [-> [Hotp [code [-> Hlive]]]].
  destruct (getByEmail_found email u w Hg) as [Huser [Hfirst Hemail]].
  unfold bind at 1, userModel.updatePassword. rewrite execute_up by assumption.
  unfold bind at 1, authModel.updateOtpStatus.
  rewrite execute_up by (rewrite is_down_with_db; assumption).
  unfold ret. intros Heq _. inversion Heq; subst r w'. clear Heq.
  exists u, code.
  match goal with
  | |- context [userModel.getByEmail email ?w2 = _] => set (after := w2)
  end.
  assert (Hnew : forall t,
             userModel.getByEmail email (at_time t after)
             = Ret (Some (userModel.set_password (bcrypt_hash password) u))
                   (at_time t after)).
  { intros t.
    apply (getByEmail_after_update email u (userModel.set_password (bcrypt_hash password))
                                   w (at_time t after) Hg); reflexivity. }
  split; [|split; [|split; [|split]]].
  - unfold reset_eligible. repeat split; try assumption.
    apply String.eqb_eq. assumption.
  - reflexivity.
  - assumption.
  - change after with (at_time (clock w) after). apply Hnew.
  - intros t otp' password'. unfold resetPasswordWithOTP. rewrite try_catch_rethrow.
    unfold bind at 1. rewrite Hnew.
    cbn [userModel.set_password u_is_deleted u_role]. rewrite Hdel, Hrole. cbn [negb].
    unfold bind at 1. rewrite (verifyToken_spent email email).
    + reflexivity.
    + exact Hotp.
    + apply sql_eq_refl.
    + subst after. cbn [at_time with_db db set_otps set_users otps].
      symmetry. apply update_where_idem; intros r; reflexivity.
Qed.

End PasswordReset.

(** ** Password and e-mail changes *)

Section AccountChanges.
Context `{Crypto} `{Config} `{JsString} `{Collation}.

Lemma getById_found (id : string) (user : UserRow) (w w' : World) :
  userModel.getById id w = Ret (Some user) w' ->
  w' = w /\ is_down T_user w = false
  /\ first_row (filter (fun u => (u_id u =? id)%string) (users (db w))) = Some user
  /\ u_id user = id /\ In user (users (db w)).
Proof.
  unfold userModel.getById, bind, select.
  destruct (is_down T_user w); [discriminate|].
  unfold ret. intros Heq. injection Heq as Hfirst Hw. subst w'.
  split; [reflexivity|]. split; [reflexivity|]. split; [exact Hfirst|].
  destruct (filter _ _) as [|r l] eqn:Hf; [discriminate|].
  cbn in Hfirst. injection Hfirst as ->.
  assert (Hin : In user (user :: l)) by (left; reflexivity).
  rewrite <- Hf in Hin. apply filter_In in Hin. destruct Hin as [Hin Hid].
  apply String.eqb_eq in Hid. split; assumption.
Qed.

(** An [UPDATE] of the user's row that keeps the identifier is seen by the
    next lookup of the identifier. *)
Lemma getById_after_update (id : string) (user : UserRow)
      (set : UserRow -> UserRow) (w w' : World) :
  userModel.getById id w = Ret (Some user) w ->
  users (db w') = update_where (fun u => (u_id u =? id)%string) set (users (db w)) ->
  down w' = down w ->
  (forall u, u_id (set u) = u_id u) ->
  userModel.getById id w' = Ret (Some (set user)) w'.
Proof.
  intros Hg Husers Hdown Hset.
  destruct (getById_found id user w w Hg) as [_ [Hup [Hfirst [Hid _]]]].
  unfold userModel.getById, bind.
  rewrite select_up by (unfold is_down in *; rewrite Hdown; exact Hup).
  rewrite Husers, first_row_update_where by (intros r; rewrite Hset; reflexivity).
  rewrite Hfirst. cbn [option_map]. rewrite Hid, String.eqb_refl. reflexivity.
Qed.

(** Property X13. A password change goes through only for a stored, not deleted
    user whose current password matches and whose new password differs from
    it; the account then carries the hash of the new password. A refused
    change leaves the store as it was. *)
Theorem password_change_needs_current_password (userId currentPassword newPassword : string)
        (w w' : World) (r : Response) :
  updatePassword userId currentPassword newPassword w = Ret r w' ->
  if Response.is_error r then w' = w
  else exists user,
      userModel.getById userId w = Ret (Some user) w
      /\ u_is_deleted user = false
      /\ bcrypt_compare currentPassword (u_password user) = true
      /\ bcrypt_compare newPassword (u_password user) = false
      /\ userModel.getById userId w'
         = Ret (Some (userModel.set_password (bcrypt_hash newPassword) user)) w'.
Proof.
  unfold updatePassword. rewrite try_catch_rethrow. unfold bind at 1.
  destruct (userModel.getById userId w) as [[u|] w1|e w1] eqn:Hg;
    [| pose proof (getById_world _ _ _ _ Hg) as ->;
       intros Heq; inversion Heq; subst; reflexivity
     | discriminate ].
  pose proof (getById_world _ _ _ _ Hg) as ->.
  destruct (u_is_deleted u) eqn:Hdel; [intros Heq; inversion Heq; subst; reflexivity|].
  cbn [bcrypt_compare_js]. unfold bind at 1, ret at 1.
  destruct (bcrypt_compare currentPassword (u_password u)) eqn:Hcur; cbn [negb];
    [|intros Heq; inversion Heq; subst; reflexivity].
  unfold bind at 1, ret at 1.
  destruct (bcrypt_compare newPassword (u_password u)) eqn:Hnew;
    [intros Heq; inversion Heq; subst; reflexivity|].
  destruct (getById_found userId u w w Hg) as [_ [Hup _]].
  unfold bind, userModel.updatePassword. rewrite execute_up by assumption.
  unfold ret. intros Heq. inversion Heq; subst r w'. cbn [Response.is_error
    Response.okMessage code Z.leb]. cbn.
  exists u. repeat split; try assumption.
  apply (getById_after_update userId u _ w); try reflexivity. assumption.
Qed.

Lemma update_where_none {A} (cond : A -> bool) (set : A -> A) (l : list A) :
  (forall r, In r l -> cond r = false) -> update_where cond set l = l.
Proof.
  intros Hno. unfold update_where. rewrite <- (map_id l) at 2. apply map_ext_in.
  intros r Hin. rewrite (Hno r Hin). reflexivity.
Qed.

Lemma map_update_where_kept {A B} (f : A -> B) (cond : A -> bool) (set : A -> A)
      (l : list A) :
  (forall r, f (set r) = f r) -> map f (update_where cond set l) = map f l.
Proof.
  intros Hf. unfold update_where. rewrite map_map. apply map_ext.
  intros r. destruct (cond r); [apply Hf|reflexivity].
Qed.

Lemma same_id_same_row (l : list UserRow) (a b : UserRow) :
  NoDup (map u_id l) -> In a l -> In b l -> u_id a = u_id b -> a = b.
Proof.
  induction l as [|r l IH]; intros Hnd Ha Hb Heq; [destruct Ha|].
  cbn [map] in Hnd. inversion Hnd as [|? ? Hr Hnd']; subst.
  destruct Ha as [->|Ha], Hb as [->|Hb].
  - reflexivity.
  - exfalso. apply Hr. apply in_map_iff. exists b. split; [congruence|assumption].
  - exfalso. apply Hr. apply in_map_iff. exists a. split; [congruence|assumption].
  - apply IH; assumption.
Qed.

(** Giving one user an address that only that user's row matches keeps the
    addresses of the table apart. *)
Lemma emails_stay_unique (user : UserRow) (email : string) (l : list UserRow) :
  NoDup (map u_id l) ->
  (forall a b, In a l -> In b l -> sql_eq (u_email a) (u_email b) = true -> a = b) ->
  (forall a, In a l -> sql_eq (u_email a) email = true -> a = user) ->
  forall a b,
    In a (update_where (fun u => (u_id u =? u_id user)%string)
                       (userModel.set_email email) l) ->
    In b (update_where (fun u => (u_id u =? u_id user)%string)
                       (userModel.set_email email) l) ->
    sql_eq (u_email a) (u_email b) = true -> a = b.
Proof.
  intros Hids Hkey Honly a' b' Ha Hb.
  unfold update_where in Ha, Hb. apply in_map_iff in Ha, Hb.
  destruct Ha as [a [<- Ha]], Hb as [b [<- Hb]].
  destruct (u_id a =? u_id user)%string eqn:Hida,
           (u_id b =? u_id user)%string eqn:Hidb.
  - intros _. apply String.eqb_eq in Hida, Hidb.
    rewrite (same_id_same_row l a b Hids Ha Hb); congruence.
  - cbn [userModel.set_email u_email]. intros Heq. rewrite sql_eq_sym in Heq.
    rewrite (Honly b Hb Heq), String.eqb_refl in Hidb. discriminate Hidb.
  - cbn [userModel.set_email u_email]. intros Heq.
    rewrite (Honly a Ha Heq), String.eqb_refl in Hida. discriminate Hida.
  - apply Hkey; assumption.
Qed.

(** ... and the user is then the one found under the address. *)
Lemma found_under_new_email (user : UserRow) (email : string) (l : list UserRow) :
  NoDup (map u_id l) -> In user l ->
  (forall a, In a l -> sql_eq (u_email a) email = true -> a = user) ->
  first_row (filter (fun u => sql_eq (u_email u) email)
                    (update_where (fun u => (u_id u =? u_id user)%string)
                                  (userModel.set_email email) l))
  = Some (userModel.set_email email user).
Proof.
  induction l as [|x l IH]; intros Hids Hin Honly; [destruct Hin|].
  unfold update_where. cbn [map filter].
  fold (update_where (fun u => (u_id u =? u_id user)%string)
                     (userModel.set_email email) l).
  cbn [map] in Hids. inversion Hids as [|? ? Hx Hids']; subst.
  destruct (u_id x =? u_id user)%string eqn:Hxid.
  - cbn [userModel.set_email u_email]. rewrite sql_eq_refl. cbn [first_row hd_error].
    apply String.eqb_eq in Hxid. destruct Hin as [->|Hin]; [reflexivity|].
    exfalso. apply Hx. apply in_map_iff. exists user. split; [congruence|assumption].
  - destruct (sql_eq (u_email x) email) eqn:Hmail.
    + rewrite (Honly x (or_introl eq_refl) Hmail), String.eqb_refl in Hxid.
      discriminate Hxid.
    + apply IH; try assumption.
      * destruct Hin as [->|Hin]; [|assumption].
        rewrite String.eqb_refl in Hxid. discriminate.
      * intros a Ha. apply Honly. right. assumption.
Qed.

Lemma first_row_none {A} (p : A -> bool) (l : list A) :
  first_row (filter p l) = None -> forall r, In r l -> p r = false.
Proof.
  intros Hnone r Hin. destruct (p r) eqn:Hp; [|reflexivity].
  assert (Hf : In r (filter p l)) by (apply filter_In; split; assumption).
  destruct (filter p l); [destruct Hf|discriminate].
Qed.

Lemma first_row_in {A} (p : A -> bool) (l : list A) (r : A) :
  first_row (filter p l) = Some r -> In r l /\ p r = true.
Proof.
  intros Hsome. destruct (filter p l) as [|x rest] eqn:Hf; [discriminate|].
  cbn in Hsome. injection Hsome as ->.
  apply filter_In. rewrite Hf. left. reflexivity.
Qed.

(** Property X14. An e-mail change goes through only for a super admin who gives
    the current password, and only to an address that differs from the
    current one as a string and that MySQL finds equal to the address of no
    other row; in a user table keyed by identifier and by address it keeps
    both keys, and the account is found under the new address afterwards. *)
Theorem email_change_keeps_addresses_unique (userId currentPassword newEmail : string)
        (w w' : World) (r : Reply) :
  users_keyed w ->
  changeEmail userId currentPassword newEmail w = Ret r w' ->
  Reply.is_error r = false ->
  exists user,
    userModel.getById userId w = Ret (Some user) w
    /\ u_role user = ROLES.SUPER_ADMIN
    /\ bcrypt_compare currentPassword (u_password user) = true
    /\ u_email user <> newEmail
    /\ (forall u, In u (users (db w)) -> sql_eq (u_email u) newEmail = true -> u = user)
    /\ users_keyed w'
    /\ userModel.getByEmail newEmail w'
       = Ret (Some (userModel.set_email newEmail user)) w'.
Proof.
  intros [Hids Hemails]. unfold changeEmail. rewrite try_catch_rethrow.
  unfold bind at 1.
  destruct (userModel.getById userId w) as [[u|] w1|e w1] eqn:Hg;
    [| intros Heq; inversion Heq; subst; discriminate | discriminate ].
  destruct (getById_found userId u w w1 Hg) as [-> [Hup [Hfirst [Hid Hin]]]].
  destruct (u_is_deleted u) eqn:Hdel; [intros Heq; inversion Heq; subst; discriminate|].
  destruct (u_role u =? ROLES.SUPER_ADMIN)%string eqn:Hrole; cbn [negb];
    [|intros Heq; inversion Heq; subst; discriminate].
  cbn [bcrypt_compare_js]. unfold bind at 1, ret at 1.
  destruct (bcrypt_compare currentPassword (u_password u)) eqn:Hcur; cbn [negb];
    [|intros Heq; inversion Heq; subst; discriminate].
  unfold bind at 1. unfold userModel.getByEmail at 1, bind at 1.
  rewrite select_up by assumption. unfold ret at 1.
  assert (Honly : (match first_row (filter (fun u0 => sql_eq (u_email u0) newEmail)
                                           (users (db w))) with
                   | Some existing => negb (u_id existing =? userId)%string
                   | None => false
                   end) = false ->
                  forall u0, In u0 (users (db w)) ->
                             sql_eq (u_email u0) newEmail = true -> u0 = u).
  { destruct (first_row (filter (fun u0 => sql_eq (u_email u0) newEmail)
                                (users (db w)))) as [existing|] eqn:Hex.
    - intros Hsame u0 Hin0 Hmail0. apply negb_false_iff, String.eqb_eq in Hsame.
      apply first_row_in in Hex. destruct Hex as [Hex_in Hex_mail].
      assert (existing = u) as -> by (apply (same_id_same_row _ _ _ Hids); congruence).
      apply Hemails; try assumption.
      apply (sql_eq_trans _ newEmail); [assumption|].
      rewrite sql_eq_sym. assumption.
    - intros _ u0 Hin0 Hmail0.
      rewrite (first_row_none _ _ Hex u0 Hin0) in Hmail0. discriminate Hmail0. }
  destruct (match first_row _ with Some _ => _ | None => _ end);
    [intros Heq; inversion Heq; subst; discriminate|].
  specialize (Honly eq_refl).
  destruct (u_email u =? newEmail)%string eqn:Hnew;
    [intros Heq; inversion Heq; subst; discriminate|].
  unfold bind, userModel.updateEmail. rewrite execute_up by assumption.
  unfold ret. intros Heq _. inversion Heq; subst r w'. clear Heq.
  exists u. subst userId.
  split; [reflexivity|]. split; [apply String.eqb_eq; assumption|].
  split; [assumption|]. split; [apply String.eqb_neq; assumption|].
  split; [assumption|]. split; [split|].
  - cbn [with_db db set_users users].
    rewrite map_update_where_kept by reflexivity. assumption.
  - cbn [with_db db set_users users]. apply emails_stay_unique; assumption.
  - unfold userModel.getByEmail, bind.
    rewrite select_up by (rewrite is_down_with_db; assumption).
    cbn [with_db db set_users users clock]. unfold ret. f_equal.
    apply found_under_new_email; assumption.
Qed.

End AccountChanges.

(** ** Logging out all other devices *)

Section RevokeAll.
Context `{Collation}.

Lemma filter_all {A} (l : list A) : filter (fun _ => true) l = l.
Proof. induction l as [|x l IH]; [reflexivity|]. cbn. f_equal. exact IH. Qed.

Lemma count_insert_by {A} (p : A -> bool) (le : A -> A -> bool) (x : A) (l : list A) :
  List.length (filter p (insert_by le x l)) = List.length (filter p (x :: l)).
Proof.
  induction l as [|y l IH]; [reflexivity|].
  cbn [insert_by]. destruct (le x y); [reflexivity|].
  cbn [filter] in *. destruct (p y), (p x); cbn [List.length] in *; lia.
Qed.

(** Sorting a result set changes no count. *)
Lemma count_order_by {A} (p : A -> bool) (le : A -> A -> bool) (l : list A) :
  List.length (filter p (order_by le l)) = List.length (filter p l).
Proof.
  unfold order_by. induction l as [|x l IH]; [reflexivity|].
  cbn [fold_right]. rewrite count_insert_by. cbn [filter].
  destruct (p x); cbn [List.length]; congruence.
Qed.

(** The loop deletes, by identifier, the sessions of its list that are not
    the current device, and counts them. *)
Lemma revoke_others_deletes (req : Req) (l : list SessionRow) (n : nat) (w : World) :
  is_down T_device_session w = false ->
  revoke_others (Some req) l n w
  = Ret (n + List.length (filter (fun s => negb (isCurrentDevice req s)) l))%nat
        (with_db
           (set_sessions
              (filter (fun s => negb (existsb (fun x => sql_eq (s_id s) (s_id x)
                                                        && negb (isCurrentDevice req x)) l))
                      (sessions (db w)))
              (db w)) w).
Proof.
  revert n w. induction l as [|x l IH]; intros n w Hup.
  - cbn [revoke_others filter List.length existsb negb]. unfold ret.
    rewrite Nat.add_0_r, filter_all. destruct w as [[] ? ? ?]. reflexivity.
  - cbn [revoke_others filter existsb].
    destruct (isCurrentDevice req x) eqn:Hcur; cbn [negb].
    + rewrite IH by assumption. do 3 f_equal.
      apply filter_ext. intros s. rewrite andb_false_r. reflexivity.
    + unfold bind at 1, deviceSessionModel.deleteSession.
      rewrite execute_up by assumption.
      rewrite IH by (rewrite is_down_with_db; assumption).
      cbn [List.length]. f_equal; [lia|].
      cbn [with_db db set_sessions sessions clock down mail_down businesses users
           user_roles otps settings authenticators questions backup_codes attempts].
      unfold with_db, set_sessions. cbn. do 2 f_equal.
      unfold delete_where.
      induction (sessions (db w)) as [|s r IHr]; [reflexivity|].
      cbn [filter]. rewrite andb_true_r.
      destruct (sql_eq (s_id s) (s_id x)); cbn [negb orb filter].
      * exact IHr.
      * destruct (negb (existsb _ l)); [f_equal|]; exact IHr.
Qed.

(** Property X15. In a session table keyed by identifier, logging out all other
    devices removes exactly the caller's sessions that do not carry the
    fingerprint of the request, keeps the caller's current device and every
    session of other users, and reports how many it removed; called without
    a request it removes nothing. *)
Theorem revoke_all_keeps_current_device (userId : string) (w : World) :
  is_down T_device_session w = false ->
  sessions_keyed w ->
  (forall req : Req,
     exists w',
       revokeAllOtherDevices userId (Some req) w
       = Ret (Reply.ok
                (Revoked (List.length
                            (filter (fun s => (s_user_id s =? userId)%string
                                              && negb (isCurrentDevice req s))
                                    (sessions (db w))))))
             w'
       /\ sessions (db w')
          = filter (fun s => negb (s_user_id s =? userId)%string || isCurrentDevice req s)
                   (sessions (db w)))
  /\ revokeAllOtherDevices userId None w = Ret (Reply.ok (Revoked 0)) w.
Proof.
  intros Hup Hids. split.
  - intros req. unfold revokeAllOtherDevices. rewrite try_catch_rethrow.
    unfold bind at 1, deviceSessionModel.getUserSessions.
    rewrite select_up by assumption. unfold bind at 1.
    rewrite revoke_others_deletes by assumption. unfold ret.
    eexists. split.
    + do 4 f_equal. cbn [Nat.add].
      set (mine := filter (fun s => (s_user_id s =? userId)%string) (sessions (db w))).
      transitivity (List.length (filter (fun s => negb (isCurrentDevice req s)) mine)).
      * apply count_order_by.
      * subst mine. clear. induction (sessions (db w)) as [|s r IH]; [reflexivity|].
        cbn [filter]. destruct (s_user_id s =? userId)%string; cbn [andb filter];
          [destruct (negb (isCurrentDevice req s)); cbn [List.length]; congruence|exact IH].
    + cbn [with_db db set_sessions sessions].
      apply filter_ext_in. intros s Hin.
      destruct (s_user_id s =? userId)%string eqn:Hmine; cbn [negb orb].
      * destruct (isCurrentDevice req s) eqn:Hcur.
        -- apply Bool.negb_true_iff. apply Bool.not_true_iff_false.
           intros Hex. apply existsb_exists in Hex. destruct Hex as [x [Hx Hp]].
           apply andb_prop in Hp. destruct Hp as [Hid Hnot].
           apply In_order_by in Hx.
           apply filter_In in Hx. destruct Hx as [Hx _].
           assert (s = x) as -> by (apply Hids; assumption).
           rewrite Hcur in Hnot. discriminate.
        -- apply Bool.negb_false_iff. apply existsb_exists. exists s. split.
           ++ apply In_order_by. apply filter_In. split; assumption.
           ++ rewrite sql_eq_refl, Hcur. reflexivity.
      * apply Bool.negb_true_iff. apply Bool.not_true_iff_false.
        intros Hex. apply existsb_exists in Hex. destruct Hex as [x [Hx Hp]].
        apply andb_prop in Hp. destruct Hp as [Hid _].
        apply In_order_by in Hx.
        apply filter_In in Hx. destruct Hx as [Hx Hxu].
        assert (s = x) as -> by (apply Hids; assumption).
        rewrite Hxu in Hmine. discriminate.
  - unfold revokeAllOtherDevices. rewrite try_catch_rethrow.
    unfold bind at 1, deviceSessionModel.getUserSessions.
    rewrite select_up by assumption. unfold bind at 1.
    replace (revoke_others None _ 0 w) with (@Ret nat 0%nat w); [reflexivity|].
    generalize (order_by (fun a b => s_last_active b <=? s_last_active a)
                  (filter (fun s => (s_user_id s =? userId)%string) (sessions (db w)))).
    intros l. induction l as [|x l IH]; [reflexivity|exact IH].
Qed.

End RevokeAll.

(** ** Unblocking and revoking a session *)

Section LiftingBlocks.
Context `{Collation}.

(** Property X16. The block lives on the session row. Unblocking a session, or
    revoking it, lifts the block it carried: afterwards a fingerprint is
    refused for the user only if another of the user's blocked sessions
    carries it; a revoked session is gone. *)
Theorem unblock_or_revoke_lifts_the_block (userId sessionId : string)
        (session : SessionRow) (w : World) :
  deviceSessionModel.getSessionById sessionId w = Ret (Some session) w ->
  s_user_id session = userId ->
  (exists w',
      unblockDevice userId sessionId w
      = Ret (Response.okMessage
               "Device unblocked successfully. This device can now access your account again.")
            w'
      /\ forall rq, blocked_for userId rq w' <-> blocked_elsewhere userId sessionId rq w)
  /\ (forall req, is_current req session = false ->
      exists w',
        revokeDevice userId sessionId req w
        = Ret (Response.okMessage
                 "Device session revoked successfully. This device has been logged out.")
              w'
        /\ deviceSessionModel.getSessionById sessionId w' = Ret None w'
        /\ forall rq, blocked_for userId rq w' <-> blocked_elsewhere userId sessionId rq w).
Proof.
  intros Hfound Hown.
  destruct (getSessionById_found _ _ _ Hfound) as [Hup [Hin Hid]].
  split.
  - unfold unblockDevice. rewrite try_catch_rethrow. unfold bind at 1. rewrite Hfound.
    rewrite Hown, String.eqb_refl. cbn [negb].
    unfold bind, deviceSessionModel.unblockSession. rewrite execute_up by assumption.
    eexists. split; [reflexivity|].
    intros rq. unfold blocked_for, blocked_elsewhere.
    cbn [with_db db set_sessions sessions]. unfold update_where. split.
    + intros [s [Hs [Hu [Hb Hfp]]]]. apply in_map_iff in Hs.
      destruct Hs as [s0 [Hs0 Hin0]].
      destruct (sql_eq (s_id s0) sessionId) eqn:Hsid; subst s.
      * cbn in Hb. discriminate.
      * exists s0. auto.
    + intros [s [Hs [Hne [Hu [Hb Hfp]]]]]. exists s. repeat split; try assumption.
      apply in_map_iff. exists s. split; [|assumption].
      rewrite Hne. reflexivity.
  - intros req Hcur. unfold revokeDevice. rewrite try_catch_rethrow.
    unfold bind at 1. rewrite Hfound.
    rewrite Hown, String.eqb_refl, Hcur. cbn [negb].
    unfold bind, deviceSessionModel.deleteSession. rewrite execute_up by assumption.
    eexists. split; [reflexivity|]. split.
    + unfold deviceSessionModel.getSessionById, bind.
      rewrite select_up by (rewrite is_down_with_db; assumption).
      cbn [with_db db set_sessions sessions]. unfold ret, delete_where.
      replace (filter _ (filter _ (sessions (db w)))) with (@nil SessionRow);
        [reflexivity|].
      clear. induction (sessions (db w)) as [|s l IH]; [reflexivity|].
      cbn [filter]. destruct (sql_eq (s_id s) sessionId) eqn:Hs; cbn [negb filter].
      * apply IH.
      * rewrite Hs. apply IH.
    + intros rq. unfold blocked_for, blocked_elsewhere.
      cbn [with_db db set_sessions sessions]. unfold delete_where. split.
      * intros [s [Hs [Hu [Hb Hfp]]]]. apply filter_In in Hs. destruct Hs as [Hs Hne].
        apply Bool.negb_true_iff in Hne. exists s. auto.
      * intros [s [Hs [Hne [Hu [Hb Hfp]]]]]. exists s. repeat split; try assumption.
        apply filter_In. split; [assumption|].
        apply Bool.negb_true_iff. assumption.
Qed.

End LiftingBlocks.

(** ** The settings and backup-code tables *)

Section SettingsStore.
Context `{Crypto} `{JsString} `{Collation}.

Lemma world_eta (w : World) : with_db (db w) w = w.
Proof. destruct w. reflexivity. Qed.

Lemma insert_codes_up (userId : string) (codeHashes : list string) (w : World) :
  is_down T_user_2fa_backup_code w = false ->
  twoFactorModel.insert_codes userId codeHashes w
  = Ret tt (with_db (set_backup_codes
                       (with_new_codes userId codeHashes (backup_codes (db w))) (db w)) w).
Proof.
  revert w. induction codeHashes as [|h rest IH]; intros w Hup.
  - cbn [twoFactorModel.insert_codes with_new_codes]. unfold ret.
    destruct w as [[] ? ? ?]. reflexivity.
  - cbn [twoFactorModel.insert_codes with_new_codes]. unfold bind.
    rewrite execute_up by assumption.
    rewrite IH by (rewrite is_down_with_db; assumption). reflexivity.
Qed.

Lemma insert_questions_up (userId : string) (qs : list twoFactorModel.NewQuestion)
      (w : World) :
  is_down T_user_security_question w = false ->
  twoFactorModel.insert_questions userId qs w
  = Ret tt (with_db (set_questions
                       (with_new_questions userId qs (questions (db w))) (db w)) w).
Proof.
  revert w. induction qs as [|q rest IH]; intros w Hup.
  - cbn [twoFactorModel.insert_questions with_new_questions]. unfold ret.
    destruct w as [[] ? ? ?]. reflexivity.
  - cbn [twoFactorModel.insert_questions with_new_questions]. unfold bind.
    rewrite execute_up by assumption.
    rewrite IH by (rewrite is_down_with_db; assumption). reflexivity.
Qed.

Lemma generateBackupCodes_up (userId : string) (draw : nat -> string) (w : World) :
  is_down T_user_2fa_backup_code w = false ->
  twoFactorService.generateBackupCodes userId draw w
  = Ret (map draw (seq 0 10))
        (with_db
           (set_backup_codes
              (with_new_codes userId (map bcrypt_hash (map draw (seq 0 10)))
                 (delete_where (fun r => (bc_user_id r =? userId)%string
                                         && negb (bc_is_used r))
                               (backup_codes (db w))))
              (db w)) w).
Proof.
  intros Hup. unfold twoFactorService.generateBackupCodes, twoFactorModel.saveBackupCodes.
  unfold bind. rewrite execute_up by assumption.
  rewrite insert_codes_up by (rewrite is_down_with_db; assumption). reflexivity.
Qed.

(** What the upsert leaves under the user's key, and under the others. *)
Lemma upsert_rows (userId other : string) (row : SettingsRow) (l : list SettingsRow) :
  st_user_id row = userId ->
  first_row
    (filter (fun r => (st_user_id r =? other)%string)
       (if existsb (fun r => (st_user_id r =? userId)%string) l
        then update_where (fun r => (st_user_id r =? userId)%string) (fun _ => row) l
        else (l ++ [row])%list))
  = if (userId =? other)%string then Some row
    else first_row (filter (fun r => (st_user_id r =? other)%string) l).
Proof.
  intros Hrow. destruct (userId =? other)%string eqn:Hsame.
  - apply String.eqb_eq in Hsame. subst other.
    induction l as [|r l IH].
    + cbn. rewrite Hrow, String.eqb_refl. reflexivity.
    + cbn [existsb]. destruct (st_user_id r =? userId)%string eqn:Hr; cbn [orb].
      * unfold update_where. cbn [map filter]. rewrite Hr, Hrow, String.eqb_refl.
        reflexivity.
      * destruct (existsb _ l).
        -- unfold update_where in *. cbn [map filter]. rewrite Hr, Hr. exact IH.
        -- cbn [app filter]. rewrite Hr. exact IH.
  - assert (Hne : (st_user_id row =? other)%string = false) by (rewrite Hrow; exact Hsame).
    destruct (existsb _ l).
    + unfold update_where. induction l as [|r l IH]; [reflexivity|].
      cbn [map filter]. destruct (st_user_id r =? userId)%string eqn:Hr.
      * rewrite Hne. apply String.eqb_eq in Hr.
        replace (st_user_id r =? other)%string with false; [exact IH|].
        symmetry. rewrite Hr. exact Hsame.
      * destruct (st_user_id r =? other)%string; [reflexivity|exact IH].
    + rewrite filter_app. cbn [filter]. rewrite Hne, app_nil_r. reflexivity.
Qed.

Lemma upsert_then_get (userId other : string) (flags : twoFactorModel.Flags)
      (w : World) :
  is_down T_user_2fa_settings w = false ->
  exists w',
    twoFactorModel.upsert2FASettings userId flags w = Ret tt w'
    /\ down w' = down w /\ clock w' = clock w
    /\ backup_codes (db w') = backup_codes (db w)
    /\ twoFactorModel.get2FASettings other w'
       = Ret (if (userId =? other)%string
              then Some (twoFactorModel.settings_row userId flags)
              else first_row (filter (fun r => (st_user_id r =? other)%string)
                                     (settings (db w)))) w'.
Proof.
  intros Hup. unfold twoFactorModel.upsert2FASettings. rewrite execute_up by assumption.
  eexists. split; [reflexivity|]. repeat split.
  unfold twoFactorModel.get2FASettings, bind.
  rewrite select_up by (rewrite is_down_with_db; assumption).
  cbn [with_db db set_settings settings]. unfold ret. f_equal.
  apply upsert_rows. reflexivity.
Qed.

End SettingsStore.

(** ** The second-factor switches *)

Section Switches.
Context `{Crypto} `{JsString} `{Collation}.

Lemma all_up (w : World) : down w = [] -> forall t, is_down t w = false.
Proof. intros Hup t. unfold is_down. rewrite Hup. reflexivity. Qed.

Lemma get2FASettings_up (userId : string) (w : World) :
  is_down T_user_2fa_settings w = false ->
  twoFactorModel.get2FASettings userId w
  = Ret (first_row (filter (fun r => (st_user_id r =? userId)%string) (settings (db w)))) w.
Proof.
  intros Hup. unfold twoFactorModel.get2FASettings, bind. rewrite select_up by assumption.
  reflexivity.
Qed.

Lemma get2FASettings_frame (userId : string) (row : option SettingsRow) (w w' : World) :
  twoFactorModel.get2FASettings userId w = Ret row w ->
  settings (db w') = settings (db w) -> down w' = down w ->
  twoFactorModel.get2FASettings userId w' = Ret row w'.
Proof.
  unfold twoFactorModel.get2FASettings, bind, select, is_down.
  intros Hget Hrows Hdown. rewrite Hrows, Hdown.
  destruct (existsb _ (down w)); [discriminate|].
  unfold ret in *. injection Hget as ->. reflexivity.
Qed.

(** The body the switches share: read the settings, write them back with
    [change] applied, go on with [k]. *)
Lemma settings_rewritten {A} (userId : string)
      (change : twoFactorModel.Flags -> twoFactorModel.Flags) (k : M A) (w : World) :
  is_down T_user_2fa_settings w = false ->
  exists w',
    (settings <- twoFactorModel.get2FASettings userId ;;
     twoFactorModel.upsert2FASettings userId (change (twoFactorService.flags_of settings)) ;;;
     k) w = k w'
    /\ down w' = down w /\ clock w' = clock w
    /\ backup_codes (db w') = backup_codes (db w)
    /\ authenticators (db w') = authenticators (db w)
    /\ questions (db w') = questions (db w)
    /\ forall other,
        twoFactorModel.get2FASettings other w'
        = Ret (if (userId =? other)%string
               then Some (twoFactorModel.settings_row userId
                            (change (twoFactorService.flags_of
                               (first_row (filter (fun r => (st_user_id r =? userId)%string)
                                                  (settings (db w)))))))
               else first_row (filter (fun r => (st_user_id r =? other)%string)
                                      (settings (db w)))) w'.
Proof.
  intros Hup. unfold bind at 1. rewrite get2FASettings_up by assumption.
  unfold bind at 1, twoFactorModel.upsert2FASettings. rewrite execute_up by assumption.
  eexists. split; [reflexivity|]. repeat split.
  intros other. unfold twoFactorModel.get2FASettings, bind.
  rewrite select_up by (rewrite is_down_with_db; assumption).
  cbn [with_db db set_settings settings]. unfold ret. f_equal.
  apply upsert_rows. reflexivity.
Qed.

(** Property X17. Each switch of the second factor answers with a success,
    stores for the user the flags found with its own flag changed and
    [is_2fa_enabled] as their disjunction, and leaves the settings of every
    other user as they were. *)
Theorem every_switch_rewrites_only_its_flag (t : Toggle) (userId : string)
        (draw : nat -> string) (w : World) :
  down w = [] ->
  exists r w',
    run_toggle t userId draw w = Ret r w'
    /\ Reply.is_error r = false
    /\ twoFactorModel.get2FASettings userId w'
       = Ret (Some (twoFactorModel.settings_row userId
                      (flags_after t (stored_flags userId w)))) w'
    /\ forall other, other <> userId ->
                     value_of (twoFactorModel.get2FASettings other w')
                     = value_of (twoFactorModel.get2FASettings other w).
Proof.
  intros Hempty. pose proof (all_up w Hempty) as Hall.
  assert (Hstored : stored_flags userId w
                    = twoFactorService.flags_of
                        (first_row (filter (fun r => (st_user_id r =? userId)%string)
                                           (settings (db w))))).
  { unfold stored_flags. rewrite get2FASettings_up by apply Hall. reflexivity. }
  assert (Hdone : forall (w1 w2 w' : World),
             settings (db w1) = settings (db w) ->
             (forall other,
                 twoFactorModel.get2FASettings other w2
                 = Ret (if (userId =? other)%string
                        then Some (twoFactorModel.settings_row userId
                                     (flags_after t
                                        (twoFactorService.flags_of
                                           (first_row
                                              (filter (fun r => (st_user_id r =? userId)%string)
                                                      (settings (db w1)))))))
                        else first_row (filter (fun r => (st_user_id r =? other)%string)
                                               (settings (db w1)))) w2) ->
             settings (db w') = settings (db w2) -> down w' = down w2 ->
             twoFactorModel.get2FASettings userId w'
             = Ret (Some (twoFactorModel.settings_row userId
                            (flags_after t (stored_flags userId w)))) w'
             /\ forall other, other <> userId ->
                              value_of (twoFactorModel.get2FASettings other w')
                              = value_of (twoFactorModel.get2FASettings other w)).
  { intros w1 w2 w' Hw1 Hget Hrows Hdown. rewrite Hw1 in Hget. split.
    - rewrite Hstored.
      apply (get2FASettings_frame userId _ w2 w'); try assumption.
      rewrite Hget, String.eqb_refl. reflexivity.
    - intros other Hne.
      rewrite (get2FASettings_frame other _ w2 w' (Hget other) Hrows Hdown).
      replace (userId =? other)%string with false
        by (symmetry; apply String.eqb_neq; congruence).
      rewrite get2FASettings_up by apply Hall. reflexivity. }
  destruct t; cbn [run_toggle flags_after] in *.
  - unfold twoFactorService.disableAuthenticator. rewrite try_catch_rethrow.
    unfold bind at 1, twoFactorModel.deleteAuthenticator.
    rewrite execute_up by apply Hall.
    match goal with
    | |- context [bind _ _ ?w1] =>
        destruct (settings_rewritten userId (twoFactorService.with_authenticator false)
                    (ret (Reply.okMessage "Authenticator disabled successfully")) w1)
          as [w2 [Hrun [Hdown [Hclock [_ [_ [_ Hget]]]]]]];
        [rewrite is_down_with_db; apply Hall|];
        rewrite Hrun; unfold ret; eexists; exists w2;
        split; [reflexivity|]; split; [reflexivity|];
        apply (Hdone w1 w2 w2); auto
    end.
  - unfold twoFactorService.enableOneTimeCode. rewrite try_catch_rethrow.
    destruct (settings_rewritten userId (twoFactorService.with_one_time_code true)
                (backupCodes <- twoFactorService.generateBackupCodes userId draw ;;
                 ret (Reply.ok (BackupCodesIssued
                                  "One-time code via email enabled successfully"
                                  backupCodes))) w)
      as [w2 [Hrun [Hdown [Hclock [_ [_ [_ Hget]]]]]]]; [apply Hall|].
    rewrite Hrun. unfold bind.
    rewrite generateBackupCodes_up by (unfold is_down; rewrite Hdown; apply Hall).
    unfold ret. eexists; eexists. split; [reflexivity|]. split; [reflexivity|].
    apply (Hdone w w2); auto.
  - unfold twoFactorService.disableOneTimeCode. rewrite try_catch_rethrow.
    destruct (settings_rewritten userId (twoFactorService.with_one_time_code false)
                (ret (Reply.okMessage "One-time code disabled successfully")) w)
      as [w2 [Hrun [Hdown [Hclock [_ [_ [_ Hget]]]]]]]; [apply Hall|].
    rewrite Hrun. unfold ret. eexists; exists w2.
    split; [reflexivity|]. split; [reflexivity|].
    apply (Hdone w w2 w2); auto.
  - unfold twoFactorService.setupSecurityQuestions. rewrite try_catch_rethrow.
    unfold bind at 1, twoFactorModel.saveSecurityQuestions. unfold bind at 1.
    rewrite execute_up by apply Hall.
    rewrite insert_questions_up by (rewrite is_down_with_db; apply Hall).
    match goal with
    | |- context [bind _ _ ?w1] =>
        destruct (settings_rewritten userId (twoFactorService.with_security_question true)
                    (backupCodes <- twoFactorService.generateBackupCodes userId draw ;;
                     ret (Reply.ok (BackupCodesIssued
                                      "Security questions enabled successfully"
                                      backupCodes))) w1)
          as [w2 [Hrun [Hdown [Hclock [_ [_ [_ Hget]]]]]]];
        [rewrite !is_down_with_db; apply Hall|];
        rewrite Hrun; unfold bind;
        rewrite generateBackupCodes_up
          by (unfold is_down; rewrite Hdown; apply (Hall T_user_2fa_backup_code));
        unfold ret; eexists; eexists;
        split; [reflexivity|]; split; [reflexivity|];
        apply (Hdone w1 w2); auto
    end.
  - unfold twoFactorService.disableSecurityQuestions. rewrite try_catch_rethrow.
    unfold bind at 1, twoFactorModel.deleteSecurityQuestions.
    rewrite execute_up by apply Hall.
    match goal with
    | |- context [bind _ _ ?w1] =>
        destruct (settings_rewritten userId (twoFactorService.with_security_question false)
                    (ret (Reply.okMessage "Security questions disabled successfully")) w1)
          as [w2 [Hrun [Hdown [Hclock [_ [_ [_ Hget]]]]]]];
        [rewrite is_down_with_db; apply Hall|];
        rewrite Hrun; unfold ret; eexists; exists w2;
        split; [reflexivity|]; split; [reflexivity|];
        apply (Hdone w1 w2 w2); auto
    end.
Qed.

End Switches.

(** ** Regenerating backup codes *)

Section NewBackupCodes.
Context `{Crypto} `{JsString} `{Collation}.

Lemma with_new_codes_app (userId : string) (codeHashes : list string)
      (rows : list BackupCodeRow) :
  exists news,
    with_new_codes userId codeHashes rows = (rows ++ news)%list
    /\ map bc_code_hash news = codeHashes
    /\ Forall (fun r => bc_user_id r = userId /\ bc_is_used r = false) news.
Proof.
  revert rows. induction codeHashes as [|h rest IH]; intros rows.
  - exists []. cbn. rewrite app_nil_r. auto.
  - cbn [with_new_codes].
    destruct (IH (rows ++ [{| bc_id := next_id (map bc_id rows); bc_user_id := userId;
                              bc_code_hash := h; bc_is_used := false;
                              bc_used_at := None |}])%list)
      as [news [Happ [Hhashes Hall]]].
    eexists (_ :: news). rewrite Happ, <- app_assoc. cbn [app map].
    split; [reflexivity|]. split; [f_equal; exact Hhashes|].
    constructor; [split; reflexivity|exact Hall].
Qed.

Lemma filter_delete_where {A} (p : A -> bool) (l : list A) :
  filter p (delete_where p l) = [].
Proof.
  unfold delete_where. induction l as [|r l IH]; [reflexivity|].
  cbn [filter]. destruct (p r) eqn:Hp; cbn [negb filter]; [|rewrite Hp]; exact IH.
Qed.

Lemma filter_all_in {A} (p : A -> bool) (l : list A) :
  Forall (fun r => p r = true) l -> filter p l = l.
Proof.
  induction 1 as [|r l Hr _ IH]; [reflexivity|]. cbn [filter]. rewrite Hr, IH.
  reflexivity.
Qed.

(** The loop accepts as soon as one stored code compares equal. *)
Lemma scan_codes_accepts (userId plain : string) (req : option Req)
      (codes : list BackupCodeRow) (w : World) :
  is_down T_user_2fa_backup_code w = false ->
  is_down T_user_2fa_attempt w = false ->
  existsb (fun c => bcrypt_compare plain (bc_code_hash c)) codes = true ->
  exists w', scan_codes userId (Some plain) req codes w = Ret true w'.
Proof.
  intros Hcodes Hatt. induction codes as [|c rest IH]; [discriminate|].
  cbn [existsb scan_codes bcrypt_compare_js]. unfold bind at 1, ret at 1.
  destruct (bcrypt_compare plain (bc_code_hash c)); cbn [orb]; [intros _|exact IH].
  unfold bind at 1, twoFactorModel.useBackupCode. unfold bind at 1.
  rewrite select_up by assumption.
  destruct (first_row _) as [code|].
  - unfold bind at 1. rewrite execute_up by assumption. unfold ret at 1.
    unfold bind, twoFactorModel.log2FAAttempt.
    rewrite execute_up by (rewrite is_down_with_db; assumption).
    eexists. reflexivity.
  - unfold ret at 1. unfold bind, twoFactorModel.log2FAAttempt.
    rewrite execute_up by assumption. eexists. reflexivity.
Qed.

(** Property X18. New backup codes replace the user's unused ones: the ten codes
    handed out are the only unused codes the user has afterwards, in the
    order they were drawn; codes already used and the codes of other users
    stay; and each code handed out is accepted by the backup-code verifier. *)
Theorem new_backup_codes_replace_the_unused_ones (userId : string)
        (draw : nat -> string) (w : World) :
  is_down T_user_2fa_backup_code w = false ->
  exists w',
    twoFactorService.regenerateBackupCodes userId draw w
    = Ret (Reply.ok (BackupCodesIssued
                       "New backup codes generated. Save them in a safe place."
                       (map draw (seq 0 10)))) w'
    /\ map bc_code_hash (unused_codes userId (db w'))
       = map bcrypt_hash (map draw (seq 0 10))
    /\ twoFactorModel.getRemainingBackupCodesCount userId w' = Ret 10 w'
    /\ (forall r, In r (backup_codes (db w)) ->
                  bc_user_id r <> userId \/ bc_is_used r = true ->
                  In r (backup_codes (db w')))
    /\ (is_down T_user_2fa_attempt w = false ->
        forall (i : nat) (req : option Req),
          (i < 10)%nat ->
          bcrypt_compare (draw i) (bcrypt_hash (draw i)) = true ->
          exists w'', verifyBackupCode userId (Some (draw i)) req w' = Ret true w'').
Proof.
  intros Hup. unfold twoFactorService.regenerateBackupCodes.
  rewrite try_catch_rethrow. unfold bind.
  rewrite generateBackupCodes_up by assumption. unfold ret.
  eexists. split; [reflexivity|].
  set (kept := delete_where (fun r => (bc_user_id r =? userId)%string
                                      && negb (bc_is_used r)) (backup_codes (db w))).
  destruct (with_new_codes_app userId (map bcrypt_hash (map draw (seq 0 10))) kept)
    as [news [Happ [Hhashes Hnews]]].
  assert (Hunused : unused_codes userId
                      (db (with_db
                             (set_backup_codes
                                (with_new_codes userId
                                   (map bcrypt_hash (map draw (seq 0 10))) kept)
                                (db w)) w)) = news).
  { unfold unused_codes. cbn [with_db db set_backup_codes backup_codes].
    rewrite Happ, filter_app. subst kept. rewrite filter_delete_where. cbn [app].
    apply filter_all_in. eapply Forall_impl; [|exact Hnews].
    intros r [Hu Hb]. cbn beta. rewrite Hu, Hb, String.eqb_refl. reflexivity. }
  split; [rewrite Hunused; exact Hhashes|]. split; [|split].
  - unfold twoFactorModel.getRemainingBackupCodesCount.
    rewrite select_up by (rewrite is_down_with_db; assumption).
    f_equal. unfold count_where. fold (unused_codes userId
      (db (with_db (set_backup_codes
                      (with_new_codes userId (map bcrypt_hash (map draw (seq 0 10))) kept)
                      (db w)) w))).
    rewrite Hunused. rewrite <- (length_map bc_code_hash), Hhashes, !length_map.
    reflexivity.
  - intros r Hin Hkeep. cbn [with_db db set_backup_codes backup_codes].
    rewrite Happ. apply in_or_app. left. subst kept. unfold delete_where.
    apply filter_In. split; [assumption|].
    apply Bool.negb_true_iff, Bool.andb_false_iff.
    destruct Hkeep as [Hne|Hused].
    + left. apply String.eqb_neq. assumption.
    + right. rewrite Hused. reflexivity.
  - intros Hatt i req Hi Hsound.
    unfold verifyBackupCode, try_catch. unfold bind at 1.
    rewrite select_up by (rewrite is_down_with_db; assumption).
    rewrite Hunused.
    destruct (scan_codes_accepts userId (draw i) req news
                (with_db (set_backup_codes
                            (with_new_codes userId
                               (map bcrypt_hash (map draw (seq 0 10))) kept)
                            (db w)) w)) as [w'' Hrun].
    + rewrite is_down_with_db. assumption.
    + rewrite is_down_with_db. assumption.
    + apply existsb_exists.
      assert (Hin : In (bcrypt_hash (draw i)) (map bc_code_hash news)).
      { rewrite Hhashes. apply in_map, in_map, in_seq. lia. }
      apply in_map_iff in Hin. destruct Hin as [c [Hc Hin]].
      exists c. split; [assumption|]. rewrite Hc. assumption.
    + rewrite Hrun. exists w''. reflexivity.
Qed.

End NewBackupCodes.

(** ** Redeeming a backup code *)

Section SpentBackupCodes.
Context `{Crypto} `{JsString} `{Collation}.

Lemma same_id_same_code (l : list BackupCodeRow) (a b : BackupCodeRow) :
  NoDup (map bc_id l) -> In a l -> In b l -> bc_id a = bc_id b -> a = b.
Proof.
  induction l as [|r l IH]; intros Hnd Ha Hb Heq; [destruct Ha|].
  cbn [map] in Hnd. inversion Hnd as [|? ? Hr Hnd']; subst.
  destruct Ha as [->|Ha], Hb as [->|Hb].
  - reflexivity.
  - exfalso. apply Hr. apply in_map_iff. exists b. split; [congruence|assumption].
  - exfalso. apply Hr. apply in_map_iff. exists a. split; [congruence|assumption].
  - apply IH; assumption.
Qed.




End SpentBackupCodes.

(** ** Authenticator enrolment *)

Section AuthenticatorEnrolment.
Context `{Crypto} `{twoFactorService.EnrolmentTotp} `{JsString} `{Collation}.





Lemma getAuthenticatorSecret_up (userId : string) (w : World) :
  is_down T_user_authenticator w = false ->
  twoFactorModel.getAuthenticatorSecret userId w
  = Ret (first_row
           (order_by (fun a b => au_created_at b <=? au_created_at a)
              (filter (fun r => (au_user_id r =? userId)%string)
                      (authenticators (db w))))) w.
Proof.
  intros Hup. unfold twoFactorModel.getAuthenticatorSecret, bind.
  rewrite select_up by assumption. reflexivity.
Qed.

(** Property X20. Setting up an authenticator stores the new secret in place of
    any earlier one, unverified; until the enrolment is confirmed the
    login-time verifier refuses every code for the user and logs nothing.
    The settings are not touched. *)
Theorem new_authenticator_secret_is_not_accepted_yet (user : UserRow) (secret : string)
        (w : World) :
  is_down T_user_authenticator w = false ->
  exists w',
    twoFactorService.setupAuthenticator user secret w
    = Ret (Reply.ok (AuthenticatorSecret secret)) w'
    /\ twoFactorModel.getAuthenticatorSecret (u_id user) w'
       = Ret (Some {| au_user_id := u_id user; au_secret := secret;
                      au_is_verified := false; au_created_at := clock w |}) w'
    /\ (forall token req, verifyAuthenticatorCode (u_id user) token req w' = Ret false w')
    /\ settings (db w') = settings (db w).
Proof.
  intros Hup. unfold twoFactorService.setupAuthenticator. rewrite try_catch_rethrow.
  unfold bind at 1, twoFactorModel.saveAuthenticatorSecret. unfold bind at 1.
  rewrite execute_up by assumption.
  rewrite execute_up by (rewrite is_down_with_db; assumption).
  unfold ret. eexists. split; [reflexivity|].
  match goal with
  | |- twoFactorModel.getAuthenticatorSecret _ ?w1 = _ /\ _ =>
      assert (Hget : twoFactorModel.getAuthenticatorSecret (u_id user) w1
                     = Ret (Some {| au_user_id := u_id user; au_secret := secret;
                                    au_is_verified := false;
                                    au_created_at := clock w |}) w1)
  end.
  { rewrite getAuthenticatorSecret_up by (rewrite !is_down_with_db; assumption).
    cbn [with_db db set_authenticators authenticators clock].
    rewrite filter_app, filter_delete_where. cbn [app filter au_user_id].
    rewrite String.eqb_refl. reflexivity. }
  split; [exact Hget|]. split; [|reflexivity].
  intros token req. unfold verifyAuthenticatorCode, try_catch. unfold bind at 1.
  rewrite Hget. reflexivity.
Qed.


End AuthenticatorEnrolment.

(** ** All-answers check, code lifetime, the session of a login *)

Section AnswersCodesSessions.
Context `{Crypto} `{Config} `{JsString} `{Collation}.

Lemma all_answers_correct_iff (questions : list QuestionRow) (answers : list Answer) :
  keyed_by_id questions ->
  (twoFactorService.all_answers_correct questions answers = true
   <-> forall answer, In answer answers -> answer_matches questions answer).
Proof.
  intros Hkey.
  induction answers as [|a rest IH]; cbn [twoFactorService.all_answers_correct].
  - split; [intros _ x []|reflexivity].
  - destruct (find_question questions a) as [q|] eqn:Hfind.
    + pose proof (proj1 (find_question_keyed questions a q Hkey) Hfind) as [Hin Hid].
      destruct (bcrypt_compare _ (q_answer_hash q)) eqn:Hcmp.
      * rewrite IH. split.
        -- intros Hall x [<-|Hx]; [exists q; now repeat split|apply Hall; assumption].
        -- intros Hall x Hx. apply Hall. right. assumption.
      * split; [discriminate|]. intros Hall.
        destruct (Hall a (or_introl eq_refl)) as [q' [Hin' [Hid' Hc']]].
        assert (Hq' : find_question questions a = Some q')
          by (apply find_question_keyed; auto).
        rewrite Hfind in Hq'. injection Hq' as <-. congruence.
    + split; [discriminate|]. intros Hall.
      destruct (Hall a (or_introl eq_refl)) as [q' [Hin' [Hid' _]]].
      assert (Hq' : find_question questions a = Some q')
        by (apply find_question_keyed; auto).
      congruence.
Qed.

(** Property X22. With the question table keyed by id, [verifySecurityAnswers]
    accepts exactly when every supplied answer names a stored question of
    the user and matches it, so an empty list of answers is accepted; it
    changes nothing, and answers [false] when the questions cannot be read. *)
Theorem security_answers_must_all_match (userId : string) (answers : list Answer)
        (w : World) :
  questions_keyed w ->
  (is_down T_user_security_question w = false ->
   exists b, twoFactorService.verifySecurityAnswers userId answers w = Ret b w
             /\ (b = true <-> forall answer, In answer answers ->
                                answer_matches (stored_questions userId w) answer))
  /\ (is_down T_user_security_question w = true ->
      twoFactorService.verifySecurityAnswers userId answers w = Ret false w).
Proof.
  intros Hkey. split; intros Hup.
  - pose proof (stored_questions_keyed userId w Hup Hkey) as Hstored.
    revert Hstored.
    unfold twoFactorService.verifySecurityAnswers, try_catch, bind, stored_questions,
      twoFactorModel.getSecurityQuestions.
    rewrite !select_up by assumption. cbn [value_of]. unfold ret. intros Hstored.
    eexists. split; [reflexivity|]. apply all_answers_correct_iff. exact Hstored.
  - unfold twoFactorService.verifySecurityAnswers, try_catch, bind,
      twoFactorModel.getSecurityQuestions.
    rewrite select_down by assumption. reflexivity.
Qed.

Lemma code_is_live_app (email otp : string) (w : World) (t : Z) (rows : list OtpRow) :
  existsb (fun r => sql_eq (otp_code r) otp && live_otp email t r)
          (otps (db w) ++ rows)%list
  = code_is_live email otp (at_time t w)
    || existsb (fun r => sql_eq (otp_code r) otp && live_otp email t r) rows.
Proof. unfold code_is_live. cbn [at_time db clock]. apply existsb_app. Qed.

(** Property X23. A one-time code sent to the user is accepted by the e-mail
    verifier at every time before ten minutes have passed since it was
    stored, and sending it makes no difference to the verdict on that code
    from the tenth minute on. *)
Theorem one_time_code_lives_ten_minutes (user : UserRow) (otp : string) (w : World) :
  is_down T_otp w = false -> is_down T_user_2fa_attempt w = false ->
  mail_down w = false ->
  exists w',
    twoFactorService.sendOneTimeCode user otp w
    = Ret (Response.okMessage "Verification code sent to your email") w'
    /\ forall (t : Z) (userId : string) (req : option Req),
        exists w'',
          verifyOneTimeCode userId (u_email user) (Some otp) req (at_time t w')
          = Ret (code_is_live (u_email user) otp (at_time t w)
                 || (t <? clock w + 600)) w''.
Proof.
  intros Hotp Hatt Hmail. unfold twoFactorService.sendOneTimeCode.
  rewrite try_catch_rethrow. unfold bind at 1, authModel.insertOtp.
  rewrite execute_up by assumption.
  unfold bind, emailService.sendPasswordResetOTPEmail. cbn [with_db mail_down].
  rewrite Hmail. unfold ret. eexists. split; [reflexivity|].
  intros t userId req.
  match goal with
  | |- context [verifyOneTimeCode _ _ _ _ ?w1] =>
      destruct (verifyOneTimeCode_up userId (u_email user) otp req w1)
        as [w'' [Hrun _]]; [exact Hotp|exact Hatt|]
  end.
  exists w''. rewrite Hrun. f_equal.
  unfold code_is_live at 1. cbn [at_time with_db db set_otps otps clock].
  rewrite code_is_live_app. f_equal. cbn [existsb]. unfold live_otp.
  cbn [otp_code otp_email otp_expires_at otp_is_used negb].
  rewrite !sql_eq_refl, orb_false_r, andb_true_r. reflexivity.
Qed.


End AnswersCodesSessions.

(** ** The second-factor step of a login *)

Section SecondFactorStep.
Context `{Crypto} `{Config} `{JsString} `{Collation}.

(** [verify2FA] answers with a success only below the lockout threshold and
    after the verifier of the named method has accepted the proof. *)
Lemma verify2FA_success (userId email : string) (vd : VerificationData)
      (req : option Req) (w w' : World) (r : Response) :
  verify2FA userId email vd req w = Ret r w' ->
  Response.is_error r = false ->
  failures_in_window userId w < 5
  /\ exists m, vd_method vd = method_name m
               /\ verifier_of m userId email vd req w = Ret true w'.
Proof.
  unfold verify2FA. rewrite try_catch_rethrow. unfold bind at 1.
  unfold twoFactorModel.getRecentFailedAttempts.
  destruct (is_down T_user_2fa_attempt w) eqn:Hup;
    [rewrite select_down by assumption; discriminate|].
  rewrite select_up by assumption. fold (failures_in_window userId w).
  destruct (5 <=? failures_in_window userId w) eqn:Hcount;
    [intros Heq; injection Heq as <- <-; discriminate|].
  apply Z.leb_gt in Hcount. intros Hrun Hok. split; [assumption|].
  revert Hrun.
  destruct (vd_method vd =? "authenticator")%string eqn:Ha;
    [apply String.eqb_eq in Ha; exists authenticator|
     destruct (vd_method vd =? "one_time_code")%string eqn:Ho;
     [apply String.eqb_eq in Ho; exists one_time_code|
      destruct (vd_method vd =? "security_question")%string eqn:Hq;
      [apply String.eqb_eq in Hq; exists security_question|
       destruct (vd_method vd =? "backup_code")%string eqn:Hb;
       [apply String.eqb_eq in Hb; exists backup_code|
        intros Heq; injection Heq as <- <-; discriminate]]]].
  all: revert Hrun; unfold bind; cbn [verifier_of method_name];
    match goal with
    | |- match ?o with _ => _ end = _ -> _ => destruct o as [[|] w1|e w1]
    end; cbn [negb]; intros Heq; try discriminate;
    injection Heq as <- <-; try discriminate; split; [assumption|reflexivity].
Qed.

(** Property X25. [verify2FAAndLogin] answers with a success (a session, or the
    role-selection step) only if the token is a live second-factor token of
    a stored, not deleted user, the user is below the lockout threshold, and
    the verifier of the named method has accepted the proof presented. *)
Theorem second_factor_cannot_be_skipped (tempToken : Token) (method uuid : string)
        (proof : option string) (answers : option (list Answer)) (req : option Req)
        (w w' : World) (r : Response) :
  verify2FAAndLogin tempToken method proof answers req uuid w = Ret r w' ->
  Response.is_error r = false ->
  exists claims exp user m w1,
    tempToken = Signed jwtSecret claims exp
    /\ clock w < exp
    /\ c_temp2FA claims = true
    /\ userModel.getById (c_id claims) w = Ret (Some user) w
    /\ u_is_deleted user = false
    /\ failures_in_window (u_id user) w < 5
    /\ method = method_name m
    /\ verifier_of m (u_id user) (u_email user)
         {| vd_method := method; vd_code := proof; vd_answers := answers |} req w
       = Ret true w1.
Proof.
  unfold verify2FAAndLogin, try_catch. unfold bind at 1.
  destruct (jwt.verify tempToken jwtSecret w) as [claims w0|e w0] eqn:Hv.
  2:{ revert Hv. unfold jwt.verify. destruct tempToken as [|key cl exp]; unfold throw.
      - intros Hv; inversion Hv; subst. cbn. intros Heq; inversion Heq; subst.
        discriminate.
      - destruct (negb (key =? jwtSecret)%string).
        + intros Hv; inversion Hv; subst. cbn. intros Heq; inversion Heq; subst.
          discriminate.
        + unfold bind, current_time, ret. destruct (exp <=? clock w).
          * intros Hv; inversion Hv; subst. cbn. intros Heq; inversion Heq; subst.
            discriminate.
          * discriminate. }
  apply jwt_verify_ret in Hv. destruct Hv as [-> [exp [-> Hlive]]].
  destruct (c_temp2FA claims) eqn:Htemp; cbn [negb];
    [|intros Heq; inversion Heq; subst; discriminate].
  unfold bind at 1.
  destruct (userModel.getById (c_id claims) w) as [[u|] w0|e w0] eqn:Hg;
    [| intros Heq; inversion Heq; subst; discriminate
     | apply getById_throws in Hg; rewrite token_errors_query by assumption;
       discriminate ].
  pose proof (getById_world _ _ _ _ Hg) as ->.
  destruct (u_is_deleted u) eqn:Hdel; [intros Heq; inversion Heq; subst; discriminate|].
  unfold bind at 1.
  destruct (verify2FA (u_id u) (u_email u) _ req w) as [res w1|e w1] eqn:Hver;
    [| apply verify2FA_throws in Hver; rewrite token_errors_query by assumption;
       discriminate ].
  destruct (Response.is_error res) eqn:Herr.
  { intros Heq; inversion Heq; subst. congruence. }
  intros _ _.
  destruct (verify2FA_success _ _ _ _ _ _ _ Hver Herr) as [Hcount [m [Hm Hrun]]].
  exists claims, exp, u, m, w1. repeat split; assumption.
Qed.

End SecondFactorStep.

(** ** Security-question enrolment *)

Section QuestionEnrolment.
Context `{Crypto} `{JsString} `{Collation}.

Lemma max_id_app (ids : list Z) (n : Z) :
  fold_right Z.max 0 (ids ++ [n]) = Z.max (fold_right Z.max 0 ids) n.
Proof.
  induction ids as [|i ids IH]; cbn [app fold_right]; [lia|]. rewrite IH. lia.
Qed.

Lemma with_new_questions_app (userId : string) (qs : list twoFactorModel.NewQuestion)
      (rows : list QuestionRow) :
  exists news,
    with_new_questions userId qs rows = (rows ++ news)%list
    /\ map q_question news = map twoFactorModel.question qs
    /\ map q_answer_hash news = map twoFactorModel.answerHash qs
    /\ Forall (fun r => q_user_id r = userId) news
    /\ ascending (fold_right Z.max 0 (map q_id rows)) (map q_id news).
Proof.
  revert rows. induction qs as [|q rest IH]; intros rows.
  - exists []. cbn. rewrite app_nil_r. auto.
  - cbn [with_new_questions].
    destruct (IH (rows ++ [{| q_id := next_id (map q_id rows); q_user_id := userId;
                              q_question := twoFactorModel.question q;
                              q_answer_hash := twoFactorModel.answerHash q |}])%list)
      as [news [Happ [Htexts [Hhashes [Huser Hasc]]]]].
    eexists (_ :: news). rewrite Happ, <- app_assoc. cbn [app map].
    split; [reflexivity|]. split; [f_equal; exact Htexts|].
    split; [f_equal; exact Hhashes|]. split; [constructor; [reflexivity|exact Huser]|].
    cbn [q_id ascending]. rewrite map_app in Hasc. cbn [map q_id] in Hasc.
    rewrite max_id_app in Hasc.
    unfold next_id in *. split; [lia|].
    replace (Z.max (fold_right Z.max 0 (map q_id rows))
                   (1 + fold_right Z.max 0 (map q_id rows)))
      with (1 + fold_right Z.max 0 (map q_id rows)) in Hasc by lia.
    exact Hasc.
Qed.

Lemma ascending_above (lo : Z) (ids : list Z) :
  ascending lo ids -> forall i, In i ids -> lo < i.
Proof.
  revert lo. induction ids as [|j rest IH]; intros lo Hasc i Hin; [destruct Hin|].
  destruct Hasc as [Hlo Hrest]. destruct Hin as [<-|Hin]; [assumption|].
  specialize (IH j Hrest i Hin). lia.
Qed.

(** Rows stored in the order of their identifiers come back in that order. *)
Lemma order_by_ascending (lo : Z) (l : list QuestionRow) :
  ascending lo (map q_id l) -> order_by (fun a b => q_id a <=? q_id b) l = l.
Proof.
  revert lo. induction l as [|x r IH]; intros lo Hasc; [reflexivity|].
  destruct Hasc as [_ Hrest]. unfold order_by in *. cbn [fold_right].
  rewrite (IH (q_id x) Hrest). destruct r as [|y r']; [reflexivity|].
  cbn [insert_by]. destruct Hrest as [Hlt _]. cbn [map] in Hlt.
  replace (q_id x <=? q_id y) with true by (symmetry; apply Z.leb_le; lia).
  reflexivity.
Qed.

Lemma find_ascending (lo : Z) (l : list QuestionRow) (q : QuestionRow) :
  ascending lo (map q_id l) -> In q l ->
  find (fun r => q_id r =? q_id q) l = Some q.
Proof.
  revert lo. induction l as [|x r IH]; intros lo Hasc Hin; [destruct Hin|].
  destruct Hasc as [_ Hrest]. cbn [find].
  destruct Hin as [->|Hin]; [rewrite Z.eqb_refl; reflexivity|].
  replace (q_id x =? q_id q) with false; [exact (IH (q_id x) Hrest Hin)|].
  symmetry. apply Z.eqb_neq.
  pose proof (ascending_above _ _ Hrest (q_id q) (in_map q_id _ _ Hin)). lia.
Qed.

(** Property X26. After security questions are set up, the questions asked at
    verification are the ones given, in the order given, in place of any the
    user had before; and the login-time verifier accepts an answer to any of
    them that equals the enrolled answer up to letter case and surrounding
    white space. *)
Theorem enrolled_questions_are_asked_and_accepted (userId : string)
        (qas : list twoFactorService.QuestionAndAnswer) (draw : nat -> string)
        (w : World) :
  down w = [] ->
  exists w',
    twoFactorService.setupSecurityQuestions userId qas draw w
    = Ret (Reply.ok (BackupCodesIssued "Security questions enabled successfully"
                                       (map draw (seq 0 10)))) w'
    /\ map q_question (stored_questions userId w')
       = map twoFactorService.qa_question qas
    /\ twoFactorService.getSecurityQuestionsForVerification userId w'
       = Ret (Reply.ok (Questions (map (fun q => (q_id q, q_question q))
                                       (stored_questions userId w')))) w'
    /\ forall (i : nat) (qa : twoFactorService.QuestionAndAnswer),
        nth_error qas i = Some qa ->
        exists q,
          nth_error (stored_questions userId w') i = Some q
          /\ q_question q = twoFactorService.qa_question qa
          /\ forall (text : string) (req : option Req),
              trim (toLowerCase text)
              = trim (toLowerCase (twoFactorService.qa_answer qa)) ->
              bcrypt_compare (trim (toLowerCase text))
                             (bcrypt_hash (trim (toLowerCase text))) = true ->
              exists w'',
                verifySecurityQuestionsCode userId
                  (Some [{| a_id := q_id q; a_answer := text |}]) req w'
                = Ret true w''.
Proof.
  intros Hempty. pose proof (all_up w Hempty) as Hall.
  unfold twoFactorService.setupSecurityQuestions. rewrite try_catch_rethrow.
  unfold bind at 1, twoFactorModel.saveSecurityQuestions. unfold bind at 1.
  rewrite execute_up by apply Hall.
  rewrite insert_questions_up by (rewrite is_down_with_db; apply Hall).
  set (kept := delete_where (fun r => (q_user_id r =? userId)%string) (questions (db w))).
  cbn [with_db db set_questions questions].
  fold kept.
  destruct (with_new_questions_app userId
              (map twoFactorService.hashed_question qas) kept)
    as [news [Happ [Htexts [Hhashes [Huser Hasc]]]]].
  match goal with
  | |- context [bind _ _ ?w1] =>
      destruct (settings_rewritten userId (twoFactorService.with_security_question true)
                  (backupCodes <- twoFactorService.generateBackupCodes userId draw ;;
                   ret (Reply.ok (BackupCodesIssued
                                    "Security questions enabled successfully"
                                    backupCodes))) w1)
        as [w2 [Hrun [Hdown [Hclock [_ [_ [Hqs _]]]]]]];
      [rewrite !is_down_with_db; apply Hall|]
  end.
  cbn [with_db down clock db set_questions questions] in Hdown, Hclock, Hqs.
  rewrite Hrun. unfold bind.
  rewrite generateBackupCodes_up by (unfold is_down; rewrite Hdown; apply Hall).
  unfold ret. eexists. split; [reflexivity|].
  match goal with
  | |- context [stored_questions userId ?w3] =>
      assert (Hstored : stored_questions userId w3 = news);
      [|assert (Hread : twoFactorModel.getSecurityQuestions userId w3 = Ret news w3)]
  end.
  { unfold stored_questions, twoFactorModel.getSecurityQuestions.
    rewrite select_up
      by (rewrite is_down_with_db; unfold is_down; rewrite Hdown; apply Hall).
    cbn [value_of with_db db set_backup_codes questions]. rewrite Hqs, Happ.
    rewrite filter_app. subst kept. rewrite filter_delete_where. cbn [app].
    rewrite filter_all_in
      by (eapply Forall_impl; [|exact Huser]; intros r Hr; cbn beta;
          rewrite Hr; apply String.eqb_refl).
    apply (order_by_ascending _ _ Hasc). }
  { revert Hstored. unfold stored_questions, twoFactorModel.getSecurityQuestions.
    rewrite select_up
      by (rewrite is_down_with_db; unfold is_down; rewrite Hdown; apply Hall).
    cbn [value_of]. intros ->. reflexivity. }
  rewrite Hstored. split; [|split].
  - rewrite Htexts, map_map. reflexivity.
  - unfold twoFactorService.getSecurityQuestionsForVerification.
    rewrite try_catch_rethrow. unfold bind. rewrite Hread. reflexivity.
  - intros i qa Hqa.
    assert (Hlen : (i < List.length news)%nat).
    { rewrite <- (length_map q_question), Htexts, !length_map.
      apply nth_error_Some. congruence. }
    destruct (nth_error news i) as [q|] eqn:Hq;
      [|apply nth_error_None in Hq; lia].
    exists q. split; [reflexivity|].
    assert (Htext : q_question q = twoFactorService.qa_question qa).
    { pose proof (map_nth_error q_question _ _ Hq) as Ht.
      rewrite Htexts, map_map in Ht.
      rewrite (map_nth_error _ _ _ Hqa) in Ht. injection Ht as Ht. symmetry. exact Ht. }
    assert (Hhash : q_answer_hash q
                    = bcrypt_hash (trim (toLowerCase (twoFactorService.qa_answer qa)))).
    { pose proof (map_nth_error q_answer_hash _ _ Hq) as Ht.
      rewrite Hhashes, map_map in Ht.
      rewrite (map_nth_error _ _ _ Hqa) in Ht. injection Ht as Ht. symmetry. exact Ht. }
    split; [exact Htext|].
    intros text req Hsame Hsound.
    unfold verifySecurityQuestionsCode, try_catch. unfold bind at 1.
    rewrite Hread.
    destruct news as [|n0 rest]; [destruct i; discriminate|].
    assert (Hfound : find_question (n0 :: rest) {| a_id := q_id q; a_answer := text |}
                     = Some q).
    { unfold find_question. cbn [a_id].
      apply (find_ascending _ _ _ Hasc). eapply nth_error_In. exact Hq. }
    cbn [check_answers]. rewrite Hfound. cbn [a_answer].
    rewrite Hhash, <- Hsame, Hsound.
    unfold bind, twoFactorModel.log2FAAttempt.
    rewrite execute_up
      by (rewrite is_down_with_db; unfold is_down; rewrite Hdown; apply Hall).
    eexists. reflexivity.
Qed.

End QuestionEnrolment.

(** ** The password hash in responses *)

Section PasswordHash.
Context `{Crypto} `{Config} `{JsString} `{Collation}.

Ltac answers_without_user :=
  intros Heq; inversion Heq; subst; cbn [body user_in_body Response.error DeviceBlocked];
  intros v Hv; discriminate Hv.

Ltac answers_with_clean_user :=
  intros Heq; inversion Heq; subst; cbn [body user_in_body Response.ok];
  intros v Hv; injection Hv as <-; reflexivity.

Lemma issue_session_clean user req uuid w r w' :
  issue_session user req uuid w = Ret r w' ->
  forall v, user_in_body (body r) = Some v -> v_password v = None.
Proof.
  intros Hrun. apply issue_session_ok in Hrun. subst r.
  cbn [body user_in_body Response.ok]. intros v Hv. injection Hv as <-. reflexivity.
Qed.

Lemma login_clean (email password : string) (req : option Req) (uuid : string)
      (w w' : World) (r : Response) :
  login email password req uuid w = Ret r w' ->
  forall v, user_in_body (body r) = Some v -> v_password v = None.
Proof.
  unfold login. unfold bind at 1.
  destruct (userModel.getByEmail email w) as [[u|] w1|e w1];
    [| answers_without_user | discriminate].
  cbn [bcrypt_compare_js]. unfold bind at 1, ret at 1.
  destruct (bcrypt_compare password (u_password u)); cbn [negb];
    [|answers_without_user].
  destruct (u_is_deleted u); [answers_without_user|].
  unfold bind at 1.
  destruct (isDeviceBlocked (u_id u) req w1) as [[|] w2|e w2];
    [answers_without_user| |discriminate].
  unfold login_factor_decision. unfold bind at 1.
  destruct (twoFactorModel.get2FASettings (u_id u) w2) as [settings w3|e w3];
    [|discriminate].
  destruct (match settings with Some s => st_is_2fa_enabled s | None => false end).
  - unfold jwt.sign, bind, current_time, ret. answers_with_clean_user.
  - destruct (u_role u =? ROLES.SUPER_ADMIN)%string; [|apply issue_session_clean].
    unfold bind at 1.
    destruct (userRolesModel.getUserRoleNames (u_id u) w3) as [names w4|e w4];
      [|discriminate].
    destruct (1 <? List.length names)%nat; [|apply issue_session_clean].
    unfold jwt.sign, bind, current_time, ret. answers_with_clean_user.
Qed.

Lemma selectRole_clean (selectedRole : string) (tempToken : option Token)
      (req : option Req) (uuid : string) (w w' : World) (r : Response) :
  selectRole selectedRole tempToken req uuid w = Ret r w' ->
  forall v, user_in_body (body r) = Some v -> v_password v = None.
Proof.
  unfold selectRole, try_catch.
  destruct tempToken as [tempToken|]; [|answers_without_user].
  assert (Hcatch : forall e w0,
             token_errors "Role selection token expired. Please login again." e w0
             = Ret r w' ->
             forall v, user_in_body (body r) = Some v -> v_password v = None).
  { intros e w0. destruct e; cbn [token_errors]; unfold ret, throw;
      try discriminate; answers_without_user. }
  unfold bind at 1.
  destruct (jwt.verify tempToken jwtSecret w) as [claims w0|e w0]; [|apply Hcatch].
  destruct (c_temp claims); cbn [negb]; [|answers_without_user].
  unfold bind at 1.
  destruct (userModel.getById (c_id claims) w0) as [[u|] w1|e w1];
    [| answers_without_user | apply Hcatch].
  destruct (u_role u =? ROLES.SUPER_ADMIN)%string; cbn [negb]; [|answers_without_user].
  destruct (u_is_deleted u); [answers_without_user|].
  unfold bind at 1.
  destruct (userRolesModel.getUserRoleNames (u_id u) w1) as [names w2|e w2];
    [|apply Hcatch].
  destruct (includes names selectedRole); cbn [negb]; [|answers_without_user].
  unfold bind at 1.
  destruct (isDeviceBlocked (u_id u) req w2) as [[|] w3|e w3];
    [answers_without_user| |apply Hcatch].
  unfold jwt.sign. unfold bind at 1, current_time, ret at 1.
  unfold bind at 1, ret at 1. unfold bind at 1.
  destruct (createDeviceSession u req uuid w3) as [[] w4|e w4]; [|apply Hcatch].
  unfold bind at 1.
  destruct (userModel.updateLastLoggedIn (u_id u) w4) as [[] w5|e w5]; [|apply Hcatch].
  unfold ret. answers_with_clean_user.
Qed.

(** Property X27. The user object in a response of [login] or [selectRole] never
    carries the password hash; the user object in a successful response of
    [verify2FAAndLogin] (a session, or the role-selection step) always
    carries the hash stored for the user of the token. *)
Theorem password_hash_in_second_factor_response :
  (forall email password req uuid w r w' v,
      login email password req uuid w = Ret r w' ->
      user_in_body (body r) = Some v -> v_password v = None)
  /\ (forall selectedRole tempToken req uuid w r w' v,
         selectRole selectedRole tempToken req uuid w = Ret r w' ->
         user_in_body (body r) = Some v -> v_password v = None)
  /\ (forall tempToken method proof answers req uuid w r w',
         verify2FAAndLogin tempToken method proof answers req uuid w = Ret r w' ->
         Response.is_error r = false ->
         exists claims exp user v,
           tempToken = Signed jwtSecret claims exp
           /\ userModel.getById (c_id claims) w = Ret (Some user) w
           /\ user_in_body (body r) = Some v
           /\ v_password v = Some (u_password user)).
Proof.
  split; [|split].
  - intros email password req uuid w r w' v Hrun. revert v.
    exact (login_clean _ _ _ _ _ _ _ Hrun).
  - intros selectedRole tempToken req uuid w r w' v Hrun. revert v.
    exact (selectRole_clean _ _ _ _ _ _ _ Hrun).
  - intros tempToken method proof answers req uuid w r w'.
    unfold verify2FAAndLogin, try_catch. unfold bind at 1.
    destruct (jwt.verify tempToken jwtSecret w) as [claims w0|e w0] eqn:Hv.
    2:{ revert Hv. unfold jwt.verify. destruct tempToken as [|key cl exp]; unfold throw.
        - intros Hv; inversion Hv; subst. cbn. intros Heq; inversion Heq; subst.
          discriminate.
        - destruct (negb (key =? jwtSecret)%string).
          + intros Hv; inversion Hv; subst. cbn. intros Heq; inversion Heq; subst.
            discriminate.
          + unfold bind, current_time, ret. destruct (exp <=? clock w).
            * intros Hv; inversion Hv; subst. cbn. intros Heq; inversion Heq; subst.
              discriminate.
            * discriminate. }
    apply jwt_verify_ret in Hv. destruct Hv as [-> [exp [-> Hlive]]].
    destruct (c_temp2FA claims) eqn:Htemp; cbn [negb];
      [|intros Heq; inversion Heq; subst; discriminate].
    unfold bind at 1.
    destruct (userModel.getById (c_id claims) w) as [[u|] w0|e w0] eqn:Hg;
      [| intros Heq; inversion Heq; subst; discriminate
       | apply getById_throws in Hg; rewrite token_errors_query by assumption;
         discriminate ].
    pose proof (getById_world _ _ _ _ Hg) as ->.
    destruct (u_is_deleted u) eqn:Hdel;
      [intros Heq; inversion Heq; subst; discriminate|].
    intros Hrun Hok.
    exists claims, exp, u, (userWithoutBusinessId_with_password u).
    split; [reflexivity|]. split; [exact Hg|]. split; [|reflexivity].
    revert Hrun Hok. unfold bind at 1.
    destruct (verify2FA (u_id u) (u_email u) _ req w) as [res w1|e w1] eqn:Hver;
      [| apply verify2FA_throws in Hver; rewrite token_errors_query by assumption;
         discriminate ].
    destruct (Response.is_error res) eqn:Herr.
    { intros Heq; inversion Heq; subst. congruence. }
    unfold bind at 1.
    destruct (isDeviceBlocked (u_id u) req w1) as [[|] w2|e w2] eqn:Hb;
      [ intros Heq; inversion Heq; discriminate | |
        exfalso; exact (isDeviceBlocked_returns _ _ _ _ _ Hb) ].
    assert (Hissue : match issue_session_after_2FA u req uuid w2 with
                     | Ret a w'0 => Ret a w'0
                     | Throw e w'0 =>
                         token_errors "2FA token expired. Please login again." e w'0
                     end = Ret r w' ->
                     Response.is_error r = false ->
                     user_in_body (body r)
                     = Some (userWithoutBusinessId_with_password u)).
    { destruct (issue_session_after_2FA u req uuid w2) as [a wa|e wa] eqn:Hi.
      - apply issue_session_after_2FA_ok in Hi. intros Heq _; inversion Heq; subst.
        reflexivity.
      - apply issue_session_after_2FA_throws in Hi.
        rewrite token_errors_query by assumption. discriminate. }
    destruct (u_role u =? ROLES.SUPER_ADMIN)%string; [|exact Hissue].
    unfold bind at 1.
    destruct (userRolesModel.getUserRoleNames (u_id u) w2) as [names w3|e w3] eqn:Hn;
      [| apply getUserRoleNames_throws in Hn; rewrite token_errors_query by assumption;
         discriminate ].
    destruct (1 <? List.length names)%nat; [|].
    + unfold jwt.sign, bind, current_time, ret. intros Heq _. inversion Heq; subst.
      reflexivity.
    + pose proof (getUserRoleNames_world _ _ _ _ Hn) as ->. exact Hissue.
Qed.

End PasswordHash.

(** ** The further properties at the sample data *)

Import fixtures.

Lemma login_refuses_blocked_fingerprint_witness :
  login "alice@example.com" "Password123!" (Some laptop) "s-2" blocked
  = Ret DeviceBlocked blocked
  /\ login "alice@example.com" "Password123!" (Some laptop) "s-2" world0
     = login_factor_decision alice (Some laptop) "s-2" world0.
Proof.
  split.
  - refine (proj1 (login_refuses_blocked_fingerprint
                     "alice@example.com" "Password123!" laptop "s-2" alice blocked
                     _ eq_refl) _).
    + repeat split; reflexivity.
    + exists blocked_laptop. repeat split. left. reflexivity.
  - refine (proj2 (login_refuses_blocked_fingerprint
                     "alice@example.com" "Password123!" laptop "s-2" alice world0
                     _ eq_refl) _).
    + repeat split; reflexivity.
    + intros [s [[<-|[]] [_ [Hblocked _]]]]. discriminate.
Defined.

Lemma blocked_session_locks_out_its_fingerprint_witness :
  let w' := world_of (blockDevice "u-alice" "s-1" (Some phone) world0) in
  isDeviceBlocked "u-alice" (Some laptop) w' = Ret true w'.
Proof.
  apply (blocked_session_locks_out_its_fingerprint
           "u-alice" "s-1" (Some phone) laptop_session
           (Response.okMessage
              "Device blocked successfully. This device can no longer access your account.")
           world0 (world_of (blockDevice "u-alice" "s-1" (Some phone) world0)));
    reflexivity.
Defined.

Lemma intermediate_purposes_not_interchangeable_witness :
  (verify2FAAndLogin selection_token "authenticator" (Some "424242") None
                     (Some laptop) "s-2" world0
   = Ret (Response.error "Invalid token. Please login first." 401) world0
   /\ send2FACode selection_token "123456" world0
      = Ret (Response.error "Invalid token. Please login first." 401) world0)
  /\ selectRole "admin" (Some pending_token) (Some laptop) "s-2" world0
     = Ret (Response.error
              "Invalid token. Please use the temporary token from login." 401) world0.
Proof.
  split.
  - exact (proj1 (intermediate_purposes_not_interchangeable
                    {| c_id := "u-alice"; c_role := "super_admin"; c_temp := true;
                       c_temp2FA := false; c_actualRole := None |} 4200
                    "authenticator" "admin" "123456" "s-2" (Some "424242") None
                    (Some laptop) world0 eq_refl) eq_refl).
  - exact (proj2 (intermediate_purposes_not_interchangeable
                    {| c_id := "u-alice"; c_role := "super_admin"; c_temp := false;
                       c_temp2FA := true; c_actualRole := None |} 4200
                    "authenticator" "admin" "123456" "s-2" (Some "424242") None
                    (Some laptop) world0 eq_refl) eq_refl).
Defined.

Lemma pending_token_lifetime_witness :
  verify2FAAndLogin pending_token "authenticator" (Some "424242") None (Some laptop)
                    "s-2" (at_time 4200 world0)
  = Ret (Response.error "2FA token expired. Please login again." 401)
        (at_time 4200 world0)
  /\ forall r w',
      verify2FAAndLogin pending_token "authenticator" (Some "424242") None (Some laptop)
                        "s-2" (at_time 4199 world0) = Ret r w' ->
      code r <> 401.
Proof.
  split.
  - refine (proj1 (pending_token_lifetime alice 3600 "authenticator" "s-2"
                     (Some "424242") None (Some laptop) (at_time 4200 world0)) _).
    vm_compute. discriminate.
  - refine (proj2 (pending_token_lifetime alice 3600 "authenticator" "s-2"
                     (Some "424242") None (Some laptop) (at_time 4199 world0)) _).
    reflexivity.
Defined.

Lemma login_second_factor_decision_witness :
  exists methods,
    login "alice@example.com" "Password123!" (Some laptop) "s-2" world0
    = Ret (Response.ok
             (Require2FA (Signed jwtSecret (temp2FA_claims alice)
                                 (clock world0 + ten_minutes))
                         methods (userWithoutBusinessId alice)
                         "Please complete 2FA verification")) world0
    /\ m_backupCode methods = true.
Proof.
  refine (proj1 (login_second_factor_decision
                   "alice@example.com" "Password123!" (Some laptop) "s-2" alice world0
                   _ eq_refl eq_refl) _).
  - repeat split; reflexivity.
  - reflexivity.
Defined.

Lemma gate_block_implies_login_block_witness :
  isDeviceBlocked "u-alice" (Some laptop) blocked = Ret true blocked.
Proof.
  apply (gate_block_implies_login_block alice "super_admin" laptop blocked blocked).
  reflexivity.
Defined.

Lemma reset_code_request_reveals_nothing_witness :
  exists w',
    requestPasswordResetOTP "nobody@example.com" "123456" world0 = Ret ResetCodeSent w'
    /\ ((forall user, ~ reset_eligible "nobody@example.com" user world0) -> w' = world0).
Proof.
  apply (reset_code_request_reveals_nothing "nobody@example.com" "123456" world0);
    reflexivity.
Defined.

Lemma gates_let_through_only_witness :
  exists claims,
    session_token_of (Some session_token) "super_admin" alice world0 claims
    /\ "super_admin" = ROLES.SUPER_ADMIN
    /\ u_is_deleted alice = false /\ u_is_active alice = true.
Proof.
  apply (proj1 (proj2 (gates_let_through_only
                         (Some session_token) laptop alice "super_admin" world0
                         (world_of (middleware.authenticateSuperAdmin
                                      (Some session_token) laptop world0))))).
  reflexivity.
Defined.

Lemma selectRole_grants_only_held_roles_witness :
  exists user, holds_role (u_id user) "admin" granted
               /\ userModel.getById "u-alice" granted = Ret (Some user) granted.
Proof.
  edestruct (selectRole_grants_only_held_roles
               "admin" "s-2" (Some selection_token) (Some laptop) granted)
    as [claims [exp [user [Htoken [_ [_ [Hget [_ [_ [Hrole _]]]]]]]]]].
  - reflexivity.
  - reflexivity.
  - injection Htoken as <- _. exists user. split; [exact Hrole|exact Hget].
Defined.

Lemma failed_verification_counts_towards_lockout_witness :
  exists (isValid : bool) (w' : World),
    verify2FA "u-alice" "alice@example.com" wrong_totp (Some laptop) four_failures
    = Ret (if isValid then VerificationSuccessful else InvalidVerification) w'
    /\ failures_in_window "u-alice" w'
       = failures_in_window "u-alice" four_failures + (if isValid then 0 else 1)
    /\ (forall other, other <> "u-alice" ->
                      failures_in_window other w' = failures_in_window other four_failures)
    /\ (isValid = false -> failures_in_window "u-alice" four_failures = 4 ->
        forall vd' req',
          verify2FA "u-alice" "alice@example.com" vd' req' w' = Ret TooManyAttempts w').
Proof.
  apply (failed_verification_counts_towards_lockout
           authenticator "u-alice" "alice@example.com" wrong_totp (Some laptop)
           four_failures); reflexivity.
Defined.

Lemma accepted_code_cannot_be_replayed_witness :
  let w' := world_of (verifyOneTimeCode "u-alice" "alice@example.com" (Some "111111")
                                        (Some laptop) two_codes) in
  (forall userId' req', exists w'',
      verifyOneTimeCode userId' "Alice@Example.com" (Some "222222") req' (at_time 3700 w')
      = Ret false w'')
  /\ (forall password r w'',
         resetPasswordWithOTP "Alice@Example.com" (Some "222222") password
                              (at_time 3700 w') = Ret r w'' ->
         Response.is_error r = true /\ w'' = at_time 3700 w').
Proof.
  refine (accepted_code_cannot_be_replayed
            "u-alice" "alice@example.com" (Some "111111") (Some laptop) two_codes
            (world_of (verifyOneTimeCode "u-alice" "alice@example.com" (Some "111111")
                                         (Some laptop) two_codes))
            _ 3700 "Alice@Example.com" (Some "222222") _); reflexivity.
Defined.

Lemma password_reset_takes_effect_once_witness :
  let w' := world_of (resetPasswordWithOTP "alice@example.com" (Some "111111")
                                           "NewPassword1!" two_codes) in
  exists user,
    userModel.getByEmail "alice@example.com" w'
    = Ret (Some (userModel.set_password (bcrypt_hash "NewPassword1!") user)) w'
    /\ resetPasswordWithOTP "alice@example.com" (Some "111111") "Another1!"
                            (at_time 3700 w')
       = Ret (Response.error "Invalid or expired OTP code" 400) (at_time 3700 w').
Proof.
  edestruct (password_reset_takes_effect_once
               "alice@example.com" "NewPassword1!" (Some "111111") two_codes
               (world_of (resetPasswordWithOTP "alice@example.com" (Some "111111")
                                               "NewPassword1!" two_codes))
               PasswordReset)
    as [user [code [_ [_ [_ [Hget Hspent]]]]]].
  - reflexivity.
  - reflexivity.
  - exists user. split; [exact Hget|apply Hspent].
Defined.

Lemma password_change_needs_current_password_witness :
  let w' := world_of (updatePassword "u-alice" "Password123!" "NewPassword1!" world0) in
  (exists user,
      userModel.getById "u-alice" world0 = Ret (Some user) world0
      /\ u_is_deleted user = false
      /\ bcrypt_compare "Password123!" (u_password user) = true
      /\ bcrypt_compare "NewPassword1!" (u_password user) = false
      /\ userModel.getById "u-alice" w'
         = Ret (Some (userModel.set_password (bcrypt_hash "NewPassword1!") user)) w')
  /\ world_of (updatePassword "u-alice" "wrong" "NewPassword1!" world0) = world0.
Proof.
  split.
  - exact (password_change_needs_current_password
             "u-alice" "Password123!" "NewPassword1!" world0
             (world_of (updatePassword "u-alice" "Password123!" "NewPassword1!" world0))
             (Response.okMessage "Password updated successfully") eq_refl).
  - exact (password_change_needs_current_password
             "u-alice" "wrong" "NewPassword1!" world0
             (world_of (updatePassword "u-alice" "wrong" "NewPassword1!" world0))
             (Response.error "Current password is incorrect" 401) eq_refl).
Defined.

Lemma email_change_keeps_addresses_unique_witness :
  let w' := world_of (changeEmail "u-alice" "Password123!" "alice@new.example" world0) in
  users_keyed w'
  /\ userModel.getByEmail "alice@new.example" w'
     = Ret (Some (userModel.set_email "alice@new.example" alice)) w'.
Proof.
  edestruct (email_change_keeps_addresses_unique
               "u-alice" "Password123!" "alice@new.example" world0)
    as [user [Hget [_ [_ [_ [_ [Hkeys Hfound]]]]]]].
  - split; [repeat constructor; cbn; intuition discriminate|].
    intros u u' [ <- | [ <- | [] ] ] [ <- | [ <- | [] ] ] Hsame;
      first [reflexivity | vm_compute in Hsame; discriminate Hsame].
  - reflexivity.
  - reflexivity.
  - injection Hget as <-. split; [exact Hkeys|exact Hfound].
Defined.

Lemma revoke_all_keeps_current_device_witness :
  (forall req : Req,
     exists w',
       revokeAllOtherDevices "u-alice" (Some req) two_devices
       = Ret (Reply.ok
                (Revoked (List.length
                            (filter (fun s => (s_user_id s =? "u-alice")%string
                                              && negb (isCurrentDevice req s))
                                    (sessions (db two_devices))))))
             w'
       /\ sessions (db w')
          = filter (fun s => negb (s_user_id s =? "u-alice")%string
                             || isCurrentDevice req s)
                   (sessions (db two_devices)))
  /\ revokeAllOtherDevices "u-alice" None two_devices
     = Ret (Reply.ok (Revoked 0)) two_devices.
Proof.
  apply (revoke_all_keeps_current_device "u-alice" two_devices).
  - reflexivity.
  - intros s s' [ <- | [ <- | [] ] ] [ <- | [ <- | [] ] ] Hsame;
      first [reflexivity | vm_compute in Hsame; discriminate Hsame].
Defined.

Lemma unblock_or_revoke_lifts_the_block_witness :
  (exists w',
      unblockDevice "u-alice" "s-1" blocked
      = Ret (Response.okMessage
               "Device unblocked successfully. This device can now access your account again.")
            w'
      /\ forall rq, blocked_for "u-alice" rq w'
                    <-> blocked_elsewhere "u-alice" "s-1" rq blocked)
  /\ (forall req, is_current req blocked_laptop = false ->
      exists w',
        revokeDevice "u-alice" "s-1" req blocked
        = Ret (Response.okMessage
                 "Device session revoked successfully. This device has been logged out.")
              w'
        /\ deviceSessionModel.getSessionById "s-1" w' = Ret None w'
        /\ forall rq, blocked_for "u-alice" rq w'
                      <-> blocked_elsewhere "u-alice" "s-1" rq blocked).
Proof.
  apply (unblock_or_revoke_lifts_the_block "u-alice" "s-1" blocked_laptop blocked);
    reflexivity.
Defined.

Lemma every_switch_rewrites_only_its_flag_witness :
  exists r w',
    run_toggle DisableOneTimeCode "u-alice" draw world0 = Ret r w'
    /\ Reply.is_error r = false
    /\ twoFactorModel.get2FASettings "u-alice" w'
       = Ret (Some (twoFactorModel.settings_row "u-alice"
                      (flags_after DisableOneTimeCode (stored_flags "u-alice" world0)))) w'
    /\ forall other, other <> "u-alice" ->
                     value_of (twoFactorModel.get2FASettings other w')
                     = value_of (twoFactorModel.get2FASettings other world0).
Proof.
  apply (every_switch_rewrites_only_its_flag DisableOneTimeCode "u-alice" draw world0).
  reflexivity.
Defined.

Lemma new_backup_codes_replace_the_unused_ones_witness :
  exists w',
    twoFactorService.regenerateBackupCodes "u-alice" draw world0
    = Ret (Reply.ok (BackupCodesIssued
                       "New backup codes generated. Save them in a safe place."
                       (map draw (seq 0 10)))) w'
    /\ twoFactorModel.getRemainingBackupCodesCount "u-alice" w' = Ret 10 w'
    /\ exists w'', verifyBackupCode "u-alice" (Some (draw 3)) (Some laptop) w'
                   = Ret true w''.
Proof.
  destruct (new_backup_codes_replace_the_unused_ones "u-alice" draw world0 eq_refl)
    as [w' [Hrun [_ [Hcount [_ Hredeem]]]]].
  exists w'. split; [exact Hrun|]. split; [exact Hcount|].
  apply (Hredeem eq_refl 3%nat (Some laptop)); [lia|reflexivity].
Defined.


Lemma new_authenticator_secret_is_not_accepted_yet_witness :
  exists w',
    twoFactorService.setupAuthenticator alice "JBSWY3DPEHPK3PXP" world0
    = Ret (Reply.ok (AuthenticatorSecret "JBSWY3DPEHPK3PXP")) w'
    /\ twoFactorModel.getAuthenticatorSecret (u_id alice) w'
       = Ret (Some {| au_user_id := u_id alice; au_secret := "JBSWY3DPEHPK3PXP";
                      au_is_verified := false; au_created_at := clock world0 |}) w'
    /\ (forall token req, verifyAuthenticatorCode (u_id alice) token req w' = Ret false w')
    /\ settings (db w') = settings (db world0).
Proof.
  apply (new_authenticator_secret_is_not_accepted_yet alice "JBSWY3DPEHPK3PXP" world0).
  reflexivity.
Defined.


Lemma security_answers_must_all_match_witness :
  (exists b, twoFactorService.verifySecurityAnswers "u-alice" [] world0 = Ret b world0
             /\ (b = true <-> forall answer, In answer [] ->
                                answer_matches (stored_questions "u-alice" world0) answer))
  /\ twoFactorService.verifySecurityAnswers "u-alice" answers_one_right
       (unreachable T_user_security_question world0)
     = Ret false (unreachable T_user_security_question world0).
Proof.
  assert (Hkeyed : forall w, questions (db w) = alice_questions -> questions_keyed w).
  { intros w Hrows q q'. rewrite Hrows.
    intros [ <- | [ <- | [ <- | [] ] ] ] [ <- | [ <- | [ <- | [] ] ] ] Hid;
      first [reflexivity | discriminate Hid]. }
  split.
  - apply (proj1 (security_answers_must_all_match "u-alice" [] world0
                    (Hkeyed world0 eq_refl))).
    reflexivity.
  - apply (proj2 (security_answers_must_all_match
                    "u-alice" answers_one_right
                    (unreachable T_user_security_question world0)
                    (Hkeyed (unreachable T_user_security_question world0) eq_refl))).
    reflexivity.
Defined.

Lemma one_time_code_lives_ten_minutes_witness :
  exists w',
    twoFactorService.sendOneTimeCode alice "654321" world0
    = Ret (Response.okMessage "Verification code sent to your email") w'
    /\ forall (t : Z) (userId : string) (req : option Req),
        exists w'',
          verifyOneTimeCode userId (u_email alice) (Some "654321") req (at_time t w')
          = Ret (code_is_live (u_email alice) "654321" (at_time t world0)
                 || (t <? clock world0 + 600)) w''.
Proof.
  apply (one_time_code_lives_ten_minutes alice "654321" world0); reflexivity.
Defined.


Lemma second_factor_cannot_be_skipped_witness :
  exists m w1,
    "authenticator" = method_name m
    /\ verifier_of m "u-alice" "alice@example.com" totp_proof (Some laptop) world0
       = Ret true w1.
Proof.
  edestruct (second_factor_cannot_be_skipped
               pending_token "authenticator" "s-2" (Some "424242") None (Some laptop)
               world0)
    as [claims [exp [user [m [w1 [Htoken [_ [_ [Hget [_ [_ [Hm Hrun]]]]]]]]]]]].
  - reflexivity.
  - reflexivity.
  - injection Htoken as <- _. injection Hget as <-. exists m, w1.
    split; [exact Hm|exact Hrun].
Defined.

Lemma enrolled_questions_are_asked_and_accepted_witness :
  exists w',
    value_of (twoFactorService.setupSecurityQuestions "u-alice" new_questions draw world0)
    = Some (Reply.ok (BackupCodesIssued "Security questions enabled successfully"
                                        (map draw (seq 0 10))))
    /\ map q_question (stored_questions "u-alice" w') = ["Name of your first school?"]
    /\ exists q w'',
        verifySecurityQuestionsCode "u-alice"
          (Some [{| a_id := q_id q; a_answer := "HILLTOP" |}]) (Some laptop) w'
        = Ret true w''.
Proof.
  destruct (enrolled_questions_are_asked_and_accepted "u-alice" new_questions draw world0
              eq_refl)
    as [w' [Hrun [Htexts [_ Haccepted]]]].
  destruct (Haccepted 0%nat _ eq_refl) as [q [_ [_ Hanswer]]].
  destruct (Hanswer "HILLTOP" (Some laptop) eq_refl eq_refl) as [w'' Hverified].
  exists w'. split; [rewrite Hrun; reflexivity|]. split; [exact Htexts|].
  exists q, w''. exact Hverified.
Defined.

Lemma password_hash_in_second_factor_response_witness :
  exists r w' v,
    verify2FAAndLogin pending_token "authenticator" (Some "424242") None (Some laptop)
                      "s-2" world0 = Ret r w'
    /\ user_in_body (body r) = Some v
    /\ v_password v = Some "$2a$10$Password123!".
Proof.
  edestruct (proj2 (proj2 password_hash_in_second_factor_response)
               pending_token "authenticator" (Some "424242") None (Some laptop) "s-2"
               world0)
    as [claims [exp [user [v [Htoken [Hget [Hbody Hhash]]]]]]].
  - reflexivity.
  - reflexivity.
  - injection Htoken as <- _. injection Hget as <-.
    eexists _, _, v. split; [reflexivity|].
    split; [exact Hbody|exact Hhash].
Defined.
